(** * label_image.py: a shallow embedding and its properties

    The script [tensorflow/examples/label_image/label_image.py] loads a frozen
    graph, preprocesses images, runs the graph and reports the best labels in
    one of three modes (single image, voting over a folder, top-K evaluation
    over 99 numbered folders).

    The embedding follows the script statement by statement.  What the script
    obtains from its libraries is kept apart from what it computes itself:

    - Python strings are [string], a character standing for a code point below
      256; the built-ins the script calls ([endswith], [rstrip], [split],
      [str], [int], [bool]) are written out on them.
    - Exceptions and output are a writer-over-error monad [M]: a computation
      yields the events it emitted (log records, printed lines, summaries) and
      either a value or the exception that stopped it.
    - Scores are an abstract scalar type; NumPy's [argsort] is any function that
      meets its contract (a permutation of the positions, ascending by value).
    - The file system behind [gfile] is the list of existing paths; [Glob] is
      computed by matching the pattern against it.
    - TensorFlow's image ops and the session are an interface [TensorFlow]. *)

From Stdlib Require Import List String Ascii ZArith QArith Lia Bool Arith.
From Stdlib Require Import Permutation Sorted DecimalString.
From Stdlib Require DecimalNat DecimalFacts SpecFloat.
Import ListNotations.

Set Implicit Arguments.
Close Scope Q_scope.
Open Scope string_scope.
Open Scope list_scope.
Open Scope nat_scope.

Infix "+s+" := String.append (at level 60, right associativity).

(** ** Python strings *)

Module Py.

(** [s.endswith(suffix)]. *)
Fixpoint endswith (s suffix : string) : bool :=
  String.eqb s suffix ||
  match s with
  | EmptyString => false
  | String _ s' => endswith s' suffix
  end.

(** [c.isspace()], a character being a code point below 256: tab, newline,
    vertical tab, form feed, carriage return, the four separators 0x1c-0x1f,
    the space, the next-line control 0x85 and the no-break space 0xa0. *)
Definition isspace (c : ascii) : bool :=
  let n := nat_of_ascii c in
  ((9 <=? n) && (n <=? 13)) || ((28 <=? n) && (n <=? 32))
  || (n =? 133) || (n =? 160).

(** [s.rstrip()]: drop the longest all-whitespace suffix. *)
Fixpoint rstrip (s : string) : string :=
  match s with
  | EmptyString => EmptyString
  | String c s' =>
      match rstrip s' with
      | EmptyString => if isspace c then EmptyString else String c EmptyString
      | r => String c r
      end
  end.

(** [s.lstrip()]. *)
Fixpoint lstrip (s : string) : string :=
  match s with
  | EmptyString => EmptyString
  | String c s' => if isspace c then lstrip s' else s
  end.

Definition strip (s : string) : string := rstrip (lstrip s).

(** [s.split(sep)] for a one-character separator: the pieces between the
    separators; never the empty list. *)
Fixpoint split (sep : ascii) (s : string) : list string :=
  match s with
  | EmptyString => [EmptyString]
  | String c s' =>
      if Ascii.eqb c sep then EmptyString :: split sep s'
      else match split sep s' with
           | [] => [String c EmptyString]
           | piece :: pieces => String c piece :: pieces
           end
  end.

(** [s.split(sep)[0]] for a non-empty separator string: the text before the
    first occurrence of [sep], all of [s] when there is none. *)
Fixpoint split_head (sep s : string) : string :=
  if prefix sep s then EmptyString
  else match s with
       | EmptyString => EmptyString
       | String c s' => String c (split_head sep s')
       end.

(** [str(i)] for a non-negative integer. *)
Definition str (i : nat) : string := NilZero.string_of_uint (Nat.to_uint i).

(** [bool(s)] on a string: empty is false, everything else is true. *)
Definition bool_of_str (s : string) : bool :=
  match s with
  | EmptyString => false
  | String _ _ => true
  end.

Definition digit (c : ascii) : option Z :=
  let n := nat_of_ascii c in
  if (48 <=? n) && (n <=? 57) then Some (Z.of_nat (n - 48)) else None.

(** What follows a digit in a numeral: more digits, each of which may be
    preceded by one underscore. *)
Fixpoint digits (acc : Z) (s : string) : option Z :=
  match s with
  | EmptyString => Some acc
  | String c s' =>
      match digit c with
      | Some d => digits (10 * acc + d)%Z s'
      | None =>
          if Ascii.eqb c "_" then
            match s' with
            | EmptyString => None
            | String c' s'' =>
                match digit c' with
                | Some d => digits (10 * acc + d)%Z s''
                | None => None
                end
            end
          else None
      end
  end.

(** A numeral: a digit, then [digits]. *)
Definition numeral (s : string) : option Z :=
  match s with
  | EmptyString => None
  | String c s' =>
      match digit c with
      | Some d => digits d s'
      | None => None
      end
  end.

(** [int(s)], base ten: surrounding whitespace is ignored, one sign is
    allowed, then digits, at least one, with single underscores allowed
    between them.  [None] stands for the [ValueError] the built-in raises. *)
Definition int (s : string) : option Z :=
  match strip s with
  | String "-" r => option_map Z.opp (numeral r)
  | String "+" r => numeral r
  | r => numeral r
  end.

(** [os.path.join(a, b)] for a relative [b]. *)
Definition path_join (a b : string) : string :=
  match a with
  | EmptyString => b
  | _ => if endswith a "/" then a +s+ b else a +s+ "/" +s+ b
  end.

(** [l[-k:]]: the last [k] elements ([l[-0:]] is all of [l]). *)
Definition last_k {A : Type} (k : nat) (l : list A) : list A :=
  match k with
  | O => l
  | _ => skipn (List.length l - k) l
  end.

End Py.

(** ** Exceptions and output *)

(** The exceptions that can end a run.  [OpError] stands for whatever a
    TensorFlow call raises (a missing or corrupt file, a shape the op rejects);
    [IOError] is raised by [open], [KeyError] by the lookup of an operation
    the graph does not have; [SystemExit] is how [argparse] ends the process
    on a bad command line. *)
Inductive exn : Type :=
| IndexError
| ValueError
| ZeroDivisionError
| OpError
| IOError
| KeyError
| SystemExit.

Inductive result (A : Type) : Type :=
| Ok (a : A)
| Raise (e : exn).

Arguments Ok {A} a.
Arguments Raise {A} e.

(** What a run leaves behind, in order: records of [tf.logging.error], printed
    lines, and the scalar summaries handed to the summary writer. *)
Inductive event (score : Type) : Type :=
| LogError (msg : string)
| PrintShape (shape : list nat)
| PrintPair (label : string) (s : score)
| AddSummary (accuracy : Q) (k : nat)
| PrintTopK (k : nat) (percent : Q) (images : nat).

Arguments LogError {score} msg.
Arguments PrintShape {score} shape.
Arguments PrintPair {score} label s.
Arguments AddSummary {score} accuracy k.
Arguments PrintTopK {score} k percent images.

(** A computation: the events emitted so far, and a value or the exception that
    stopped it.  Events emitted before an exception stay emitted. *)
Definition M (score A : Type) : Type := (list (event score) * result A)%type.

Section Monad.
Context {score : Type}.

Definition ret {A} (a : A) : M score A := ([], Ok a).

Definition raise {A} (e : exn) : M score A := ([], Raise e).

Definition emit (ev : event score) : M score unit := ([ev], Ok tt).

Definition lift {A} (r : result A) : M score A := ([], r).

Definition bind {A B} (m : M score A) (f : A -> M score B) : M score B :=
  match m with
  | (evs, Ok a) => let (evs', r) := f a in (evs ++ evs', r)
  | (evs, Raise e) => (evs, Raise e)
  end.

(** [for x in xs: st = body st x], with the loop's variables as [st]. *)
Fixpoint for_each {A S} (body : S -> A -> M score S) (xs : list A) (st : S)
  : M score S :=
  match xs with
  | [] => ret st
  | x :: xs' => bind (body st x) (for_each body xs')
  end.
End Monad.

Notation "x <- m ;; k" := (bind m (fun x => k))
  (at level 61, m at next level, right associativity).
Notation "m ;;; k" := (bind m (fun _ => k))
  (at level 61, right associativity).

Definition events {score A} (m : M score A) : list (event score) := fst m.
Definition outcome {score A} (m : M score A) : result A := snd m.

(** ** Scores and NumPy *)

(** The scalars of the arrays.  Nothing is assumed of the operations here; the
    laws a property needs are stated where it is proved. *)
Class Scalar (score : Type) : Type := {
  score_of_Z : Z -> score;
  score_add : score -> score -> score;
  score_sub : score -> score -> score;
  score_div : score -> score -> score;
  score_leb : score -> score -> bool
}.

Module Np.
Section Arrays.
Context {score : Type} `{Scalar score}.

Definition zero : score := score_of_Z 0.

(** [v[i]] at a position inside the vector. *)
Definition item (v : list score) (i : nat) : score := nth i v zero.

(** A two-dimensional array of shape [(len rows, ncols)].  An array built by
    [empty2] and [append] has every row of length [ncols]. *)
Record array2 : Type := {
  ncols : nat;
  rows : list (list score)
}.

(** [np.reshape(np.array([]), [-1, c])]: shape [(0, c)]. *)
Definition empty2 (c : nat) : array2 := {| ncols := c; rows := [] |}.

Definition shape (a : array2) : list nat := [List.length (rows a); ncols a].

(** [np.append(a, values, axis=0)] for [values] of shape [(1, N)], given as
    its row: the row is added when [N] is the array's width; any other width
    is the [ValueError] of the concatenation. *)
Definition append (a : array2) (values : list score) : result array2 :=
  if List.length values =? ncols a
  then Ok {| ncols := ncols a; rows := rows a ++ [values] |}
  else Raise ValueError.

(** Element-wise sum of two rows. *)
Fixpoint add_rows (u v : list score) : list score :=
  match u, v with
  | x :: u', y :: v' => score_add x y :: add_rows u' v'
  | _, _ => []
  end.

(** [np.sum(a, axis=0)]: the rows added up from the first to the last,
    starting from the zero vector of the array's width. *)
Definition sum0 (a : array2) : list score :=
  fold_left add_rows (rows a) (repeat zero (ncols a)).
(** [np.squeeze] of the [(1, N)] output of a run: the vector of its [N]
    scores, and for [N = 1] an array of no dimension. *)
Inductive squeezed : Type :=
| Scalar0 (x : score)
| Vector (v : list score).

Definition squeeze (row : list score) : squeezed :=
  match row with
  | [x] => Scalar0 x
  | _ => Vector row
  end.
End Arrays.
Arguments array2 score : clear implicits.
Arguments squeezed score : clear implicits.
End Np.

(** NumPy's [argsort] on a vector.  The default sort is not stable and the
    order of equal scores is not specified, so [argsort] is any function with
    the contract: the positions of the vector, each once, scores ascending. *)
Class ArgSort (score : Type) `{Scalar score} : Type := {
  argsort : list score -> list nat;
  argsort_perm : forall v, Permutation (argsort v) (seq 0 (List.length v));
  argsort_sorted : forall v,
    StronglySorted (fun i j => score_leb (Np.item v i) (Np.item v j) = true)
                   (argsort v)
}.

Arguments ArgSort score {_}.

(** [results.argsort()[-k:][::-1]]: the positions of the [k] best scores, best
    first. *)
Definition top_k_indices {score} `{ArgSort score} (k : nat) (results : list score)
  : list nat :=
  rev (Py.last_k k (argsort results)).

(** ** The file system behind [gfile] *)

Module Gfile.

(** [fs_paths] lists the paths [Glob] can return (files, and directories);
    a directory also exists when a listed path lies below it.  [fs_text] gives
    the contents of the files that can be read. *)
Record filesystem : Type := {
  fs_paths : list string;
  fs_text : string -> option string
}.

(** A directory path with its separator: [d/] for [d], [d/] for [d/]. *)
Definition dir_prefix (path : string) : string :=
  if Py.endswith path "/" then path else path +s+ "/".

(** [gfile.Exists(path)]: the path is listed, with or without a final
    separator, or a listed path lies below it. *)
Definition Exists (fs : filesystem) (path : string) : bool :=
  existsb (fun q => String.eqb q path || String.eqb (q +s+ "/") path
                    || prefix (dir_prefix path) q)
          (fs_paths fs).

(** Matching of a path against a pattern in which [*] stands for any run of
    characters other than [/] (the other wildcards of the matcher do not occur
    in the patterns the script builds from its own constants). *)
Fixpoint glob_match (pattern path : string) : bool :=
  match pattern with
  | EmptyString =>
      match path with
      | EmptyString => true
      | String _ _ => false
      end
  | String p pattern' =>
      if Ascii.eqb p "*" then
        (fix star (path : string) : bool :=
           glob_match pattern' path ||
           match path with
           | EmptyString => false
           | String c path' => negb (Ascii.eqb c "/") && star path'
           end) path
      else
        match path with
        | EmptyString => false
        | String c path' => Ascii.eqb p c && glob_match pattern' path'
        end
  end.

(** Modelled from the spec: [gfile.Glob] is TensorFlow's and is not among the
    sources.  Following the spec (after a missing directory "execution
    continues with an empty file list"), [Glob(pattern)] returns the listed
    paths that match, in listing order, and never raises: under a directory
    that does not exist nothing is listed, so nothing matches. *)
Definition Glob (fs : filesystem) (pattern : string) : list string :=
  filter (glob_match pattern) (fs_paths fs).

(** [tf.gfile.GFile(name).readline()] repeated to the end of the file.  The
    reader behind it drops every carriage return, ends a line after a
    newline, which it keeps, and at the end of the file returns what is left
    as a last line when that is not empty. *)
Fixpoint readlines (text : string) : list string :=
  match text with
  | EmptyString => []
  | String c text' =>
      if Ascii.eqb c "010" then String c EmptyString :: readlines text'
      else if Ascii.eqb c "013" then readlines text'
      else match readlines text' with
           | [] => [String c EmptyString]
           | l :: ls => String c l :: ls
           end
  end.

(** [tf.gfile.GFile(name).readlines()]; a file that cannot be read raises. *)
Definition GFile_readlines (fs : filesystem) (name : string) : result (list string) :=
  match fs_text fs name with
  | Some text => Ok (readlines text)
  | None => Raise OpError
  end.

End Gfile.

(** ** [load_labels] *)

(** The loop of [load_labels]: [label.append(l.rstrip())] for every line. *)
Definition load_labels_loop (lines : list string) : list string :=
  fold_left (fun label l => label ++ [Py.rstrip l]) lines [].

Definition load_labels (fs : Gfile.filesystem) (label_file : string)
  : result (list string) :=
  match Gfile.GFile_readlines fs label_file with
  | Ok proto_as_ascii_lines => Ok (load_labels_loop proto_as_ascii_lines)
  | Raise e => Raise e
  end.

(** ** TensorFlow: tensors, image ops, the session *)

Record tensor (A : Type) : Type := {
  shape : list Z;
  data : list A
}.

(** The calls the script makes into TensorFlow, each with the exception it may
    raise.  [import_graph_def] stands for [ParseFromString] followed by
    [tf.import_graph_def] on the contents of the graph file: it gives the
    names of the operations of the imported graph.  Decoders return [uint8]
    pixel values.  [sess_run] is the run of the output operation of the
    loaded graph on an input tensor; its value, of shape [(1, N)], is given as
    its row of [N] scores. *)
Class TensorFlow (score : Type) : Type := {
  import_graph_def : string -> result (list string);
  read_file : string -> result string;
  decode_png : string -> nat -> result (tensor Z);
  decode_gif : string -> result (tensor Z);
  decode_bmp : string -> result (tensor Z);
  decode_jpeg : string -> nat -> result (tensor Z);
  resize_bilinear : tensor score -> Z -> Z -> result (tensor score);
  sess_run : tensor score -> result (list score)
}.

Module Tf.
Section Ops.
Context {score : Type} `{Scalar score}.

(** [tf.cast(t, tf.float32)]. *)
Definition cast (t : tensor Z) : tensor score :=
  {| shape := shape t; data := map score_of_Z (data t) |}.

(** [tf.squeeze(t)]: every dimension of size one is removed. *)
Definition squeeze {A} (t : tensor A) : tensor A :=
  {| shape := filter (fun d => negb (d =? 1)%Z) (shape t); data := data t |}.

(** [tf.expand_dims(t, 0)]. *)
Definition expand_dims {A} (t : tensor A) : tensor A :=
  {| shape := 1%Z :: shape t; data := data t |}.

(** [tf.subtract(t, [c])] and [tf.divide(t, [c])]: the one-element operand
    is broadcast over [t]. *)
Definition subtract (t : tensor score) (c : Z) : tensor score :=
  {| shape := shape t; data := map (fun x => score_sub x (score_of_Z c)) (data t) |}.

Definition divide (t : tensor score) (c : Z) : tensor score :=
  {| shape := shape t; data := map (fun x => score_div x (score_of_Z c)) (data t) |}.
End Ops.
End Tf.

Inductive decoder : Type := PNG | GIF | BMP | JPEG.

(** The branch of [read_tensor_from_image_file] that picks the reader. *)
Definition select_decoder (file_name : string) : decoder :=
  if Py.endswith file_name ".png" then PNG
  else if Py.endswith file_name ".gif" then GIF
  else if Py.endswith file_name ".bmp" then BMP
  else JPEG.

Section Preprocess.
Context {score : Type} `{Scalar score} `{TensorFlow score}.

Definition image_reader (file_name : string) (file_reader : string)
  : result (tensor Z) :=
  match select_decoder file_name with
  | PNG => decode_png file_reader 3
  | GIF => match decode_gif file_reader with
           | Ok frames => Ok (Tf.squeeze frames)
           | Raise e => Raise e
           end
  | BMP => decode_bmp file_reader
  | JPEG => decode_jpeg file_reader 3
  end.

Definition read_tensor_from_image_file (file_name : string)
    (input_height input_width input_mean input_std : Z)
  : result (tensor score) :=
  match read_file file_name with
  | Raise e => Raise e
  | Ok file_reader =>
      match image_reader file_name file_reader with
      | Raise e => Raise e
      | Ok image =>
          let float_caster := Tf.cast image in
          let dims_expander := Tf.expand_dims float_caster in
          match resize_bilinear dims_expander input_height input_width with
          | Raise e => Raise e
          | Ok resized =>
              Ok (Tf.divide (Tf.subtract resized input_mean) input_std)
          end
      end
  end.
End Preprocess.

(** ** The command line *)

Module Args.

(** The namespace [parse_args] returns: [None] for an option that was not
    given, the converted argument otherwise. *)
Record args : Type := {
  image : option string;
  vote : option bool;
  graph : option string;
  labels : option string;
  input_height : option Z;
  input_width : option Z;
  input_mean : option Z;
  input_std : option Z;
  input_layer : option string;
  output_layer : option string;
  top_k_graph : option bool;
  summaries_dir : string
}.

Definition defaults : args := {|
  image := None; vote := None; graph := None; labels := None;
  input_height := None; input_width := None; input_mean := None;
  input_std := None; input_layer := None; output_layer := None;
  top_k_graph := None;
  summaries_dir := "/mnt/storage/home/tc13007/Manta_Inception/tensorflow/retrain_logs"
|}.

(** [type=int]: the argument goes through [int]; a failure ends the run. *)
Definition as_int (value : string) : result Z :=
  match Py.int value with
  | Some z => Ok z
  | None => Raise SystemExit
  end.

(** The option strings of the parser: those of [add_argument], and the help
    option every parser has. *)
Definition option_strings : list string :=
  ["-h"; "--help"; "--image"; "--vote"; "--graph"; "--labels"; "--input_height";
   "--input_width"; "--input_mean"; "--input_std"; "--input_layer";
   "--output_layer"; "--top_k_graph"; "--summaries_dir"].

(** The option a string of the command line stands for: itself when it is an
    option string, otherwise the one long option it abbreviates; a string that
    is the beginning of several options, or of none, stands for no option. *)
Definition resolve (name : string) : option string :=
  if existsb (String.eqb name) option_strings then Some name
  else if prefix "--" name then
    match filter (prefix name) option_strings with
    | [option_string] => Some option_string
    | _ => None
    end
  else None.

(** One option with its argument, as [add_argument] declared it.  A string
    that stands for no option ends the run, and so does the help option. *)
Definition parse_option (a : args) (name value : string) : result args :=
  let set_int (f : Z -> args) :=
    match as_int value with
    | Ok z => Ok (f z)
    | Raise e => Raise e
    end in
  match resolve name with
  | None => Raise SystemExit
  | Some name =>
  if String.eqb name "--image" then
    Ok {| image := Some value; vote := vote a; graph := graph a; labels := labels a;
          input_height := input_height a; input_width := input_width a;
          input_mean := input_mean a; input_std := input_std a;
          input_layer := input_layer a; output_layer := output_layer a;
          top_k_graph := top_k_graph a; summaries_dir := summaries_dir a |}
  else if String.eqb name "--vote" then
    Ok {| image := image a; vote := Some (Py.bool_of_str value); graph := graph a;
          labels := labels a;
          input_height := input_height a; input_width := input_width a;
          input_mean := input_mean a; input_std := input_std a;
          input_layer := input_layer a; output_layer := output_layer a;
          top_k_graph := top_k_graph a; summaries_dir := summaries_dir a |}
  else if String.eqb name "--graph" then
    Ok {| image := image a; vote := vote a; graph := Some value; labels := labels a;
          input_height := input_height a; input_width := input_width a;
          input_mean := input_mean a; input_std := input_std a;
          input_layer := input_layer a; output_layer := output_layer a;
          top_k_graph := top_k_graph a; summaries_dir := summaries_dir a |}
  else if String.eqb name "--labels" then
    Ok {| image := image a; vote := vote a; graph := graph a; labels := Some value;
          input_height := input_height a; input_width := input_width a;
          input_mean := input_mean a; input_std := input_std a;
          input_layer := input_layer a; output_layer := output_layer a;
          top_k_graph := top_k_graph a; summaries_dir := summaries_dir a |}
  else if String.eqb name "--input_height" then
    set_int (fun z =>
       {| image := image a; vote := vote a; graph := graph a; labels := labels a;
          input_height := Some z; input_width := input_width a;
          input_mean := input_mean a; input_std := input_std a;
          input_layer := input_layer a; output_layer := output_layer a;
          top_k_graph := top_k_graph a; summaries_dir := summaries_dir a |})
  else if String.eqb name "--input_width" then
    set_int (fun z =>
       {| image := image a; vote := vote a; graph := graph a; labels := labels a;
          input_height := input_height a; input_width := Some z;
          input_mean := input_mean a; input_std := input_std a;
          input_layer := input_layer a; output_layer := output_layer a;
          top_k_graph := top_k_graph a; summaries_dir := summaries_dir a |})
  else if String.eqb name "--input_mean" then
    set_int (fun z =>
       {| image := image a; vote := vote a; graph := graph a; labels := labels a;
          input_height := input_height a; input_width := input_width a;
          input_mean := Some z; input_std := input_std a;
          input_layer := input_layer a; output_layer := output_layer a;
          top_k_graph := top_k_graph a; summaries_dir := summaries_dir a |})
  else if String.eqb name "--input_std" then
    set_int (fun z =>
       {| image := image a; vote := vote a; graph := graph a; labels := labels a;
          input_height := input_height a; input_width := input_width a;
          input_mean := input_mean a; input_std := Some z;
          input_layer := input_layer a; output_layer := output_layer a;
          top_k_graph := top_k_graph a; summaries_dir := summaries_dir a |})
  else if String.eqb name "--input_layer" then
    Ok {| image := image a; vote := vote a; graph := graph a; labels := labels a;
          input_height := input_height a; input_width := input_width a;
          input_mean := input_mean a; input_std := input_std a;
          input_layer := Some value; output_layer := output_layer a;
          top_k_graph := top_k_graph a; summaries_dir := summaries_dir a |}
  else if String.eqb name "--output_layer" then
    Ok {| image := image a; vote := vote a; graph := graph a; labels := labels a;
          input_height := input_height a; input_width := input_width a;
          input_mean := input_mean a; input_std := input_std a;
          input_layer := input_layer a; output_layer := Some value;
          top_k_graph := top_k_graph a; summaries_dir := summaries_dir a |}
  else if String.eqb name "--top_k_graph" then
    Ok {| image := image a; vote := vote a; graph := graph a; labels := labels a;
          input_height := input_height a; input_width := input_width a;
          input_mean := input_mean a; input_std := input_std a;
          input_layer := input_layer a; output_layer := output_layer a;
          top_k_graph := Some (Py.bool_of_str value); summaries_dir := summaries_dir a |}
  else if String.eqb name "--summaries_dir" then
    Ok {| image := image a; vote := vote a; graph := graph a; labels := labels a;
          input_height := input_height a; input_width := input_width a;
          input_mean := input_mean a; input_std := input_std a;
          input_layer := input_layer a; output_layer := output_layer a;
          top_k_graph := top_k_graph a; summaries_dir := value |}
  else Raise SystemExit
  end.

(** [parser.parse_args()] on a command line given as its options, each with
    its argument, in order; a later occurrence replaces an earlier one. *)
Fixpoint parse_from (a : args) (argv : list (string * string)) : result args :=
  match argv with
  | [] => Ok a
  | (name, value) :: argv' =>
      match parse_option a name value with
      | Ok a' => parse_from a' argv'
      | Raise e => Raise e
      end
  end.

Definition parse_args (argv : list (string * string)) : result args :=
  parse_from defaults argv.

(** Truth of [if args.x:] for the three kinds of value. *)
Definition truthy_str (o : option string) : bool :=
  match o with
  | Some s => Py.bool_of_str s
  | None => false
  end.

Definition truthy_int (o : option Z) : bool :=
  match o with
  | Some z => negb (z =? 0)%Z
  | None => false
  end.

Definition truthy_bool (o : option bool) : bool :=
  match o with
  | Some b => b
  | None => false
  end.

Definition str_value (o : option string) : string :=
  match o with
  | Some s => s
  | None => EmptyString
  end.

Definition int_value (o : option Z) : Z :=
  match o with
  | Some z => z
  | None => 0%Z
  end.

End Args.

(** The variables of [__main__] once the overrides have been applied. *)
Record config : Type := {
  file_name : string;
  folder_name : string;
  model_file : string;
  label_file : string;
  input_height : Z;
  input_width : Z;
  input_mean : Z;
  input_std : Z;
  input_layer : string;
  output_layer : string
}.

Definition default_config : config := {|
  file_name := "tensorflow/examples/label_image/data/grace_hopper.jpg";
  folder_name := "";
  model_file := "tensorflow/examples/label_image/data/inception_v3_2016_08_28_frozen.pb";
  label_file := "tensorflow/examples/label_image/data/imagenet_slim_labels.txt";
  input_height := 299;
  input_width := 299;
  input_mean := 0;
  input_std := 255;
  input_layer := "input";
  output_layer := "InceptionV3/Predictions/Reshape_1"
|}.

Definition vote_folder : string := "/mnt/storage/scratch/tc13007/mantas_test_augmented".
Definition top_k_folder : string := "/mnt/storage/scratch/tc13007/mantas_test".

(** The chain of [if args.x:] overrides, in the order of the script. *)
Definition configure (a : Args.args) : config :=
  let d := default_config in
  let model_file := if Args.truthy_str (Args.graph a)
                    then Args.str_value (Args.graph a) else model_file d in
  let folder_name := if Args.truthy_bool (Args.vote a)
                     then vote_folder else folder_name d in
  let file_name :=
    if Args.truthy_str (Args.image a) then
      if Args.truthy_bool (Args.vote a)
      then folder_name +s+ "/" +s+ Args.str_value (Args.image a)
      else Args.str_value (Args.image a)
    else file_name d in
  let label_file := if Args.truthy_str (Args.labels a)
                    then Args.str_value (Args.labels a) else label_file d in
  let input_height := if Args.truthy_int (Args.input_height a)
                      then Args.int_value (Args.input_height a) else input_height d in
  let input_width := if Args.truthy_int (Args.input_width a)
                     then Args.int_value (Args.input_width a) else input_width d in
  let input_mean := if Args.truthy_int (Args.input_mean a)
                    then Args.int_value (Args.input_mean a) else input_mean d in
  let input_std := if Args.truthy_int (Args.input_std a)
                   then Args.int_value (Args.input_std a) else input_std d in
  let input_layer := if Args.truthy_str (Args.input_layer a)
                     then Args.str_value (Args.input_layer a) else input_layer d in
  let output_layer := if Args.truthy_str (Args.output_layer a)
                      then Args.str_value (Args.output_layer a) else output_layer d in
  let folder_name := if Args.truthy_bool (Args.top_k_graph a)
                     then top_k_folder else folder_name in
  {| file_name := file_name; folder_name := folder_name; model_file := model_file;
     label_file := label_file; input_height := input_height;
     input_width := input_width; input_mean := input_mean; input_std := input_std;
     input_layer := input_layer; output_layer := output_layer |}.

(** The three branches of [__main__]. *)
Inductive mode : Type := TopKGraph | Vote | SingleImage.

Definition select_mode (a : Args.args) : mode :=
  if Args.truthy_bool (Args.top_k_graph a) then TopKGraph
  else if Args.truthy_bool (Args.vote a) then Vote
  else SingleImage.

(** ** The three modes *)

Definition extensions : list string := ["jpg"; "jpeg"; "JPG"; "JPEG"].

Definition not_found_message (file_name : string) : string :=
  "Image directory '" +s+ file_name +s+ "' not found.".

(** [prediction / evaluated_images] under true division, kept exact. *)
Definition true_div (prediction evaluated_images : nat) : result Q :=
  match evaluated_images with
  | O => Raise ZeroDivisionError
  | S _ => Ok (Qmake (Z.of_nat prediction) (Pos.of_nat evaluated_images))
  end.

Section Modes.
Context {score : Type} `{ArgSort score} `{TensorFlow score}.
Variable fs : Gfile.filesystem.
Variable cfg : config.

(** Preprocessing a file and running the graph on it. *)
Definition classify (file : string) : result (list score) :=
  match read_tensor_from_image_file file (input_height cfg) (input_width cfg)
                                    (input_mean cfg) (input_std cfg) with
  | Ok t => sess_run t
  | Raise e => Raise e
  end.

(** [if not gfile.Exists(file_name): tf.logging.error(...)]. *)
Definition check_directory (file_name : string) : M score unit :=
  if Gfile.Exists fs file_name then ret tt
  else emit (LogError (not_found_message file_name)).

(** [for extension in extensions: file_list.extend(gfile.Glob(...))]. *)
Definition extend_file_list (file_name : string) (file_list : list string)
  : list string :=
  fold_left
    (fun file_list extension =>
       let file_glob := Py.path_join file_name ("*." +s+ extension) in
       file_list ++ Gfile.Glob fs file_glob)
    extensions file_list.

(** [for i in top_k: print(labels[i], results[i])]. *)
Definition print_top (labels : list string) (results : list score)
    (top_k : list nat) : M score unit :=
  for_each
    (fun (_ : unit) i =>
       match nth_error labels i, nth_error results i with
       | Some label, Some s => emit (PrintPair label s)
       | _, _ => raise IndexError
       end)
    top_k tt.

(** *** Single-image mode *)

(** Lines 226-240.  On an array of no dimension [argsort] gives the position
    0, and [results[0]] in the loop raises: such an array cannot be
    indexed. *)
Definition single_image_mode : M score unit :=
  results <- lift (classify (file_name cfg)) ;;
  match Np.squeeze results with
  | Np.Vector results =>
      let top_k := top_k_indices 10 results in
      labels <- lift (load_labels fs (label_file cfg)) ;;
      print_top labels results top_k
  | Np.Scalar0 _ =>
      labels <- lift (load_labels fs (label_file cfg)) ;;
      raise IndexError
  end.

(** *** Voting mode *)

(** Lines 200-206: the files to vote over. *)
Definition vote_file_list : M score (list string) :=
  check_directory (file_name cfg) ;;;
  ret (extend_file_list (file_name cfg) []).

(** One turn of the loop over the files: the new row is appended, and the
    ranking of the sum so far is printed. *)
Definition vote_step (final_results : Np.array2 score) (file : string)
  : M score (Np.array2 score) :=
  results <- lift (classify file) ;;
  final_results <- lift (Np.append final_results results) ;;
  let results := Np.sum0 final_results in
  let top_k := top_k_indices 10 results in
  labels <- lift (load_labels fs (label_file cfg)) ;;
  print_top labels results top_k ;;;
  ret final_results.

Definition vote_loop (file_list : list string) : M score (Np.array2 score) :=
  for_each vote_step file_list (Np.empty2 99).

Definition vote_mode : M score (Np.array2 score) :=
  file_list <- vote_file_list ;;
  vote_loop file_list.

(** *** Top-K evaluation mode *)

(** The directory of the summary writer:
    [summaries_dir + '/{model}_top_k'] with [model] taken from the seventh
    component of the graph's path. *)
Definition top_k_logdir (summaries_dir : string) : result string :=
  match nth_error (Py.split "/" (model_file cfg)) 6 with
  | Some piece =>
      Ok (summaries_dir +s+ "/" +s+ Py.split_head "_output" piece +s+ "_top_k")
  | None => Raise IndexError
  end.

(** The variables the first loop updates. *)
Record collected : Type := {
  file_list : list string;
  evaluated_images : nat;
  final_results : Np.array2 score;
  ground_truth : list Z
}.

Definition collect_start : collected := {|
  file_list := [];
  evaluated_images := 0;
  final_results := Np.empty2 99;
  ground_truth := []
|}.

(** The body of [for file in file_list] in folder [truth]. *)
Definition collect_file (truth : nat) (st : collected) (file : string)
  : M score collected :=
  let ground_truth := ground_truth st ++ [Z.of_nat truth] in
  let evaluated_images := evaluated_images st + 1 in
  results <- lift (classify file) ;;
  final_results <- lift (Np.append (final_results st) results) ;;
  ret {| file_list := file_list st; evaluated_images := evaluated_images;
         final_results := final_results; ground_truth := ground_truth |}.

Definition numbered_folder (i : nat) : string :=
  folder_name cfg +s+ "/" +s+ Py.str i.

(** The body of [for i in range(0, 99)]. *)
Definition collect_folder (st : collected) (i : nat) : M score collected :=
  let truth := i in
  let file_name := numbered_folder i in
  check_directory file_name ;;;
  let files := extend_file_list file_name (file_list st) in
  st <- for_each (collect_file truth)
                 files
                 {| file_list := files; evaluated_images := evaluated_images st;
                    final_results := final_results st;
                    ground_truth := ground_truth st |} ;;
  ret {| file_list := []; evaluated_images := evaluated_images st;
         final_results := final_results st; ground_truth := ground_truth st |}.

Definition top_k_collect : M score collected :=
  for_each collect_folder (seq 0 99) collect_start.

(** [for j in top_k: if int(labels[j]) == truth: prediction += 1]. *)
Definition count_hits (labels : list string) (truth : Z) (top_k : list nat)
    (prediction : nat) : M score nat :=
  for_each
    (fun prediction j =>
       match nth_error labels j with
       | None => raise IndexError
       | Some label =>
           match Py.int label with
           | None => raise ValueError
           | Some v => ret (if (v =? truth)%Z then prediction + 1 else prediction)
           end
       end)
    top_k prediction.

(** [for results, truth in zip(final_results, ground_truth)].  A row of
    [final_results] has 99 scores, which [np.squeeze] leaves as they are. *)
Definition count_predictions (labels : list string) (k : nat) (st : collected)
  : M score nat :=
  for_each
    (fun prediction (pair : list score * Z) =>
       let (results, truth) := pair in
       let top_k := top_k_indices k results in
       count_hits labels truth top_k prediction)
    (combine (Np.rows (final_results st)) (ground_truth st)) 0.

(** The body of [for k in range(1, 100)]. *)
Definition top_k_accuracy (st : collected) (_ : unit) (k : nat) : M score unit :=
  labels <- lift (load_labels fs (label_file cfg)) ;;
  prediction <- count_predictions labels k st ;;
  accuracy <- lift (true_div prediction (evaluated_images st)) ;;
  emit (AddSummary accuracy k) ;;;
  emit (PrintTopK k (accuracy * 100)%Q (evaluated_images st)).

Definition top_k_mode (summaries_dir : string) : M score unit :=
  lift (top_k_logdir summaries_dir) ;;;
  emit (PrintShape (Np.shape (final_results collect_start))) ;;;
  st <- top_k_collect ;;
  for_each (top_k_accuracy st) (seq 1 99) tt.

(** *** The dispatch at the end of [__main__] *)

Definition run (a : Args.args) : M score unit :=
  match select_mode a with
  | TopKGraph => top_k_mode (Args.summaries_dir a)
  | Vote => vote_mode ;;; ret tt
  | SingleImage => single_image_mode
  end.
End Modes.

Arguments check_directory score fs file_name : clear implicits.
Arguments vote_file_list score fs cfg : clear implicits.
Arguments collected score : clear implicits.
Arguments collect_start score : clear implicits.
Arguments count_hits score labels truth top_k prediction : clear implicits.

(** [load_graph], lines 31-40: the graph file is read and imported. *)
Definition load_graph {score : Type} `{TensorFlow score}
    (fs : Gfile.filesystem) (model_file : string) : result (list string) :=
  match Gfile.fs_text fs model_file with
  | Some contents => import_graph_def contents
  | None => Raise IOError
  end.

(** [graph.get_operation_by_name(name)]. *)
Definition get_operation_by_name (graph : list string) (name : string) : result unit :=
  if existsb (String.eqb name) graph then Ok tt else Raise KeyError.

(** The script from its command line: the overrides, the graph and its two
    operations (lines 135-139), then the mode. *)
Definition main {score : Type} `{ArgSort score} `{TensorFlow score}
    (fs : Gfile.filesystem) (argv : list (string * string)) : M score unit :=
  a <- lift (Args.parse_args argv) ;;
  let cfg := configure a in
  graph <- lift (load_graph fs (model_file cfg)) ;;
  let input_name := "import/" +s+ input_layer cfg in
  let output_name := "import/" +s+ output_layer cfg in
  lift (get_operation_by_name graph input_name) ;;;
  lift (get_operation_by_name graph output_name) ;;;
  run fs cfg a.

(** * The vocabulary of the properties *)

(** Text made of whitespace only. *)
Fixpoint all_space (s : string) : bool :=
  match s with
  | EmptyString => true
  | String c s' => Py.isspace c && all_space s'
  end.

(** A line of a text file: not empty, and no newline before its last
    character. *)
Definition is_line (l : string) : Prop :=
  l <> "" /\ forall p q, l = p +s+ String "010" q -> q = "".

(** The text without its carriage returns. *)
Fixpoint without_cr (text : string) : string :=
  match text with
  | EmptyString => EmptyString
  | String c text' =>
      if Ascii.eqb c "013" then without_cr text' else String c (without_cr text')
  end.

(** The lines of a text, as the claim has them: the text cut after every
    newline, the newline kept with its line. *)
Fixpoint cut_lines (text : string) : list string :=
  match text with
  | EmptyString => []
  | String c text' =>
      if Ascii.eqb c "010" then String c EmptyString :: cut_lines text'
      else match cut_lines text' with
           | [] => [String c EmptyString]
           | l :: ls => String c l :: ls
           end
  end.

(** Text in which the character [c] does not occur. *)
Fixpoint no_char (c : ascii) (s : string) : bool :=
  match s with
  | EmptyString => true
  | String d s' => negb (Ascii.eqb d c) && no_char c s'
  end.

(** A path without wildcard: as a pattern it matches itself only. *)
Definition literal (s : string) : bool := no_char "*" s.

(** The extensions of the raster formats the preprocessor decodes. *)
Definition raster_extensions : list string :=
  ["jpg"; "jpeg"; "JPG"; "JPEG"; "png"; "gif"; "bmp"].

(** An array whose rows all have the array's width. *)
Definition rectangular {score} (a : Np.array2 score) : Prop :=
  Forall (fun r => List.length r = Np.ncols a) (Np.rows a).

(** The files top-K mode evaluates: those listed for one of the 99 numbered
    folders. *)
Definition listed (fs : Gfile.filesystem) (cfg : config) (f : string) : Prop :=
  exists i, i < 99 /\ In f (extend_file_list fs (numbered_folder cfg i) []).

(** What the first loop maintains: 99 columns, one row and one ground truth
    per evaluated image, every ground truth a folder number. *)
Definition collected_ok {score} (st : collected score) : Prop :=
  Np.ncols (final_results st) = 99
  /\ rectangular (final_results st)
  /\ List.length (Np.rows (final_results st)) = evaluated_images st
  /\ List.length (ground_truth st) = evaluated_images st
  /\ Forall (fun t => (0 <= t < 99)%Z) (ground_truth st).

(** The number of positions in [top] whose label has the value [truth]. *)
Definition hits (value : nat -> Z) (truth : Z) (top : list nat) : nat :=
  List.length (filter (fun j => (value j =? truth)%Z) top).

(** The integer value of the label at position [j], when there is one. *)
Definition label_int (labels : list string) (j : nat) : option Z :=
  match nth_error labels j with
  | Some label => Py.int label
  | None => None
  end.

Definition label_value (labels : list string) (j : nat) : Z :=
  match label_int labels j with
  | Some v => v
  | None => (-1)%Z
  end.

(** Class [c] is the value of the label at position [j], one of the 99. *)
Definition class_at (labels : list string) (c j : nat) : Prop :=
  c < 99 /\ j < 99 /\ label_int labels j = Some (Z.of_nat c).

(** The predictions counted for [k]: the hits of every evaluated image. *)
Definition predicted {score} `{ArgSort score} (value : nat -> Z) (k : nat)
    (st : collected score) : nat :=
  list_sum (map (fun pair : list score * Z =>
                   hits value (snd pair) (top_k_indices k (fst pair)))
                (combine (Np.rows (final_results st)) (ground_truth st))).

(** The lines a ranking prints: the ten best positions of [v], best first. *)
Definition ranking {score} `{ArgSort score} (labels : list string) (v : list score)
  : list (event score) :=
  map (fun i => PrintPair (nth i labels "") (Np.item v i)) (top_k_indices 10 v).

(** The two lines one turn of the accuracy loop emits when the labels at the
    99 positions have the values [value]. *)
Definition accuracy_report {score} `{ArgSort score} (value : nat -> Z)
    (st : collected score) (k : nat) : list (event score) :=
  let accuracy := Qmake (Z.of_nat (predicted value k st))
                        (Pos.of_nat (evaluated_images st)) in
  [AddSummary accuracy k; PrintTopK k (accuracy * 100)%Q (evaluated_images st)].

(** The number of occurrences of the character [c] in [s]. *)
Fixpoint count_char (c : ascii) (s : string) : nat :=
  match s with
  | EmptyString => 0
  | String d s' => (if Ascii.eqb d c then 1 else 0) + count_char c s'
  end.

(** [sep] occurs in [s]. *)
Fixpoint occurs (sep s : string) : bool :=
  prefix sep s ||
  match s with
  | EmptyString => false
  | String _ s' => occurs sep s'
  end.

(** An image of ground truth [truth] counts for the positions [top]: the
    label of one of them has the value [truth]. *)
Definition is_hit (value : nat -> Z) (top : list nat) (truth : Z) : bool :=
  existsb (fun j => (value j =? truth)%Z) top.

(** Text made of decimal digits only. *)
Fixpoint all_digits (s : string) : bool :=
  match s with
  | EmptyString => true
  | String c s' =>
      match Py.digit c with
      | Some _ => all_digits s'
      | None => false
      end
  end.

(** The text of a label file that holds one number per line. *)
Fixpoint numbered_lines (classes : list nat) : string :=
  match classes with
  | [] => ""
  | c :: cs => Py.str c +s+ String "010" (numbered_lines cs)
  end.

(** The events that report an accuracy. *)
Definition is_report {score} (ev : event score) : bool :=
  match ev with
  | AddSummary _ _ | PrintTopK _ _ _ => true
  | _ => false
  end.

(** * Instances to run the script on *)

(** Insertion sort on positions: a function with the contract of [argsort]
    whenever the comparison of scores is total and transitive. *)
Section InsertionArgsort.
Context {score : Type} `{Scalar score}.

Fixpoint insert_position (v : list score) (i : nat) (l : list nat) : list nat :=
  match l with
  | [] => [i]
  | j :: l' =>
      if score_leb (Np.item v i) (Np.item v j) then i :: l
      else j :: insert_position v i l'
  end.

Definition insertion_argsort (v : list score) : list nat :=
  fold_right (insert_position v) [] (seq 0 (List.length v)).

End InsertionArgsort.

(** Integer scores: the instance the examples run on. *)
#[export] Instance Z_scalar : Scalar Z := {|
  score_of_Z := fun z => z;
  score_add := Z.add;
  score_sub := Z.sub;
  score_div := Z.div;
  score_leb := Z.leb
|}.

(** A stand-in for TensorFlow on which the script can be run: a file's
    contents are its name, the decoders yield pixels whose value is the length
    of the contents (one pixel of three channels, one frame of two by two
    pixels for a GIF, one pixel with the four channels of a 32-bit bitmap for
    a BMP), resizing keeps the pixels, and the graph's output is [output]
    applied to the first value of its input. *)
Definition one_pixel (channels : Z) (contents : string) : tensor Z :=
  {| shape := [1; 1; channels]%Z;
     data := repeat (Z.of_nat (String.length contents)) (Z.to_nat channels) |}.

Definition toy_resize {A : Type} (t : tensor A) (height width : Z)
  : result (tensor A) :=
  match shape t with
  | [b; _; _; c] => Ok {| shape := [b; height; width; c]; data := data t |}
  | _ => Raise OpError
  end.

Definition toy_tensorflow (output : Z -> list Z) : TensorFlow Z := {|
  import_graph_def := fun _ =>
    Ok ["import/input"; "import/InceptionV3/Predictions/Reshape_1"];
  read_file := fun file_name => Ok file_name;
  decode_png := fun contents _ => Ok (one_pixel 3 contents);
  decode_gif := fun contents =>
    Ok {| shape := [1; 2; 2; 3]%Z;
          data := repeat (Z.of_nat (String.length contents)) 12 |};
  decode_bmp := fun contents => Ok (one_pixel 4 contents);
  decode_jpeg := fun contents _ => Ok (one_pixel 3 contents);
  resize_bilinear := toy_resize;
  sess_run := fun t => Ok (output (hd 0%Z (data t)))
|}.

(** The same, with GIF files of two frames. *)
Definition animated_tensorflow (output : Z -> list Z) : TensorFlow Z := {|
  import_graph_def := fun _ =>
    Ok ["import/input"; "import/InceptionV3/Predictions/Reshape_1"];
  read_file := fun file_name => Ok file_name;
  decode_png := fun contents _ => Ok (one_pixel 3 contents);
  decode_gif := fun contents =>
    Ok {| shape := [2; 2; 2; 3]%Z;
          data := repeat (Z.of_nat (String.length contents)) 24 |};
  decode_bmp := fun contents => Ok (one_pixel 4 contents);
  decode_jpeg := fun contents _ => Ok (one_pixel 3 contents);
  resize_bilinear := toy_resize;
  sess_run := fun t => Ok (output (hd 0%Z (data t)))
|}.

(** The scores 0, 1, ..., 98, whatever the input. *)
Definition constant_output (z : Z) : list Z := map Z.of_nat (seq 0 99).

(** A model of three classes. *)
Definition three_outputs (z : Z) : list Z := [1; 2; 3]%Z.

(** A graph whose scores depend on its input: class [j] gets [z * j]. *)
Definition scaled_output (z : Z) : list Z :=
  map (fun j => (z * Z.of_nat j)%Z) (seq 0 99).

(** A label file of 100 lines for a model of 99 classes: the values 1..98,
    then 1 again, then 0 on the last line.  Every class 0..98 is the value of
    some line, but class 0 only of line 100, which no output position
    indexes. *)
Definition shifted_labels : string :=
  String.concat "" (map (fun v => Py.str v +s+ String "010" "") (seq 1 98 ++ [1; 0])).

(** The 99 labels 98, 97, ..., 0: every class, none at its own position. *)
Definition reversed_labels : string :=
  String.concat "" (map (fun v => Py.str v +s+ String "010" "") (rev (seq 0 99))).

(** The graph file of the runs in top-K mode. *)
Definition graph_file : string :=
  "/mnt/storage/home/tc13007/Manta_Inception/inception_output_graph.pb".

(** A file system with the label file at its default place and the graph
    file. *)
Definition labelled (paths : list string) (labels : string) : Gfile.filesystem := {|
  Gfile.fs_paths := paths;
  Gfile.fs_text := fun name =>
    if String.eqb name (label_file default_config) then Some labels
    else if String.eqb name graph_file then Some "graph"
    else None
|}.

(** A label file with carriage returns: before a newline, inside a line,
    and after the last newline. *)
Definition cr_text : string :=
  "cat" +s+ String "013" (String "010" "")
  +s+ "d" +s+ String "013" "og " +s+ String "010" (String "013" "").

Definition cr_labels : Gfile.filesystem := labelled [] cr_text.

(** One image, in folder 0. *)
Definition one_image : Gfile.filesystem :=
  labelled ["/mnt/storage/scratch/tc13007/mantas_test/0/a.jpg"] shifted_labels.

(** A folder with one image of each format. *)
Definition mixed_folder : Gfile.filesystem := {|
  Gfile.fs_paths :=
    ["/mnt/storage/scratch/tc13007/mantas_test_augmented/set1/a.jpg";
     "/mnt/storage/scratch/tc13007/mantas_test_augmented/set1/b.png";
     "/mnt/storage/scratch/tc13007/mantas_test_augmented/set1/c.gif";
     "/mnt/storage/scratch/tc13007/mantas_test_augmented/set1/d.bmp";
     "/mnt/storage/scratch/tc13007/mantas_test_augmented/set1/e.JPEG"];
  Gfile.fs_text := fun _ => None
|}.

Definition two_folders : Gfile.filesystem :=
  labelled ["/mnt/storage/scratch/tc13007/mantas_test/3/a.jpg";
            "/mnt/storage/scratch/tc13007/mantas_test/3/b.JPG";
            "/mnt/storage/scratch/tc13007/mantas_test/41/c.jpeg"]
           reversed_labels.

Definition two_votes : Gfile.filesystem :=
  labelled ["/mnt/storage/scratch/tc13007/mantas_test_augmented/set1/a.jpg";
            "/mnt/storage/scratch/tc13007/mantas_test_augmented/set1/bcd.jpg"]
           reversed_labels.

Definition no_images : Gfile.filesystem := labelled [] reversed_labels.

Definition vote_args (folder : string) : Args.args := {|
  Args.image := Some folder; Args.vote := Some true; Args.graph := None;
  Args.labels := None; Args.input_height := None; Args.input_width := None;
  Args.input_mean := None; Args.input_std := None; Args.input_layer := None;
  Args.output_layer := None; Args.top_k_graph := None;
  Args.summaries_dir := Args.summaries_dir Args.defaults
|}.

Definition top_k_argv : list (string * string) :=
  [("--top_k_graph", "True"); ("--graph", graph_file)].

Definition top_k_config : config :=
  match Args.parse_args top_k_argv with
  | Ok a => configure a
  | Raise _ => default_config
  end.

(** Voting over [set1] with [--input_std 1], so that the stand-in graph tells
    the images apart. *)
Definition vote_config : config :=
  match Args.parse_args [("--vote", "True"); ("--image", "set1"); ("--input_std", "1")] with
  | Ok a => configure a
  | Raise _ => default_config
  end.

Definition file_a : string :=
  "/mnt/storage/scratch/tc13007/mantas_test_augmented/set1/a.jpg".
Definition file_bcd : string :=
  "/mnt/storage/scratch/tc13007/mantas_test_augmented/set1/bcd.jpg".

Definition file_bcde : string :=
  "/mnt/storage/scratch/tc13007/mantas_test_augmented/set1/bcde.jpg".

(** What the stand-in graph returns for a file under [vote_config]. *)
Definition vote_output (f : string) : list Z :=
  match classify (H1 := toy_tensorflow scaled_output) vote_config f with
  | Ok row => row
  | Raise _ => []
  end.

Definition is_class_value (c : nat) (label : string) : bool :=
  match Py.int label with
  | Some v => (v =? Z.of_nat c)%Z
  | None => false
  end.

(** The stand-in with one corrupt JPEG file, which its decoder rejects. *)
Definition corrupt_tensorflow (corrupt : string) (output : Z -> list Z)
  : TensorFlow Z := {|
  import_graph_def := fun _ =>
    Ok ["import/input"; "import/InceptionV3/Predictions/Reshape_1"];
  read_file := fun file_name => Ok file_name;
  decode_png := fun contents _ => Ok (one_pixel 3 contents);
  decode_gif := fun contents =>
    Ok {| shape := [1; 2; 2; 3]%Z;
          data := repeat (Z.of_nat (String.length contents)) 12 |};
  decode_bmp := fun contents => Ok (one_pixel 4 contents);
  decode_jpeg := fun contents _ =>
    if String.eqb contents corrupt then Raise OpError
    else Ok (one_pixel 3 contents);
  resize_bilinear := toy_resize;
  sess_run := fun t => Ok (output (hd 0%Z (data t)))
|}.

(** The stand-in on a file system: only the stored files can be read. *)
Definition stored_tensorflow (stored : list string) (output : Z -> list Z)
  : TensorFlow Z := {|
  import_graph_def := fun _ =>
    Ok ["import/input"; "import/InceptionV3/Predictions/Reshape_1"];
  read_file := fun file_name =>
    if existsb (String.eqb file_name) stored then Ok file_name else Raise OpError;
  decode_png := fun contents _ => Ok (one_pixel 3 contents);
  decode_gif := fun contents =>
    Ok {| shape := [1; 2; 2; 3]%Z;
          data := repeat (Z.of_nat (String.length contents)) 12 |};
  decode_bmp := fun contents => Ok (one_pixel 4 contents);
  decode_jpeg := fun contents _ => Ok (one_pixel 3 contents);
  resize_bilinear := toy_resize;
  sess_run := fun t => Ok (output (hd 0%Z (data t)))
|}.

(** A file is classified, with 99 scores. *)
Definition classifies_99 {score} `{Scalar score} `{TensorFlow score}
    (cfg : config) (f : string) : bool :=
  match classify cfg f with
  | Ok row => List.length row =? 99
  | Raise _ => false
  end.

(** A model of three classes whose best class is the first. *)
Definition uneven_outputs (z : Z) : list Z := [3; 1; 2]%Z.

(** Label files that hold numbers, one per line. *)
Definition numbered (paths : list string) (classes : list nat) : Gfile.filesystem :=
  labelled paths (numbered_lines classes).

Definition file_3a : string := "/mnt/storage/scratch/tc13007/mantas_test/3/a.jpg".
Definition file_3b : string := "/mnt/storage/scratch/tc13007/mantas_test/3/b.JPG".

(** Scores in IEEE 754 binary64, NumPy's [float64], with the arithmetic of
    the Standard Library's specification of floating-point numbers (rounding
    to nearest, ties to even).  Sorting follows NumPy's order: the numbers by
    value, the two zeros equal, and NaN after everything else; [sort_key] is
    the value of a number scaled to an integer. *)
Definition float64 : Type := SpecFloat.spec_float.

Definition float64_of (m e : Z) : float64 := SpecFloat.binary_normalize 53 1024 m e false.

Definition sort_key (x : float64) : Z :=
  match x with
  | SpecFloat.S754_zero _ => 0
  | SpecFloat.S754_infinity false => 2 ^ 2200
  | SpecFloat.S754_infinity true => - 2 ^ 2200
  | SpecFloat.S754_nan => 2 ^ 2201
  | SpecFloat.S754_finite false m e => Z.shiftl (Z.pos m) (e + 1074)
  | SpecFloat.S754_finite true m e => - Z.shiftl (Z.pos m) (e + 1074)
  end%Z.

#[export] Instance float64_scalar : Scalar float64 := {|
  score_of_Z := fun z => float64_of z 0;
  score_add := SpecFloat.SFadd 53 1024;
  score_sub := SpecFloat.SFsub 53 1024;
  score_div := SpecFloat.SFdiv 53 1024;
  score_leb := fun x y => (sort_key x <=? sort_key y)%Z
|}.

(** The stand-in for TensorFlow on [float64] scores. *)
Definition float64_tensorflow (output : float64 -> list float64)
  : TensorFlow float64 := {|
  import_graph_def := fun _ =>
    Ok ["import/input"; "import/InceptionV3/Predictions/Reshape_1"];
  read_file := fun file_name => Ok file_name;
  decode_png := fun contents _ => Ok (one_pixel 3 contents);
  decode_gif := fun contents =>
    Ok {| shape := [1; 2; 2; 3]%Z;
          data := repeat (Z.of_nat (String.length contents)) 12 |};
  decode_bmp := fun contents => Ok (one_pixel 4 contents);
  decode_jpeg := fun contents _ => Ok (one_pixel 3 contents);
  resize_bilinear := toy_resize;
  sess_run := fun t => Ok (output (hd (float64_of 0 0) (data t)))
|}.

(** A graph that gives every class the score 1 on the image with the
    shortest name, [file_a], and the score 2^-53 on the others. *)
Definition one_against_many (x : float64) : list float64 :=
  repeat (if score_leb x (float64_of (Z.of_nat (String.length file_a)) 0)
          then float64_of 1 0 else float64_of 1 (-53))
         99.

(** * Properties *)

(** ** The monad *)

Section MonadFacts.
Context {score : Type}.

Lemma bind_ret_l {A B} (a : A) (f : A -> M score B) : bind (ret a) f = f a.
Proof. unfold bind, ret. destruct (f a); reflexivity. Qed.

Lemma bind_ret_r {A} (m : M score A) : bind m ret = m.
Proof.
  destruct m as [evs [a|e]]; simpl; [rewrite app_nil_r|]; reflexivity.
Qed.

Lemma bind_assoc {A B C} (m : M score A) (f : A -> M score B) (g : B -> M score C) :
  bind (bind m f) g = bind m (fun a => bind (f a) g).
Proof.
  destruct m as [evs [a|e]]; simpl; [|reflexivity].
  destruct (f a) as [evs1 [b|e1]]; simpl; [|reflexivity].
  destruct (g b) as [evs2 r]. rewrite app_assoc. reflexivity.
Qed.

Lemma bind_raise {A B} (e : exn) (f : A -> M score B) : bind (raise e) f = raise e.
Proof. reflexivity. Qed.

Lemma bind_lift_ok {A B} (a : A) (f : A -> M score B) : bind (lift (Ok a)) f = f a.
Proof. apply bind_ret_l. Qed.

Lemma bind_lift_raise {A B} (e : exn) (f : A -> M score B) :
  bind (lift (Raise e)) f = raise e.
Proof. reflexivity. Qed.

Lemma bind_ok {A B} (m : M score A) (f : A -> M score B) evs a :
  m = (evs, Ok a) -> bind m f = (evs ++ events (f a), outcome (f a)).
Proof. intros ->. simpl. destruct (f a); reflexivity. Qed.

Lemma bind_outcome_ok {A B} (m : M score A) (f : A -> M score B) b :
  outcome (bind m f) = Ok b ->
  exists a, outcome m = Ok a /\ outcome (f a) = Ok b.
Proof.
  destruct m as [evs [a|e]]; simpl; [|discriminate].
  destruct (f a) as [evs' r] eqn:E. simpl. intros ->.
  exists a. rewrite E. auto.
Qed.

Lemma for_each_app {A S} (body : S -> A -> M score S) xs ys st :
  for_each body (xs ++ ys) st = bind (for_each body xs st) (for_each body ys).
Proof.
  revert st. induction xs as [|x xs IH]; intros st.
  - change (for_each body [] st) with (ret (score := score) st).
    rewrite bind_ret_l. reflexivity.
  - change (for_each body ((x :: xs) ++ ys) st)
      with (bind (body st x) (for_each body (xs ++ ys))).
    change (for_each body (x :: xs) st) with (bind (body st x) (for_each body xs)).
    rewrite bind_assoc.
    destruct (body st x) as [evs [s|e]]; [|reflexivity].
    unfold bind at 1 3. rewrite IH. reflexivity.
Qed.
End MonadFacts.

Lemma outcome_bind {score A B} (m : M score A) (f : A -> M score B) :
  outcome (bind m f)
  = match outcome m with
    | Ok a => outcome (f a)
    | Raise e => Raise e
    end.
Proof. destruct m as [evs [a|e]]; simpl; [destruct (f a)|]; reflexivity. Qed.

(** A loop whose body raises at some element, whatever the state then, does
    not complete. *)
Lemma for_each_stops {score A S} (body : S -> A -> M score S)
    (before after : list A) (x : A) (st : S) :
  (forall s, exists e, outcome (body s x) = Raise e) ->
  exists e, outcome (for_each body (before ++ x :: after) st) = Raise e.
Proof.
  intros Hx. rewrite for_each_app, outcome_bind.
  destruct (outcome (for_each body before st)) as [s|e]; [|eauto].
  cbn [for_each]. rewrite outcome_bind.
  destruct (Hx s) as [e He]. rewrite He. eauto.
Qed.

(** What a loop maintains on every normal exit of its body, it has
    established when it completes. *)
Lemma for_each_invariant {score A S} (P : S -> Prop) (body : S -> A -> M score S)
    (l : list A) (st st' : S) :
  (forall s x s', In x l -> P s -> outcome (body s x) = Ok s' -> P s') ->
  P st -> outcome (for_each body l st) = Ok st' -> P st'.
Proof.
  revert st. induction l as [|x l IH]; intros st Hbody Hst; cbn [for_each].
  - intros [= <-]. exact Hst.
  - rewrite outcome_bind. destruct (outcome (body st x)) as [s|e] eqn:E; [|discriminate].
    apply IH; [intros; eapply Hbody; eauto using in_cons|].
    eapply Hbody; eauto using in_eq.
Qed.

Lemma events_bind {score A B} (m : M score A) (f : A -> M score B) :
  events (bind m f)
  = events m ++ match outcome m with
                | Ok a => events (f a)
                | Raise _ => []
                end.
Proof.
  destruct m as [evs [a|e]]; simpl; [destruct (f a)|rewrite app_nil_r]; reflexivity.
Qed.

Lemma for_each_events {score A S} (P : event score -> Prop)
    (body : S -> A -> M score S) (l : list A) (st : S) :
  (forall s x, Forall P (events (body s x))) ->
  Forall P (events (for_each body l st)).
Proof.
  intros Hbody. revert st. induction l as [|x l IH]; intros st; cbn [for_each].
  - constructor.
  - rewrite events_bind. apply Forall_app. split; [apply Hbody|].
    destruct (outcome (body st x)); [apply IH | constructor].
Qed.



(** ** Strings *)

Lemma append_nil_r (s : string) : s +s+ "" = s.
Proof. induction s; simpl; congruence. Qed.

Lemma append_assoc (a b c : string) : (a +s+ b) +s+ c = a +s+ b +s+ c.
Proof. induction a; simpl; congruence. Qed.

Lemma append_eq_nil (a b : string) : a +s+ b = "" -> a = "" /\ b = "".
Proof. destruct a; simpl; [auto | discriminate]. Qed.

Lemma endswith_iff (s suffix : string) :
  Py.endswith s suffix = true <-> exists p, s = p +s+ suffix.
Proof.
  induction s as [|c s IH]; cbn [Py.endswith].
  - rewrite orb_false_r, String.eqb_eq. split.
    + intros <-. exists "". reflexivity.
    + intros [p Hp]. symmetry in Hp. apply append_eq_nil in Hp. symmetry. tauto.
  - rewrite orb_true_iff, String.eqb_eq, IH. split.
    + intros [<- | [p ->]]; [exists "" | exists (String c p)]; reflexivity.
    + intros [[|c' p] Hp]; simpl in Hp.
      * left. congruence.
      * right. exists p. congruence.
Qed.

Lemma endswith_false (s suffix : string) :
  Py.endswith s suffix = false <-> forall p, s <> p +s+ suffix.
Proof.
  rewrite <- not_true_iff_false, endswith_iff. split.
  - intros Hn p Hp. apply Hn. eauto.
  - intros Hn [p Hp]. exact (Hn p Hp).
Qed.

Lemma prefix_iff (p s : string) : prefix p s = true <-> exists r, s = p +s+ r.
Proof.
  revert s. induction p as [|c p IH]; intros s; simpl.
  - destruct s; split; eauto.
  - destruct s as [|d s]; cbn [prefix].
    + split; [discriminate | intros [r Hr]; discriminate].
    + destruct (ascii_dec c d) as [->|Hcd].
      * rewrite IH. split; intros [r Hr]; exists r; congruence.
      * split; [discriminate | intros [r Hr]; congruence].
Qed.

Lemma rstrip_nil_iff (s : string) : Py.rstrip s = "" <-> all_space s = true.
Proof.
  induction s as [|c s IH]; simpl; [tauto|].
  destruct (Py.rstrip s) eqn:E.
  - destruct (Py.isspace c); simpl; [|split; discriminate].
    split; intros _; [apply IH|]; reflexivity.
  - split; [discriminate|]. rewrite andb_true_iff. intros [_ Hs].
    apply IH in Hs. discriminate.
Qed.

(** [rstrip] removes a run of whitespace from the end of the text, *)
Lemma rstrip_tail (s : string) :
  exists ws, s = Py.rstrip s +s+ ws /\ all_space ws = true.
Proof.
  induction s as [|c s [ws [Hs Hws]]]; simpl.
  - exists "". auto.
  - destruct (Py.rstrip s) as [|a r] eqn:E.
    + simpl in Hs. subst ws. destruct (Py.isspace c) eqn:Ec.
      * exists (String c s). simpl. rewrite Ec, Hws. auto.
      * exists s. auto.
    + exists ws. split; [|assumption].
      change (String c s = String c (String a r +s+ ws)). congruence.
Qed.

(** and it removes all of it: what is left does not end in whitespace. *)
Lemma rstrip_last (s p : string) (c : ascii) :
  Py.rstrip s = p +s+ String c "" -> Py.isspace c = false.
Proof.
  revert p. induction s as [|d s IH]; intros p; simpl.
  - destruct p; discriminate.
  - destruct (Py.rstrip s) eqn:E.
    + destruct (Py.isspace d) eqn:Ed.
      * destruct p; discriminate.
      * destruct p as [|d' [|? ?]]; simpl; try discriminate. congruence.
    + destruct p as [|d' p']; simpl.
      * discriminate.
      * intros Heq. injection Heq as _ Heq. eapply IH. eassumption.
Qed.

(** The lines of a text are the text, cut in order; each of them is
    a line. *)
Lemma cut_lines_concat (text : string) :
  String.concat "" (cut_lines text) = text.
Proof.
  induction text as [|c text IH]; simpl; [reflexivity|].
  destruct (Ascii.eqb c "010").
  - simpl. destruct (cut_lines text); simpl in *; congruence.
  - destruct (cut_lines text) as [|l ls]; simpl in *.
    + congruence.
    + destruct ls; simpl in *; congruence.
Qed.

Lemma cut_lines_lines (text : string) : Forall is_line (cut_lines text).
Proof.
  induction text as [|c text IH]; simpl; [constructor|].
  destruct (Ascii.eqb c "010") eqn:Ec.
  - constructor; [|assumption]. split; [discriminate|].
    intros [|? [|? ?]] q Hq; simpl in Hq; try discriminate; congruence.
  - destruct (cut_lines text) as [|l ls].
    + repeat constructor; [discriminate|].
      intros [|? [|? ?]] q Hq; simpl in Hq; try discriminate.
      injection Hq as Hc _. subst c. discriminate.
    + inversion IH as [|? ? [Hne Hl] Hls]; subst.
      constructor; [|assumption]. split; [discriminate|].
      intros [|d p] q Hq; simpl in Hq.
      * injection Hq as Hc _. subst c. discriminate.
      * injection Hq as _ Hq. eauto.
Qed.

(** Every line but the last ends with its newline. *)
Lemma cut_lines_terminated (text : string) (i : nat) (l : string) :
  nth_error (cut_lines text) i = Some l ->
  S i < List.length (cut_lines text) ->
  Py.endswith l (String "010" "") = true.
Proof.
  revert i l. induction text as [|c text IH]; intros i l; simpl.
  - destruct i; discriminate.
  - destruct (Ascii.eqb c "010") eqn:Ec.
    + apply Ascii.eqb_eq in Ec. subst c. destruct i; simpl.
      * intros [= <-] _. reflexivity.
      * intros Hi Hlen. apply IH with (i := i); [assumption | lia].
    + destruct (cut_lines text) as [|l0 ls] eqn:E.
      * simpl. intros _ Hlen. lia.
      * destruct i; simpl.
        -- intros [= <-] Hlen.
           assert (H0 : Py.endswith l0 (String "010" "") = true)
             by (apply IH with (i := 0); [reflexivity | simpl; lia]).
           simpl. rewrite H0. apply orb_true_r.
        -- intros Hi Hlen. apply IH with (i := S i); [assumption | simpl in *; lia].
Qed.

(** What [readlines] returns: the lines of the text without its carriage
    returns. *)
Lemma readlines_cut (text : string) :
  Gfile.readlines text = cut_lines (without_cr text).
Proof.
  induction text as [|c text IH]; [reflexivity|].
  cbn [Gfile.readlines without_cr].
  destruct (Ascii.eqb c "010") eqn:Ec.
  - apply Ascii.eqb_eq in Ec. subst c. cbn. rewrite IH. reflexivity.
  - destruct (Ascii.eqb c "013"); [exact IH|].
    cbn [cut_lines]. rewrite Ec, IH. reflexivity.
Qed.

Lemma without_cr_app (a b : string) :
  without_cr (a +s+ b) = without_cr a +s+ without_cr b.
Proof.
  induction a as [|c a IH]; [reflexivity|].
  change (String c a +s+ b) with (String c (a +s+ b)). cbn [without_cr].
  destruct (Ascii.eqb c "013"); [exact IH|].
  rewrite IH. reflexivity.
Qed.

Lemma without_cr_no_cr (text : string) : no_char "013" (without_cr text) = true.
Proof.
  induction text as [|c text IH]; [reflexivity|]. cbn [without_cr].
  destruct (Ascii.eqb c "013") eqn:Ec; [exact IH|].
  cbn [no_char]. rewrite Ec, IH. reflexivity.
Qed.

Lemma load_labels_loop_map (lines : list string) :
  load_labels_loop lines = map Py.rstrip lines.
Proof.
  unfold load_labels_loop.
  enough (Hgen : forall label,
             fold_left (fun label l => label ++ [Py.rstrip l]) lines label
             = label ++ map Py.rstrip lines) by apply (Hgen []).
  induction lines as [|l lines IH]; intros label; simpl.
  - rewrite app_nil_r. reflexivity.
  - rewrite IH, <- app_assoc. reflexivity.
Qed.

(** ** C8: the label loader *)

(** C8 (amended).  For every label file, [load_labels] returns exactly one
    string per line of the file's text once its carriage returns are removed,
    in file order (the position in the list is the class id), and each string
    is its line with the trailing whitespace stripped.  The lines are the
    text without carriage returns cut after each newline: put together they
    are that text, none is empty, a newline occurs only as the last character
    of a line, and every line but the last ends with one.  A label is its
    line without the run of whitespace that ends it. *)
Theorem load_labels_one_per_line (fs : Gfile.filesystem) (label_file text : string) :
  Gfile.fs_text fs label_file = Some text ->
  exists lines,
    load_labels fs label_file = Ok (map Py.rstrip lines)
    /\ lines = cut_lines (without_cr text)
    /\ String.concat "" lines = without_cr text
    /\ Forall is_line lines
    /\ (forall i line,
          nth_error lines i = Some line -> S i < List.length lines ->
          Py.endswith line (String "010" "") = true)
    /\ forall line,
         In line lines ->
         (exists ws, line = Py.rstrip line +s+ ws /\ all_space ws = true)
         /\ (forall p c, Py.rstrip line = p +s+ String c "" -> Py.isspace c = false).
Proof.
  intros Htext. exists (cut_lines (without_cr text)).
  split; [|split; [|split; [|split; [|split]]]].
  - unfold load_labels, Gfile.GFile_readlines. rewrite Htext.
    rewrite load_labels_loop_map, readlines_cut. reflexivity.
  - reflexivity.
  - apply cut_lines_concat.
  - apply cut_lines_lines.
  - intros i line. apply cut_lines_terminated.
  - intros line _. split.
    + apply rstrip_tail.
    + intros p c. apply rstrip_last.
Qed.

(** C8 as stated fails on a label file with carriage returns away from the
    ends of its lines.  The file of three lines [cat\r\n], [d\rog \n] and
    [\r] gives the two labels [cat] and [dog]; the lines of the file with
    their trailing whitespace stripped are [cat], [d\rog] and the empty
    string. *)
Lemma carriage_returns_are_dropped :
  load_labels cr_labels (label_file default_config) = Ok ["cat"; "dog"]
  /\ map Py.rstrip (cut_lines cr_text) = ["cat"; "d" +s+ String "013" "og"; ""]
  /\ load_labels cr_labels (label_file default_config)
     <> Ok (map Py.rstrip (cut_lines cr_text)).
Proof. repeat split; try reflexivity. discriminate. Qed.

(** ** Patterns and the file listing *)

Lemma no_char_app (c : ascii) (a b : string) :
  no_char c (a +s+ b) = no_char c a && no_char c b.
Proof.
  induction a as [|d a IH]; simpl; [reflexivity|].
  rewrite IH, andb_assoc. reflexivity.
Qed.

Lemma glob_match_cons_literal (p : ascii) (pattern path : string) :
  Ascii.eqb p "*" = false ->
  Gfile.glob_match (String p pattern) path =
  match path with
  | EmptyString => false
  | String c path' => Ascii.eqb p c && Gfile.glob_match pattern path'
  end.
Proof. intros Hp. simpl. rewrite Hp. reflexivity. Qed.

(** A literal prefix of the pattern has to be a prefix of the path. *)
Lemma glob_match_literal_app (d pattern path : string) :
  literal d = true ->
  Gfile.glob_match (d +s+ pattern) path = true <->
  exists r, path = d +s+ r /\ Gfile.glob_match pattern r = true.
Proof.
  revert path. induction d as [|c d IH]; intros path Hd.
  - simpl. split; [eauto | intros [r [-> Hr]]; exact Hr].
  - simpl in Hd. apply andb_true_iff in Hd as [Hc Hd].
    apply negb_true_iff in Hc.
    change (String c d +s+ pattern) with (String c (d +s+ pattern)).
    rewrite glob_match_cons_literal by assumption.
    destruct path as [|c' path].
    + split; [discriminate | intros [r [Hr _]]; discriminate].
    + rewrite andb_true_iff, Ascii.eqb_eq, (IH path Hd). split.
      * intros [<- [r [-> Hr]]]. exists r. auto.
      * intros [r [Heq Hr]]. simpl in Heq. injection Heq as <- ->. eauto.
Qed.

Lemma glob_match_literal (pattern path : string) :
  literal pattern = true ->
  Gfile.glob_match pattern path = true <-> path = pattern.
Proof.
  intros Hl. rewrite <- (append_nil_r pattern) at 1.
  rewrite glob_match_literal_app by assumption. split.
  - intros [r [-> Hr]]. destruct r; [apply append_nil_r | discriminate].
  - intros ->. exists "". rewrite append_nil_r. auto.
Qed.

(** The wildcard takes a run of characters without separator. *)
Lemma glob_match_star (pattern path : string) :
  Gfile.glob_match (String "*" pattern) path = true <->
  exists m r, path = m +s+ r /\ no_char "/" m = true
              /\ Gfile.glob_match pattern r = true.
Proof.
  induction path as [|c path IH].
  - simpl. rewrite orb_false_r. split.
    + intros Hm. exists "", "". auto.
    + intros [m [r [Heq [_ Hr]]]]. symmetry in Heq.
      apply append_eq_nil in Heq as [_ ->]. exact Hr.
  - change (Gfile.glob_match (String "*" pattern) (String c path))
      with (Gfile.glob_match pattern (String c path)
            || negb (Ascii.eqb c "/") && Gfile.glob_match (String "*" pattern) path).
    rewrite orb_true_iff, andb_true_iff, IH. split.
    + intros [Hm | [Hc [m [r [-> [Hm Hr]]]]]].
      * exists "", (String c path). auto.
      * exists (String c m), r. simpl. rewrite Hc, Hm. auto.
    + intros [[|d m] [r [Heq [Hm Hr]]]]; simpl in Heq.
      * left. subst r. exact Hr.
      * right. injection Heq as <- ->. simpl in Hm.
        apply andb_true_iff in Hm as [Hc Hm]. split; [exact Hc|].
        exists m, r. auto.
Qed.

(** The pattern the script builds for a folder and an extension, and what it
    matches: the entries of the folder whose name ends in [.extension]. *)
Lemma glob_match_folder (file_name extension path : string) :
  literal file_name = true -> literal extension = true -> file_name <> "" ->
  Gfile.glob_match (Py.path_join file_name ("*." +s+ extension)) path = true <->
  exists name, path = Gfile.dir_prefix file_name +s+ name +s+ "." +s+ extension
               /\ no_char "/" name = true.
Proof.
  intros Hf He Hne.
  assert (Hjoin : Py.path_join file_name ("*." +s+ extension)
                  = Gfile.dir_prefix file_name +s+ String "*" ("." +s+ extension)).
  { unfold Py.path_join, Gfile.dir_prefix. destruct file_name; [congruence|].
    destruct (Py.endswith _ "/"); [reflexivity|].
    rewrite append_assoc. reflexivity. }
  assert (Hdir : literal (Gfile.dir_prefix file_name) = true).
  { unfold Gfile.dir_prefix. destruct (Py.endswith file_name "/"); [assumption|].
    unfold literal. rewrite no_char_app. fold (literal file_name). rewrite Hf.
    reflexivity. }
  rewrite Hjoin, glob_match_literal_app by assumption. split.
  - intros [r [-> Hr]]. apply glob_match_star in Hr as [m [r' [-> [Hm Hr']]]].
    apply glob_match_literal in Hr'; [|exact He]. subst r'. eauto.
  - intros [name [-> Hname]]. eexists. split; [reflexivity|].
    apply glob_match_star. exists name, ("." +s+ extension).
    repeat split; [assumption|]. apply glob_match_literal; [exact He | reflexivity].
Qed.

Lemma extend_file_list_eq (fs : Gfile.filesystem) (file_name : string) (l : list string) :
  extend_file_list fs file_name l =
  l ++ Gfile.Glob fs (Py.path_join file_name "*.jpg")
    ++ Gfile.Glob fs (Py.path_join file_name "*.jpeg")
    ++ Gfile.Glob fs (Py.path_join file_name "*.JPG")
    ++ Gfile.Glob fs (Py.path_join file_name "*.JPEG").
Proof.
  unfold extend_file_list, extensions. simpl.
  repeat rewrite <- app_assoc. reflexivity.
Qed.

(** The files listed for a folder: the listed entries of the folder whose
    name ends in one of the four extensions. *)
Lemma extend_file_list_In (fs : Gfile.filesystem) (file_name f : string) :
  literal file_name = true -> file_name <> "" ->
  In f (extend_file_list fs file_name []) <->
  In f (Gfile.fs_paths fs)
  /\ exists name extension,
       In extension extensions
       /\ f = Gfile.dir_prefix file_name +s+ name +s+ "." +s+ extension
       /\ no_char "/" name = true.
Proof.
  intros Hf Hne. rewrite extend_file_list_eq. simpl.
  repeat rewrite in_app_iff. unfold Gfile.Glob. repeat rewrite filter_In.
  change "*.jpg" with ("*." +s+ "jpg"). change "*.jpeg" with ("*." +s+ "jpeg").
  change "*.JPG" with ("*." +s+ "JPG"). change "*.JPEG" with ("*." +s+ "JPEG").
  repeat rewrite glob_match_folder by (assumption || reflexivity).
  unfold extensions. split.
  - intros [[Hin [n [-> Hn]]] | [[Hin [n [-> Hn]]] | [[Hin [n [-> Hn]]] | [Hin [n [-> Hn]]]]]];
      (split; [exact Hin|]); exists n;
      [exists "jpg" | exists "jpeg" | exists "JPG" | exists "JPEG"]; simpl; auto 8.
  - intros [Hin [n [e [He [-> Hn]]]]]. simpl in He.
    destruct He as [<- | [<- | [<- | [<- | []]]]]; eauto 10.
Qed.

(** Nothing is listed under a path that does not exist. *)
Lemma extend_file_list_missing (fs : Gfile.filesystem) (file_name : string) :
  literal file_name = true -> file_name <> "" ->
  Gfile.Exists fs file_name = false ->
  extend_file_list fs file_name [] = [].
Proof.
  intros Hf Hne Hex.
  destruct (extend_file_list fs file_name []) as [|f l] eqn:E; [reflexivity|].
  exfalso.
  assert (Hin : In f (extend_file_list fs file_name [])) by (rewrite E; left; reflexivity).
  apply extend_file_list_In in Hin as [Hin [n [e [_ [-> _]]]]]; try assumption.
  unfold Gfile.Exists in Hex. rewrite <- not_true_iff_false in Hex. apply Hex.
  apply existsb_exists. eexists. split; [exact Hin|].
  apply orb_true_iff. right. apply prefix_iff. eauto.
Qed.

(** ** A reference [argsort] *)

(** Insertion sort on positions: one function with the contract of [argsort],
    for any total and transitive comparison of scores. *)
Section InsertionSort.
Context {score : Type} `{Scalar score}.
Hypothesis leb_total : forall x y : score, score_leb x y = true \/ score_leb y x = true.
Hypothesis leb_trans : forall x y z : score,
  score_leb x y = true -> score_leb y z = true -> score_leb x z = true.

Lemma insert_position_perm v i l : Permutation (insert_position v i l) (i :: l).
Proof.
  induction l as [|j l IH]; simpl; [reflexivity|].
  destruct (score_leb _ _); [reflexivity|].
  rewrite IH. apply perm_swap.
Qed.

Lemma insertion_argsort_perm v :
  Permutation (insertion_argsort v) (seq 0 (List.length v)).
Proof.
  unfold insertion_argsort.
  induction (seq 0 (List.length v)) as [|i l IH]; simpl; [reflexivity|].
  rewrite insert_position_perm. constructor. exact IH.
Qed.

Let ascending (v : list score) (i j : nat) : Prop :=
  score_leb (Np.item v i) (Np.item v j) = true.

Lemma insert_position_sorted v i l :
  StronglySorted (ascending v) l -> StronglySorted (ascending v) (insert_position v i l).
Proof.
  induction l as [|j l IH]; intros Hs; simpl.
  - repeat constructor.
  - inversion Hs as [|? ? Hl Hj]; subst.
    destruct (score_leb (Np.item v i) (Np.item v j)) eqn:E.
    + constructor; [exact Hs|]. constructor; [exact E|].
      eapply Forall_impl; [|exact Hj]. intros k Hk. unfold ascending in *. eauto.
    + constructor; [auto|].
      eapply Permutation_Forall; [symmetry; apply insert_position_perm|].
      constructor; [|exact Hj].
      destruct (leb_total (Np.item v i) (Np.item v j)) as [Hij|Hji]; [congruence|].
      exact Hji.
Qed.

Lemma insertion_argsort_sorted v : StronglySorted (ascending v) (insertion_argsort v).
Proof.
  unfold insertion_argsort.
  induction (seq 0 (List.length v)) as [|i l IH]; simpl.
  - constructor.
  - apply insert_position_sorted. exact IH.
Qed.
End InsertionSort.

Lemma Z_leb_total (x y : Z) : score_leb x y = true \/ score_leb y x = true.
Proof. simpl. rewrite !Z.leb_le. lia. Qed.

Lemma Z_leb_trans (x y z : Z) :
  score_leb x y = true -> score_leb y z = true -> score_leb x z = true.
Proof. simpl. rewrite !Z.leb_le. lia. Qed.

#[export] Instance Z_argsort : ArgSort Z := {|
  argsort := insertion_argsort;
  argsort_perm := insertion_argsort_perm;
  argsort_sorted := insertion_argsort_sorted Z_leb_total Z_leb_trans
|}.

Lemma float64_leb_total (x y : float64) : score_leb x y = true \/ score_leb y x = true.
Proof. simpl. rewrite !Z.leb_le. lia. Qed.

Lemma float64_leb_trans (x y z : float64) :
  score_leb x y = true -> score_leb y z = true -> score_leb x z = true.
Proof. simpl. rewrite !Z.leb_le. lia. Qed.

#[export] Instance float64_argsort : ArgSort float64 := {|
  argsort := insertion_argsort;
  argsort_perm := insertion_argsort_perm;
  argsort_sorted := insertion_argsort_sorted float64_leb_total float64_leb_trans
|}.

(** ** The definitions at work *)

Example endswith_png : Py.endswith "a/b.png" ".png" = true.
Proof. reflexivity. Qed.

Example rstrip_ex : Py.rstrip ("  12 3 " +s+ String "010" "") = "  12 3".
Proof. reflexivity. Qed.

Example split_ex : Py.split "/" "a//b/" = ["a"; ""; "b"; ""].
Proof. reflexivity. Qed.

Example int_ex : Py.int " -042 " = Some (-42)%Z /\ Py.int "4 2" = None /\ Py.int "" = None.
Proof. repeat split. Qed.

Example str_ex : map Py.str [0; 7; 98] = ["0"; "7"; "98"].
Proof. reflexivity. Qed.

Example glob_ex :
  map (Gfile.glob_match "d/*.jpg") ["d/a.jpg"; "d/.jpg"; "d/a.png"; "d/e/a.jpg"; "x/a.jpg"]
  = [true; true; false; false; false].
Proof. reflexivity. Qed.

Example readlines_ex :
  Gfile.readlines ("a" +s+ String "010" ("b" +s+ String "010" (String "010" "c")))
  = [String "a" (String "010" ""); String "b" (String "010" ""); String "010" ""; "c"].
Proof. reflexivity. Qed.

Example argsort_ex : argsort [30; 10; 20; 10]%Z = [1; 3; 2; 0].
Proof. reflexivity. Qed.

Example top_k_indices_ex : top_k_indices 2 [30; 10; 20; 10]%Z = [0; 2].
Proof. reflexivity. Qed.

Example single_image_ex :
  events (single_image_mode (H1 := toy_tensorflow scaled_output) one_image
            {| file_name := "grace_hopper.jpg"; folder_name := "";
               model_file := model_file default_config;
               label_file := label_file default_config;
               input_height := 299; input_width := 299;
               input_mean := 0; input_std := 1;
               input_layer := "input";
               output_layer := output_layer default_config |})
  = [PrintPair "1" 1568; PrintPair "98" 1552; PrintPair "97" 1536;
     PrintPair "96" 1520; PrintPair "95" 1504; PrintPair "94" 1488;
     PrintPair "93" 1472; PrintPair "92" 1456; PrintPair "91" 1440;
     PrintPair "90" 1424]%Z.
Proof. vm_compute. reflexivity. Qed.

Example vote_sum_ex :
  match outcome (vote_loop (H1 := toy_tensorflow scaled_output) two_votes vote_config
                           [file_a; file_bcd]) with
  | Ok a => firstn 4 (Np.sum0 a)
  | Raise _ => []
  end = [0; 124; 248; 372]%Z.
Proof. vm_compute. reflexivity. Qed.

Example top_k_ex :
  nth_error (events (main (H1 := toy_tensorflow constant_output) two_folders top_k_argv))
            (1 + 97 + 2 * 98)
  = Some (AddSummary (Qmake 3 3) 99).
Proof. vm_compute. reflexivity. Qed.


(** ** C7: the files of voting mode *)

Section VoteFiles.
Context {score : Type} `{ArgSort score} `{TensorFlow score}.

(** C7 (amended).  In voting mode the files iterated over are exactly the
    listed entries of the folder whose name ends in [.jpg], [.jpeg], [.JPG]
    or [.JPEG]: the four extensions of the script's list.  Files of the
    other raster formats the preprocessor can decode (PNG, GIF, BMP) are not
    among them. *)
Theorem vote_iterates_the_listed_extensions (fs : Gfile.filesystem) (cfg : config) :
  literal (file_name cfg) = true -> file_name cfg <> "" ->
  exists file_list,
    outcome (vote_file_list score fs cfg) = Ok file_list
    /\ vote_mode fs cfg = bind (vote_file_list score fs cfg) (vote_loop fs cfg)
    /\ forall f,
         In f file_list <->
         In f (Gfile.fs_paths fs)
         /\ exists name extension,
              In extension ["jpg"; "jpeg"; "JPG"; "JPEG"]
              /\ f = Gfile.dir_prefix (file_name cfg) +s+ name +s+ "." +s+ extension
              /\ no_char "/" name = true.
Proof.
  intros Hl Hne. exists (extend_file_list fs (file_name cfg) []).
  split; [|split].
  - unfold vote_file_list, check_directory.
    destruct (Gfile.Exists fs (file_name cfg)); reflexivity.
  - reflexivity.
  - intros f. apply extend_file_list_In; assumption.
Qed.
End VoteFiles.

(** C7 as stated fails: with [--vote True --image set1] and a folder holding
    a JPEG, a PNG, a GIF, a BMP and another JPEG image, the files iterated
    over are the two JPEG files only; the PNG file, which is in the folder,
    has a raster extension and would be decoded by the PNG reader, is not
    among them. *)
Lemma vote_skips_png_gif_bmp :
  outcome (vote_file_list Z mixed_folder (configure (vote_args "set1")))
  = Ok ["/mnt/storage/scratch/tc13007/mantas_test_augmented/set1/a.jpg";
        "/mnt/storage/scratch/tc13007/mantas_test_augmented/set1/e.JPEG"]
  /\ exists f name extension,
       In f (Gfile.fs_paths mixed_folder)
       /\ In extension raster_extensions
       /\ f = Gfile.dir_prefix (file_name (configure (vote_args "set1")))
              +s+ name +s+ "." +s+ extension
       /\ select_decoder f = PNG
       /\ ~ In f ["/mnt/storage/scratch/tc13007/mantas_test_augmented/set1/a.jpg";
                  "/mnt/storage/scratch/tc13007/mantas_test_augmented/set1/e.JPEG"].
Proof.
  split; [reflexivity|].
  exists "/mnt/storage/scratch/tc13007/mantas_test_augmented/set1/b.png", "b", "png".
  split; [simpl; auto|]. split; [simpl; auto 8|]. split; [reflexivity|].
  split; [reflexivity|].
  intros [Hin | [Hin | []]]; discriminate.
Qed.

(** ** C5: a missing image directory *)

Lemma string_of_uint_literal (d : Decimal.uint) :
  literal (NilEmpty.string_of_uint d) = true.
Proof. induction d; simpl; auto. Qed.

Lemma str_literal (i : nat) : literal (Py.str i) = true.
Proof.
  unfold Py.str, NilZero.string_of_uint.
  destruct (Nat.to_uint i); try reflexivity; apply string_of_uint_literal.
Qed.

Lemma numbered_folder_literal (cfg : config) (i : nat) :
  literal (folder_name cfg) = true -> literal (numbered_folder cfg i) = true.
Proof.
  intros Hl. unfold numbered_folder, literal. rewrite !no_char_app.
  fold (literal (folder_name cfg)). fold (literal (Py.str i)).
  rewrite Hl, str_literal. reflexivity.
Qed.

Lemma numbered_folder_not_empty (cfg : config) (i : nat) : numbered_folder cfg i <> "".
Proof.
  unfold numbered_folder. intros Heq. apply append_eq_nil in Heq as [_ Heq].
  discriminate.
Qed.

Lemma seq_split_at (n i : nat) :
  i < n -> seq 0 n = seq 0 i ++ i :: seq (S i) (n - S i).
Proof.
  intros Hi. replace n with (i + S (n - S i)) at 1 by lia.
  rewrite seq_app. reflexivity.
Qed.

Section MissingDirectory.
Context {score : Type} `{ArgSort score} `{TensorFlow score}.
Variable fs : Gfile.filesystem.
Variable cfg : config.

(** Every turn of the folder loop ends with [file_list = []]. *)
Lemma collect_folder_resets (st st' : collected score) (i : nat) :
  outcome (collect_folder fs cfg st i) = Ok st' -> file_list st' = [].
Proof.
  unfold collect_folder. intros Hrun.
  apply bind_outcome_ok in Hrun as [[] [_ Hrun]].
  apply bind_outcome_ok in Hrun as [st1 [_ Hrun]].
  simpl in Hrun. injection Hrun as <-. reflexivity.
Qed.

Lemma collect_loop_resets (l : list nat) (st st' : collected score) :
  file_list st = [] ->
  outcome (for_each (collect_folder fs cfg) l st) = Ok st' -> file_list st' = [].
Proof.
  revert st. induction l as [|i l IH]; intros st Hst; simpl.
  - intros [= <-]. exact Hst.
  - intros Hrun. apply bind_outcome_ok in Hrun as [st1 [H1' Hrun]].
    eapply IH; [|exact Hrun]. eapply collect_folder_resets. exact H1'.
Qed.

(** A folder that does not exist: one log record, and the loop's variables
    are what they were. *)
Lemma collect_folder_missing (st : collected score) (i : nat) :
  literal (folder_name cfg) = true ->
  Gfile.Exists fs (numbered_folder cfg i) = false ->
  file_list st = [] ->
  collect_folder fs cfg st i
  = ([LogError (not_found_message (numbered_folder cfg i))], Ok st).
Proof.
  intros Hl Hex Hst. unfold collect_folder, check_directory.
  rewrite Hex, Hst.
  rewrite extend_file_list_missing;
    auto using numbered_folder_literal, numbered_folder_not_empty.
  destruct st as [fl ev fr gt]. simpl in *. subst fl. reflexivity.
Qed.

(** C5.  An expected image directory that does not exist (a numbered
    subfolder in top-K mode, the voting folder in voting mode) makes the
    program log the error and go on, the directory contributing no file:
    the top-K collection is the collection of the folders before it, the
    log record, then the collection of the folders after it from the same
    variables; voting mode completes with the log record as its only event
    and no row collected. *)
Theorem missing_directory_is_logged_and_skipped :
  (literal (folder_name cfg) = true ->
   forall i, i < 99 ->
     Gfile.Exists fs (numbered_folder cfg i) = false ->
     top_k_collect fs cfg
     = (st <- for_each (collect_folder fs cfg) (seq 0 i) (collect_start score) ;;
        emit (LogError (not_found_message (numbered_folder cfg i))) ;;;
        for_each (collect_folder fs cfg) (seq (S i) (98 - i)) st))
  /\ (literal (file_name cfg) = true -> file_name cfg <> "" ->
      Gfile.Exists fs (file_name cfg) = false ->
      vote_file_list score fs cfg
      = ([LogError (not_found_message (file_name cfg))], Ok [])
      /\ vote_mode fs cfg
         = ([LogError (not_found_message (file_name cfg))], Ok (Np.empty2 99))).
Proof.
  split.
  - intros Hl i Hi Hex. unfold top_k_collect.
    rewrite (seq_split_at Hi).
    replace (99 - S i) with (98 - i) by lia.
    rewrite for_each_app.
    destruct (for_each (collect_folder fs cfg) (seq 0 i) (collect_start score))
      as [evs [st|e]] eqn:E; [|reflexivity].
    assert (Hst : file_list st = []).
    { apply (collect_loop_resets (seq 0 i) (collect_start score)); [reflexivity|].
      rewrite E. reflexivity. }
    unfold bind at 1 3.
    change (for_each (collect_folder fs cfg) (i :: seq (S i) (98 - i)) st)
      with (bind (collect_folder fs cfg st i)
                 (for_each (collect_folder fs cfg) (seq (S i) (98 - i)))).
    rewrite collect_folder_missing by assumption.
    reflexivity.
  - intros Hl Hne Hex.
    assert (Hlist : vote_file_list score fs cfg
                    = ([LogError (not_found_message (file_name cfg))], Ok [])).
    { unfold vote_file_list, check_directory. rewrite Hex.
      rewrite extend_file_list_missing by assumption. reflexivity. }
    split; [exact Hlist|].
    unfold vote_mode. rewrite Hlist. reflexivity.
Qed.
End MissingDirectory.

(** ** C6 and C9: no image at all, and a model of another width *)

Section Collection.
Context {score : Type} `{ArgSort score} `{TensorFlow score}.
Variable fs : Gfile.filesystem.
Variable cfg : config.

(** A folder without matching file leaves the loop's variables alone. *)
Lemma collect_folder_empty (st : collected score) (i : nat) :
  extend_file_list fs (numbered_folder cfg i) [] = [] ->
  file_list st = [] ->
  collect_folder fs cfg st i
  = (events (check_directory score fs (numbered_folder cfg i)), Ok st).
Proof.
  intros Hglob Hst. unfold collect_folder. rewrite Hst, Hglob.
  unfold check_directory.
  destruct st as [fl ev fr gt]; simpl in *; subst fl.
  destruct (Gfile.Exists fs (numbered_folder cfg i)); reflexivity.
Qed.

Lemma collect_loop_empty (l : list nat) (st : collected score) :
  (forall i, In i l -> extend_file_list fs (numbered_folder cfg i) [] = []) ->
  file_list st = [] ->
  outcome (for_each (collect_folder fs cfg) l st) = Ok st.
Proof.
  induction l as [|i l IH]; intros Hall Hst; [reflexivity|].
  change (for_each (collect_folder fs cfg) (i :: l) st)
    with (bind (collect_folder fs cfg st i) (for_each (collect_folder fs cfg) l)).
  rewrite collect_folder_empty by (auto using in_eq).
  unfold bind.
  specialize (IH (fun j Hj => Hall j (in_cons _ _ _ Hj)) Hst).
  destruct (for_each (collect_folder fs cfg) l st) as [evs r]. exact IH.
Qed.

(** A first file whose row is not 99 wide stops the folder loop. *)
Lemma collect_loop_wrong_width (before after : list nat) (i : nat)
    (st : collected score) (f : string) (files : list string) (row : list score) :
  (forall j, In j before -> extend_file_list fs (numbered_folder cfg j) [] = []) ->
  extend_file_list fs (numbered_folder cfg i) [] = f :: files ->
  classify cfg f = Ok row -> List.length row <> 99 ->
  file_list st = [] -> Np.ncols (final_results st) = 99 ->
  outcome (for_each (collect_folder fs cfg) (before ++ i :: after) st)
  = Raise ValueError.
Proof.
  intros Hbefore Hfiles Hrow Hlen Hst Hcols.
  rewrite for_each_app, outcome_bind, (collect_loop_empty before st Hbefore Hst).
  cbn [for_each]. rewrite outcome_bind.
  unfold collect_folder. rewrite Hst, Hfiles.
  unfold check_directory, collect_file. cbn [for_each]. rewrite Hrow.
  unfold Np.append. cbn [final_results]. rewrite Hcols.
  apply Nat.eqb_neq in Hlen. rewrite bind_lift_ok, Hlen.
  destruct (Gfile.Exists fs (numbered_folder cfg i)); reflexivity.
Qed.
End Collection.

Section NoImage.
Context {score : Type} `{ArgSort score} `{TensorFlow score}.

(** C6.  In top-K evaluation mode, when no image file is found in any of
    the 99 numbered subfolders, [evaluated_images] is 0 and the accuracy
    computation [prediction / evaluated_images] raises the division by zero
    that ends the run; no accuracy is reported. *)
Theorem no_image_divides_by_zero (fs : Gfile.filesystem) (cfg : config)
    (summaries_dir logdir : string) (labels : list string) :
  top_k_logdir cfg summaries_dir = Ok logdir ->
  load_labels fs (label_file cfg) = Ok labels ->
  (forall i, i < 99 -> extend_file_list fs (numbered_folder cfg i) [] = []) ->
  exists st,
    outcome (top_k_collect fs cfg) = Ok st
    /\ evaluated_images st = 0
    /\ true_div 0 (evaluated_images st) = Raise ZeroDivisionError
    /\ outcome (top_k_mode fs cfg summaries_dir) = Raise ZeroDivisionError
    /\ forall accuracy k,
         ~ In (AddSummary accuracy k) (events (top_k_mode fs cfg summaries_dir)).
Proof.
  intros Hdir Hlabels Hnone. exists (collect_start score).
  assert (Hcollect : outcome (top_k_collect fs cfg) = Ok (collect_start score)).
  { apply collect_loop_empty; [|reflexivity].
    intros i Hi. apply Hnone. apply in_seq in Hi. lia. }
  split; [exact Hcollect|]. split; [reflexivity|]. split; [reflexivity|].
  unfold top_k_mode. rewrite Hdir.
  destruct (top_k_collect fs cfg) as [evs r] eqn:E. simpl in Hcollect. subst r.
  assert (Hfirst : for_each (top_k_accuracy fs cfg (collect_start score)) (seq 1 99) tt
                   = ([], Raise ZeroDivisionError)).
  { cbn [seq for_each]. unfold top_k_accuracy at 1. rewrite Hlabels. reflexivity. }
  assert (Hcheck : forall i, exists msg,
             events (check_directory score fs (numbered_folder cfg i)) = []
             \/ events (check_directory score fs (numbered_folder cfg i)) = [LogError msg]).
  { intros i. unfold check_directory. eexists.
    destruct (Gfile.Exists fs _); [left | right]; reflexivity. }
  assert (Hevs : forall l st evs',
             (forall i, In i l -> extend_file_list fs (numbered_folder cfg i) [] = []) ->
             file_list st = [] ->
             events (for_each (collect_folder fs cfg) l st) = evs' ->
             forall accuracy k, ~ In (AddSummary accuracy k) evs').
  { induction l as [|i l IH]; intros st evs' Hall Hst <- accuracy k.
    - simpl. auto.
    - change (for_each (collect_folder fs cfg) (i :: l) st)
        with (bind (collect_folder fs cfg st i) (for_each (collect_folder fs cfg) l)).
      rewrite collect_folder_empty by (auto using in_eq). unfold bind.
      specialize (IH st _ (fun j Hj => Hall j (in_cons _ _ _ Hj)) Hst eq_refl accuracy k).
      destruct (for_each (collect_folder fs cfg) l st) as [evs2 r2]. simpl in *.
      rewrite in_app_iff. intros [Hin | Hin]; [|exact (IH Hin)].
      destruct (Hcheck i) as [msg [Hc | Hc]]; rewrite Hc in Hin; simpl in Hin;
        [|destruct Hin as [Hin|Hin]; [discriminate|]]; exact Hin. }
  assert (Hno := Hevs (seq 0 99) (collect_start score) evs
                   (fun i Hi => Hnone i (proj2 (proj1 (in_seq _ _ _) Hi)))
                   eq_refl).
  unfold top_k_collect in E. rewrite E in Hno. specialize (Hno eq_refl).
  unfold bind, lift, emit. rewrite Hfirst. simpl. split; [reflexivity|].
  intros accuracy k [Hin | Hin]; [discriminate|].
  rewrite app_nil_r in Hin. exact (Hno accuracy k Hin).
Qed.
End NoImage.

Section WrongWidth.
Context {score : Type} `{ArgSort score} `{TensorFlow score}.

Lemma append_ok_iff (a : Np.array2 score) (row : list score) :
  (exists a', Np.append a row = Ok a') <-> List.length row = Np.ncols a.
Proof.
  unfold Np.append. destruct (List.length row =? Np.ncols a) eqn:E.
  - apply Nat.eqb_eq in E. split; eauto.
  - apply Nat.eqb_neq in E. split; [intros [a' Ha]; discriminate | contradiction].
Qed.

Lemma append_raises_iff (a : Np.array2 score) (row : list score) :
  Np.append a row = Raise ValueError <-> List.length row <> Np.ncols a.
Proof.
  unfold Np.append. destruct (List.length row =? Np.ncols a) eqn:E.
  - apply Nat.eqb_eq in E. split; [discriminate | contradiction].
  - apply Nat.eqb_neq in E. tauto.
Qed.

(** C9.  In voting mode and in top-K evaluation mode the results array has
    shape [(0, 99)] and rows are appended along axis 0: a row is accepted
    exactly when it has 99 elements.  When the output of the model for the
    first file evaluated (the first listed file of the voting folder; in
    top-K mode the first listed file of the first numbered folder that lists
    one) is of any other length, the first append raises [ValueError] and ends
    the run, whatever the label file holds (nothing is assumed of it) and
    whatever the other files are. *)
Theorem other_width_raises_value_error (fs : Gfile.filesystem) (cfg : config)
    (summaries_dir logdir : string) :
  Np.shape (Np.empty2 (score := score) 99) = [0; 99]
  /\ (forall (a : Np.array2 score) row,
        Np.ncols a = 99 ->
        ((exists a', Np.append a row = Ok a') <-> List.length row = 99)
        /\ (Np.append a row = Raise ValueError <-> List.length row <> 99))
  /\ (forall i f files row,
        top_k_logdir cfg summaries_dir = Ok logdir ->
        i < 99 ->
        (forall j, j < i -> extend_file_list fs (numbered_folder cfg j) [] = []) ->
        extend_file_list fs (numbered_folder cfg i) [] = f :: files ->
        classify cfg f = Ok row -> List.length row <> 99 ->
        outcome (top_k_mode fs cfg summaries_dir) = Raise ValueError)
  /\ (forall f files row,
        extend_file_list fs (file_name cfg) [] = f :: files ->
        classify cfg f = Ok row -> List.length row <> 99 ->
        outcome (vote_mode fs cfg) = Raise ValueError).
Proof.
  split; [reflexivity|]. split; [|split].
  - intros a row Hcols. rewrite append_ok_iff, append_raises_iff, Hcols. tauto.
  - intros i f files row Hdir Hi Hbefore Hfiles Hrow Hlen.
    unfold top_k_mode. rewrite Hdir.
    assert (Hcollect : outcome (top_k_collect fs cfg) = Raise ValueError).
    { unfold top_k_collect. rewrite (seq_split_at Hi).
      apply collect_loop_wrong_width with (f := f) (files := files) (row := row);
        try assumption; try reflexivity.
      intros j Hj. apply Hbefore. apply in_seq in Hj. lia. }
    destruct (top_k_collect fs cfg) as [evs r]. simpl in Hcollect. subst r.
    reflexivity.
  - intros f files row Hfiles Hrow Hlen.
    assert (Hlist : exists evs, vote_file_list score fs cfg
                                = (evs, Ok (extend_file_list fs (file_name cfg) []))).
    { unfold vote_file_list, check_directory.
      destruct (Gfile.Exists fs (file_name cfg)); eexists; reflexivity. }
    destruct Hlist as [evs Hlist]. unfold vote_mode.
    rewrite (bind_ok _ Hlist). cbn [outcome snd]. rewrite Hfiles.
    unfold vote_loop. cbn [for_each]. unfold vote_step.
    rewrite Hrow, bind_lift_ok.
    unfold Np.append. cbn [Np.ncols Np.empty2].
    apply Nat.eqb_neq in Hlen. rewrite Hlen. reflexivity.
Qed.
End WrongWidth.

(** ** Sorted lists and the best [k] positions *)

Lemma StronglySorted_app_iff {A} (R : A -> A -> Prop) (l1 l2 : list A) :
  StronglySorted R (l1 ++ l2) <->
  StronglySorted R l1 /\ StronglySorted R l2
  /\ forall x y, In x l1 -> In y l2 -> R x y.
Proof.
  induction l1 as [|a l1 IH]; simpl.
  - split; [intros Hs | tauto]. repeat split; [constructor | exact Hs | contradiction].
  - split.
    + intros Hs. inversion Hs as [|? ? Hs' Ha]; subst.
      apply IH in Hs' as [H1 [H2 H12]]. rewrite Forall_app in Ha. destruct Ha as [Ha1 Ha2].
      repeat split; [constructor; assumption | assumption |].
      intros x y [<- | Hx] Hy; [|auto]. rewrite Forall_forall in Ha2. auto.
    + intros [H1 [H2 H12]]. inversion H1 as [|? ? H1' Ha]; subst.
      constructor.
      * apply IH. repeat split; auto.
      * rewrite Forall_app. split; [assumption|]. apply Forall_forall. auto.
Qed.

Lemma StronglySorted_rev {A} (R : A -> A -> Prop) (l : list A) :
  StronglySorted R l -> StronglySorted (fun x y => R y x) (rev l).
Proof.
  induction 1 as [|a l Hs IH Ha]; simpl; [constructor|].
  apply StronglySorted_app_iff. repeat split; [exact IH | repeat constructor |].
  intros x y Hx [<- | []]. rewrite Forall_forall in Ha. apply Ha.
  apply in_rev. exact Hx.
Qed.

Lemma last_k_split {A} (k : nat) (l : list A) :
  0 < k -> l = firstn (List.length l - k) l ++ Py.last_k k l.
Proof.
  intros Hk. unfold Py.last_k. destruct k; [lia|].
  symmetry. apply firstn_skipn.
Qed.

Lemma last_k_length {A} (k : nat) (l : list A) :
  0 < k -> k <= List.length l -> List.length (Py.last_k k l) = k.
Proof.
  intros Hk Hl. unfold Py.last_k. destruct k; [lia|].
  rewrite length_skipn. lia.
Qed.

Lemma bind_emit {score B} (ev : event score) (f : unit -> M score B) :
  bind (emit ev) f = (ev :: events (f tt), outcome (f tt)).
Proof. unfold emit, bind. destruct (f tt); reflexivity. Qed.

Section TopK.
Context {score : Type} `{ArgSort score}.

Lemma argsort_length (v : list score) : List.length (argsort v) = List.length v.
Proof. rewrite (Permutation_length (argsort_perm v)). apply length_seq. Qed.

Lemma argsort_In (v : list score) (i : nat) : In i (argsort v) <-> i < List.length v.
Proof.
  split; intros Hi.
  - apply (Permutation_in _ (argsort_perm v)) in Hi. apply in_seq in Hi. lia.
  - apply (Permutation_in _ (Permutation_sym (argsort_perm v))). apply in_seq. lia.
Qed.

Lemma argsort_NoDup (v : list score) : NoDup (argsort v).
Proof.
  apply (Permutation_NoDup (Permutation_sym (argsort_perm v))). apply seq_NoDup.
Qed.

(** The positions [results.argsort()[-k:][::-1]] selects: [k] distinct
    positions of the vector, scores descending, and no position left out
    has a score above one that was taken. *)
Lemma top_k_indices_spec (k : nat) (v : list score) :
  0 < k -> k <= List.length v ->
  List.length (top_k_indices k v) = k
  /\ NoDup (top_k_indices k v)
  /\ (forall i, In i (top_k_indices k v) -> i < List.length v)
  /\ StronglySorted (fun i j => score_leb (Np.item v j) (Np.item v i) = true)
                    (top_k_indices k v)
  /\ (forall j i, j < List.length v -> ~ In j (top_k_indices k v) ->
                  In i (top_k_indices k v) ->
                  score_leb (Np.item v j) (Np.item v i) = true).
Proof.
  intros Hk Hlen. unfold top_k_indices.
  pose proof (last_k_split (argsort v) Hk) as Hsplit.
  pose proof (argsort_sorted v) as Hsorted.
  pose proof (argsort_NoDup v) as Hnodup.
  rewrite Hsplit in Hsorted, Hnodup.
  apply StronglySorted_app_iff in Hsorted as [_ [Hlast Hbelow]].
  split; [|split; [|split; [|split]]].
  - rewrite length_rev. apply last_k_length; [exact Hk|].
    rewrite argsort_length. exact Hlen.
  - apply NoDup_rev. apply NoDup_app_remove_l in Hnodup. exact Hnodup.
  - intros i Hi. apply in_rev in Hi. apply argsort_In.
    rewrite Hsplit. apply in_or_app. right. exact Hi.
  - apply StronglySorted_rev in Hlast. exact Hlast.
  - intros j i Hj Hout Hi. apply in_rev in Hi. apply Hbelow; [|exact Hi].
    apply argsort_In in Hj. rewrite Hsplit in Hj. apply in_app_or in Hj.
    destruct Hj as [Hj | Hj]; [exact Hj|].
    exfalso. apply Hout. apply in_rev. rewrite rev_involutive. exact Hj.
Qed.

(** With all [k = length v] positions asked for, every position is taken. *)
Lemma top_k_indices_all (v : list score) :
  0 < List.length v ->
  Permutation (top_k_indices (List.length v) v) (seq 0 (List.length v)).
Proof.
  intros Hpos. unfold top_k_indices, Py.last_k.
  destruct (List.length v) as [|n] eqn:E; [lia|].
  rewrite argsort_length, E, Nat.sub_diag. simpl skipn.
  rewrite <- Permutation_rev. rewrite <- E. apply argsort_perm.
Qed.

(** Printing a ranking whose positions all have a label and a score. *)
Lemma print_top_ok (labels : list string) (results : list score) (top : list nat) :
  (forall i, In i top -> i < List.length labels /\ i < List.length results) ->
  print_top labels results top
  = (map (fun i => PrintPair (nth i labels "") (Np.item results i)) top, Ok tt).
Proof.
  unfold print_top. induction top as [|i top IH]; intros Hin; [reflexivity|].
  cbn [for_each map].
  destruct (Hin i (in_eq _ _)) as [Hl Hr].
  rewrite (nth_error_nth' labels "" Hl), (nth_error_nth' results Np.zero Hr).
  rewrite bind_emit.
  rewrite IH by (intros j Hj; apply Hin; right; exact Hj).
  reflexivity.
Qed.
End TopK.

(** ** C2: single-image mode *)

Lemma squeeze_vector {score} (results : list score) :
  List.length results <> 1 -> Np.squeeze results = Np.Vector results.
Proof. destruct results as [|x [|y r]]; simpl; [reflexivity | lia | reflexivity]. Qed.

Section SingleImage.
Context {score : Type} `{ArgSort score} `{TensorFlow score}.

(** C2.  In single-image mode, for every output vector of 99 scores, the
    ten [(label, score)] pairs printed are those of ten distinct classes,
    in non-increasing order of score, and they are the ten highest-scoring
    classes: no class left out has a score above a printed one.  [top] is
    the list of the printed positions, in printing order. *)
Theorem single_image_prints_the_ten_best (fs : Gfile.filesystem) (cfg : config)
    (results : list score) (labels : list string) :
  classify cfg (file_name cfg) = Ok results ->
  List.length results = 99 ->
  load_labels fs (label_file cfg) = Ok labels ->
  99 <= List.length labels ->
  exists top,
    single_image_mode fs cfg
    = (map (fun i => PrintPair (nth i labels "") (Np.item results i)) top, Ok tt)
    /\ List.length top = 10
    /\ NoDup top
    /\ (forall i, In i top -> i < 99)
    /\ StronglySorted
         (fun i j => score_leb (Np.item results j) (Np.item results i) = true) top
    /\ (forall j i, j < 99 -> ~ In j top -> In i top ->
                    score_leb (Np.item results j) (Np.item results i) = true).
Proof.
  intros Hrun Hlen Hlabels Hmany.
  destruct (@top_k_indices_spec score _ _ 10 results) as [Hn [Hd [Hlt [Hs Hbest]]]];
    [lia | lia |].
  rewrite Hlen in Hlt, Hbest.
  exists (top_k_indices 10 results).
  split; [|auto].
  unfold single_image_mode.
  rewrite Hrun, bind_lift_ok, squeeze_vector, Hlabels, bind_lift_ok by lia.
  apply print_top_ok. intros i Hi. apply Hlt in Hi. lia.
Qed.
End SingleImage.

(** ** C4: the sum of voting mode *)

Section ColumnSums.
Context {score : Type} `{Scalar score}.

Lemma add_rows_length (u v : list score) :
  List.length v = List.length u -> List.length (Np.add_rows u v) = List.length u.
Proof.
  revert v. induction u as [|x u IH]; intros [|y v]; simpl; try congruence.
  intros [= Hl]. rewrite IH by exact Hl. reflexivity.
Qed.

Lemma add_rows_item (u v : list score) (j : nat) :
  List.length v = List.length u -> j < List.length u ->
  Np.item (Np.add_rows u v) j = score_add (Np.item u j) (Np.item v j).
Proof.
  unfold Np.item.
  revert v j. induction u as [|x u IH]; intros [|y v] [|j]; simpl;
    try lia; try discriminate; try reflexivity.
  intros [= Hl] Hj. apply IH; [exact Hl | lia].
Qed.

Lemma fold_add_rows_length (rows : list (list score)) (acc : list score) :
  Forall (fun r => List.length r = List.length acc) rows ->
  List.length (fold_left Np.add_rows rows acc) = List.length acc.
Proof.
  revert acc. induction rows as [|r rows IH]; intros acc Hall; [reflexivity|].
  inversion Hall as [|? ? Hr Hrows]; subst. simpl.
  rewrite IH; [apply add_rows_length; exact Hr|].
  rewrite add_rows_length by exact Hr. exact Hrows.
Qed.

Lemma fold_add_rows_item (rows : list (list score)) (acc : list score) (j : nat) :
  Forall (fun r => List.length r = List.length acc) rows -> j < List.length acc ->
  Np.item (fold_left Np.add_rows rows acc) j
  = fold_left score_add (map (fun r => Np.item r j) rows) (Np.item acc j).
Proof.
  revert acc. induction rows as [|r rows IH]; intros acc Hall Hj; [reflexivity|].
  inversion Hall as [|? ? Hr Hrows]; subst. simpl.
  rewrite IH.
  - rewrite add_rows_item by assumption. reflexivity.
  - rewrite add_rows_length by exact Hr. exact Hrows.
  - rewrite add_rows_length by exact Hr. exact Hj.
Qed.

Lemma sum0_length (a : Np.array2 score) :
  rectangular a -> List.length (Np.sum0 a) = Np.ncols a.
Proof.
  intros Hr. unfold Np.sum0. rewrite fold_add_rows_length; rewrite repeat_length;
    [reflexivity | exact Hr].
Qed.

(** Column [j] of [np.sum(a, axis=0)] is the sum of column [j]. *)
Lemma sum0_item (a : Np.array2 score) (j : nat) :
  rectangular a -> j < Np.ncols a ->
  Np.item (Np.sum0 a) j
  = fold_left score_add (map (fun r => Np.item r j) (Np.rows a)) Np.zero.
Proof.
  intros Hr Hj. unfold Np.sum0.
  rewrite fold_add_rows_item; rewrite ?repeat_length; try assumption.
  f_equal. unfold Np.item. apply nth_repeat_lt. exact Hj.
Qed.

Hypothesis add_comm : forall x y : score, score_add x y = score_add y x.
Hypothesis add_assoc : forall x y z : score,
  score_add x (score_add y z) = score_add (score_add x y) z.

Lemma add_rows_swap (acc u v : list score) :
  Np.add_rows (Np.add_rows acc u) v = Np.add_rows (Np.add_rows acc v) u.
Proof.
  revert u v. induction acc as [|x acc IH]; intros [|y u] [|z v]; simpl;
    try reflexivity.
  rewrite IH. f_equal.
  rewrite <- !add_assoc. f_equal. apply add_comm.
Qed.

(** The order of the rows does not change their sum. *)
Lemma fold_add_rows_perm (rows rows' : list (list score)) (acc : list score) :
  Permutation rows rows' ->
  fold_left Np.add_rows rows acc = fold_left Np.add_rows rows' acc.
Proof.
  intros Hp. revert acc. induction Hp; intros acc; simpl.
  - reflexivity.
  - apply IHHp.
  - rewrite add_rows_swap. reflexivity.
  - rewrite IHHp1. apply IHHp2.
Qed.
End ColumnSums.

Section VoteSum.
Context {score : Type} `{ArgSort score} `{TensorFlow score}.
Variable fs : Gfile.filesystem.
Variable cfg : config.
Variable output : string -> list score.
Variable labels : list string.
Hypothesis labels_loaded : load_labels fs (label_file cfg) = Ok labels.
Hypothesis labels_cover : 99 <= List.length labels.

Let row_added (a : Np.array2 score) (row : list score) : Np.array2 score :=
  {| Np.ncols := Np.ncols a; Np.rows := Np.rows a ++ [row] |}.

(** One turn: the row is appended and the ranking of the new sum printed. *)
Lemma vote_step_ok (a : Np.array2 score) (f : string) :
  classify cfg f = Ok (output f) -> List.length (output f) = 99 ->
  Np.ncols a = 99 -> rectangular a ->
  vote_step fs cfg a f
  = (ranking labels (Np.sum0 (row_added a (output f))), Ok (row_added a (output f)))
  /\ rectangular (row_added a (output f)).
Proof.
  intros Hrun Hlen Hcols Hrect.
  assert (Hrect' : rectangular (row_added a (output f))).
  { unfold rectangular, row_added. simpl. apply Forall_app. split; [exact Hrect|].
    repeat constructor. congruence. }
  split; [|exact Hrect'].
  unfold vote_step. rewrite Hrun, bind_lift_ok.
  unfold Np.append. rewrite Hlen, Hcols. change (99 =? 99) with true. cbv iota.
  rewrite bind_lift_ok, labels_loaded, bind_lift_ok.
  rewrite <- Hcols. fold (row_added a (output f)).
  rewrite print_top_ok.
  - unfold bind, ret, ranking. rewrite app_nil_r. reflexivity.
  - intros i Hi.
    pose proof (sum0_length Hrect') as Hsum. simpl in Hsum.
    destruct (@top_k_indices_spec score _ _ 10 (Np.sum0 (row_added a (output f))))
      as [_ [_ [Hlt _]]]; [lia | lia |].
    apply Hlt in Hi. lia.
Qed.

(** The loop over the files, from any array of 99 columns. *)
Lemma vote_loop_from (l : list string) (a : Np.array2 score) :
  (forall f, In f l -> classify cfg f = Ok (output f) /\ List.length (output f) = 99) ->
  Np.ncols a = 99 -> rectangular a ->
  exists evs,
    for_each (vote_step fs cfg) l a
    = (evs, Ok {| Np.ncols := 99; Np.rows := Np.rows a ++ map output l |})
    /\ (l <> [] ->
        exists earlier,
          evs = earlier
                ++ ranking labels
                     (Np.sum0 {| Np.ncols := 99; Np.rows := Np.rows a ++ map output l |})).
Proof.
  revert a. induction l as [|f l IH]; intros a Hall Hcols Hrect.
  - exists []. split; [|congruence]. simpl. rewrite app_nil_r.
    destruct a as [c r]. simpl in Hcols. subst c. reflexivity.
  - destruct (Hall f (in_eq _ _)) as [Hrun Hlen].
    destruct (vote_step_ok Hrun Hlen Hcols Hrect) as [Hstep Hrect'].
    destruct (IH (row_added a (output f))) as [evs [Hloop Hlast]];
      [intros g Hg; apply Hall; right; exact Hg | exact Hcols | exact Hrect' |].
    cbn [for_each]. rewrite Hstep. cbn [bind]. rewrite Hloop.
    cbn [Np.rows row_added map] in *. rewrite <- app_assoc in *. cbn [app] in *.
    eexists. split; [reflexivity|]. intros _.
    destruct l as [|g l].
    + exists []. injection Hloop as <-. simpl. rewrite app_nil_r.
      unfold row_added. rewrite Hcols. reflexivity.
    + destruct Hlast as [earlier ->]; [discriminate|].
      eexists. rewrite app_assoc. reflexivity.
Qed.

(** C4 (amended).  In voting mode, for a list of image files that are
    classified with 99 scores each, the summed score vector that is ranked is
    the element-wise sum of the output vectors of the images, added in
    iteration order; the final ranking, the last one printed, is the ranking
    of this sum.  When the additions are exact, that is, when the addition
    of scores is commutative and associative, the sum and with it the final
    ranking are the same for every iteration order over the files.  [a1] and
    [a2] are the arrays accumulated in the two orders. *)
Theorem vote_sum_is_order_independent (l1 : list string) :
  (forall f, In f l1 -> classify cfg f = Ok (output f) /\ List.length (output f) = 99) ->
  exists a1,
    outcome (vote_loop fs cfg l1) = Ok a1
    /\ Np.rows a1 = map output l1
    /\ (forall j, j < 99 ->
          Np.item (Np.sum0 a1) j
          = fold_left score_add (map (fun f => Np.item (output f) j) l1) Np.zero)
    /\ (l1 <> [] ->
        exists earlier,
          events (vote_loop fs cfg l1) = earlier ++ ranking labels (Np.sum0 a1))
    /\ ((forall x y : score, score_add x y = score_add y x) ->
        (forall x y z : score,
           score_add x (score_add y z) = score_add (score_add x y) z) ->
        forall l2, Permutation l1 l2 ->
          exists a2,
            outcome (vote_loop fs cfg l2) = Ok a2
            /\ Np.rows a2 = map output l2
            /\ Np.sum0 a1 = Np.sum0 a2
            /\ (l1 <> [] ->
                exists earlier2,
                  events (vote_loop fs cfg l2)
                  = earlier2 ++ ranking labels (Np.sum0 a1))).
Proof.
  intros Hall1.
  assert (Hempty : rectangular (Np.empty2 (score := score) 99)) by constructor.
  destruct (@vote_loop_from l1 (Np.empty2 99) Hall1 eq_refl Hempty) as [evs1 [Hrun1 Hlast1]].
  cbn [Np.rows Np.empty2 app] in *.
  set (a1 := {| Np.ncols := 99; Np.rows := map output l1 |}) in *.
  exists a1. unfold vote_loop. rewrite Hrun1.
  split; [reflexivity|]. split; [reflexivity|]. split; [|split].
  - intros j Hj. rewrite sum0_item.
    + simpl. rewrite map_map. reflexivity.
    + unfold rectangular. simpl. apply Forall_forall. intros r Hr.
      apply in_map_iff in Hr as [f [<- Hf]]. apply Hall1. exact Hf.
    + exact Hj.
  - exact Hlast1.
  - intros add_comm add_assoc l2 Hperm.
    assert (Hall2 : forall f, In f l2 ->
              classify cfg f = Ok (output f) /\ List.length (output f) = 99).
    { intros f Hf. apply Hall1. apply (Permutation_in _ (Permutation_sym Hperm)).
      exact Hf. }
    destruct (@vote_loop_from l2 (Np.empty2 99) Hall2 eq_refl Hempty)
      as [evs2 [Hrun2 Hlast2]].
    cbn [Np.rows Np.empty2 app] in *.
    set (a2 := {| Np.ncols := 99; Np.rows := map output l2 |}) in *.
    assert (Hsum : Np.sum0 a1 = Np.sum0 a2).
    { unfold Np.sum0. simpl. apply fold_add_rows_perm; try assumption.
      apply Permutation_map. exact Hperm. }
    exists a2. rewrite Hrun2.
    split; [reflexivity|]. split; [reflexivity|]. split; [exact Hsum|].
    intros Hne.
    assert (Hne2 : l2 <> []).
    { intros ->. apply Permutation_sym, Permutation_nil in Hperm. exact (Hne Hperm). }
    destruct (Hlast2 Hne2) as [e2 He2].
    exists e2. simpl. rewrite Hsum. exact He2.
Qed.
End VoteSum.

(** C4 as stated fails in the arithmetic of the script: [np.sum] adds
    [float64] numbers, whose addition is not associative.  With three images
    whose scores are 1, 2^-53 and 2^-53, voting over them in this order sums
    every class to 1, and voting over the same files with the first one last
    sums every class to 1 + 2^-52. *)
Lemma vote_sum_depends_on_order :
  Permutation [file_a; file_bcd; file_bcde] [file_bcd; file_bcde; file_a]
  /\ exists a1 a2,
       outcome (vote_loop (H1 := float64_tensorflow one_against_many) two_votes
                          vote_config [file_a; file_bcd; file_bcde]) = Ok a1
       /\ outcome (vote_loop (H1 := float64_tensorflow one_against_many) two_votes
                             vote_config [file_bcd; file_bcde; file_a]) = Ok a2
       /\ Np.rows a1 = [repeat (float64_of 1 0) 99; repeat (float64_of 1 (-53)) 99;
                        repeat (float64_of 1 (-53)) 99]
       /\ Np.rows a2 = [repeat (float64_of 1 (-53)) 99; repeat (float64_of 1 (-53)) 99;
                        repeat (float64_of 1 0) 99]
       /\ Np.sum0 a1 = repeat (float64_of 1 0) 99
       /\ Np.sum0 a2 = repeat (float64_of (2 ^ 52 + 1) (-52)) 99
       /\ Np.sum0 a1 <> Np.sum0 a2.
Proof.
  split.
  - apply (Permutation_cons_app [file_bcd; file_bcde] [] file_a).
    rewrite app_nil_r. reflexivity.
  - eexists. eexists.
    split; [vm_compute; reflexivity|]. split; [vm_compute; reflexivity|].
    split; [vm_compute; reflexivity|]. split; [vm_compute; reflexivity|].
    split; [vm_compute; reflexivity|]. split; [vm_compute; reflexivity|].
    vm_compute. discriminate.
Qed.

(** ** C1: top-K accuracy with all classes *)

Lemma hits_perm (value : nat -> Z) (truth : Z) (top top' : list nat) :
  Permutation top top' -> hits value truth top = hits value truth top'.
Proof.
  unfold hits. induction 1; simpl; try congruence.
  - destruct (value x =? truth)%Z; simpl; congruence.
  - destruct (value x =? truth)%Z, (value y =? truth)%Z; reflexivity.
Qed.

Lemma hits_count_occ (value : nat -> Z) (truth : Z) (top : list nat) :
  hits value truth top = count_occ Z.eq_dec (map value top) truth.
Proof.
  unfold hits. induction top as [|j top IH]; simpl; [reflexivity|].
  destruct (Z.eq_dec (value j) truth) as [E|E].
  - apply Z.eqb_eq in E. rewrite E. simpl. congruence.
  - apply Z.eqb_neq in E. rewrite E. exact IH.
Qed.

(** When 99 values cover the 99 classes, each class is the value of exactly
    one position. *)
Lemma one_hit_per_class (value : nat -> Z) (truth : Z) :
  (forall c, c < 99 -> exists j, j < 99 /\ value j = Z.of_nat c) ->
  (0 <= truth < 99)%Z ->
  hits value truth (seq 0 99) = 1.
Proof.
  intros Hcover Htruth. rewrite hits_count_occ.
  assert (Hincl : incl (map Z.of_nat (seq 0 99)) (map value (seq 0 99))).
  { intros z Hz. apply in_map_iff in Hz as [c [<- Hc]]. apply in_seq in Hc.
    destruct (Hcover c) as [j [Hj Hv]]; [lia|].
    apply in_map_iff. exists j. split; [exact Hv | apply in_seq; lia]. }
  assert (Hnodup : NoDup (map value (seq 0 99))).
  { apply NoDup_incl_NoDup with (l := map Z.of_nat (seq 0 99)).
    - apply Finite.Injective_map_NoDup; [|apply seq_NoDup].
      intros x y Hxy. lia.
    - rewrite !length_map. lia.
    - exact Hincl. }
  apply NoDup_count_occ'; [exact Hnodup|].
  apply Hincl. apply in_map_iff. exists (Z.to_nat truth).
  split; [lia | apply in_seq; lia].
Qed.

Section Accuracy.
Context {score : Type} `{ArgSort score} `{TensorFlow score}.
Variable fs : Gfile.filesystem.
Variable cfg : config.
Variable labels : list string.
Variable value : nat -> Z.
Hypothesis labels_loaded : load_labels fs (label_file cfg) = Ok labels.
Hypothesis labels_are_integers :
  forall j, j < 99 ->
    exists label, nth_error labels j = Some label /\ Py.int label = Some (value j).

Lemma count_hits_ok (truth : Z) (top : list nat) (prediction : nat) :
  (forall j, In j top -> j < 99) ->
  count_hits score labels truth top prediction = ret (prediction + hits value truth top).
Proof.
  unfold count_hits, hits. revert prediction.
  induction top as [|j top IH]; intros prediction Hlt.
  - simpl. rewrite Nat.add_0_r. reflexivity.
  - cbn [for_each].
    destruct (labels_are_integers (Hlt j (in_eq _ _))) as [label [Hl Hv]].
    rewrite Hl, Hv, bind_ret_l.
    rewrite IH by (intros i Hi; apply Hlt; right; exact Hi).
    cbn [filter]. destruct (value j =? truth)%Z; simpl; f_equal; lia.
Qed.

Lemma count_pairs_ok (k : nat) (pairs : list (list score * Z)) (prediction : nat) :
  0 < k <= 99 ->
  Forall (fun pair => List.length (fst pair) = 99) pairs ->
  for_each
    (fun prediction (pair : list score * Z) =>
       let (results, truth) := pair in
       count_hits score labels truth (top_k_indices k results) prediction)
    pairs prediction
  = ret (prediction
         + list_sum (map (fun pair : list score * Z =>
                            hits value (snd pair) (top_k_indices k (fst pair)))
                         pairs)).
Proof.
  intros Hk. revert prediction.
  induction pairs as [|[results truth] pairs IH]; intros prediction Hall.
  - simpl. rewrite Nat.add_0_r. reflexivity.
  - inversion Hall as [|? ? Hlen Hrest]; subst. simpl in Hlen.
    cbn [for_each]. rewrite count_hits_ok.
    + rewrite bind_ret_l, IH by exact Hrest. simpl. f_equal. lia.
    + intros j Hj.
      destruct (@top_k_indices_spec score _ _ k results) as [_ [_ [Hlt _]]];
        [lia | lia |].
      apply Hlt in Hj. lia.
Qed.

Lemma combine_rows_width (st : collected score) :
  collected_ok st ->
  Forall (fun pair : list score * Z => List.length (fst pair) = 99)
         (combine (Np.rows (final_results st)) (ground_truth st)).
Proof.
  intros [Hcols [Hrect _]]. apply Forall_forall. intros [r t] Hin.
  apply in_combine_l in Hin. unfold rectangular in Hrect.
  rewrite Forall_forall in Hrect. simpl. rewrite <- Hcols. auto.
Qed.

Lemma count_predictions_ok (k : nat) (st : collected score) :
  0 < k <= 99 -> collected_ok st ->
  count_predictions labels k st = ret (predicted value k st).
Proof.
  intros Hk Hok. unfold count_predictions, predicted.
  rewrite count_pairs_ok; [reflexivity | exact Hk |].
  apply combine_rows_width. exact Hok.
Qed.

Lemma top_k_accuracy_ok (st : collected score) (k : nat) :
  0 < k <= 99 -> collected_ok st -> 0 < evaluated_images st ->
  top_k_accuracy fs cfg st tt k = (accuracy_report value st k, Ok tt).
Proof.
  intros Hk Hok Hpos. unfold top_k_accuracy, accuracy_report.
  rewrite labels_loaded, bind_lift_ok, count_predictions_ok by assumption.
  rewrite bind_ret_l. unfold true_div.
  destruct (evaluated_images st) as [|n] eqn:E; [lia|].
  rewrite bind_lift_ok. reflexivity.
Qed.

Lemma accuracy_loop_ok (st : collected score) (ks : list nat) :
  (forall k, In k ks -> 0 < k <= 99) -> collected_ok st -> 0 < evaluated_images st ->
  for_each (top_k_accuracy fs cfg st) ks tt
  = (flat_map (accuracy_report value st) ks, Ok tt).
Proof.
  intros Hks Hok Hpos. induction ks as [|k ks IH]; [reflexivity|].
  cbn [for_each flat_map].
  rewrite top_k_accuracy_ok; [|apply Hks; left; reflexivity | assumption | assumption].
  cbn [bind]. rewrite IH by (intros j Hj; apply Hks; right; exact Hj).
  reflexivity.
Qed.

(** With all 99 positions taken, every image counts once. *)
Lemma all_pairs_hit (pairs : list (list score * Z)) :
  (forall c, c < 99 -> exists j, j < 99 /\ value j = Z.of_nat c) ->
  Forall (fun pair : list score * Z => List.length (fst pair) = 99) pairs ->
  Forall (fun pair : list score * Z => (0 <= snd pair < 99)%Z) pairs ->
  list_sum (map (fun pair : list score * Z =>
                   hits value (snd pair) (top_k_indices 99 (fst pair)))
                pairs)
  = List.length pairs.
Proof.
  intros Hcover. induction pairs as [|[r t] pairs IH]; intros Hwidth Htruth;
    [reflexivity|].
  inversion Hwidth as [|? ? Hr Hrest]; inversion Htruth as [|? ? Ht Htrest]; subst.
  simpl in Hr, Ht. cbn [map List.length fst snd].
  match goal with
  | |- list_sum (?a :: ?b) = _ => change (list_sum (a :: b)) with (a + list_sum b)
  end.
  rewrite IH by assumption.
  change (S (List.length pairs)) with (1 + List.length pairs). f_equal.
  cbv beta. cbn [fst snd].
  assert (Hperm : Permutation (top_k_indices 99 r) (seq 0 99)).
  { rewrite <- Hr. apply top_k_indices_all. lia. }
  rewrite (hits_perm value t Hperm).
  apply one_hit_per_class; assumption.
Qed.

Lemma predicted_all (st : collected score) :
  (forall c, c < 99 -> exists j, j < 99 /\ value j = Z.of_nat c) ->
  collected_ok st ->
  predicted value 99 st = evaluated_images st.
Proof.
  intros Hcover Hok. unfold predicted.
  rewrite all_pairs_hit; try assumption.
  - destruct Hok as [_ [_ [Hrows [Htruths _]]]].
    rewrite length_combine, Hrows, Htruths. apply Nat.min_id.
  - apply combine_rows_width. exact Hok.
  - destruct Hok as [_ [_ [_ [_ Hrange]]]].
    apply Forall_forall. intros [r t] Hin. apply in_combine_r in Hin.
    rewrite Forall_forall in Hrange. apply Hrange. exact Hin.
Qed.
End Accuracy.

Section CollectionSucceeds.
Context {score : Type} `{ArgSort score} `{TensorFlow score}.
Variable fs : Gfile.filesystem.
Variable cfg : config.
Hypothesis model_has_99_classes :
  forall f, listed fs cfg f ->
    exists row, classify cfg f = Ok row /\ List.length row = 99.

Lemma collect_start_ok : collected_ok (collect_start score).
Proof. repeat split; constructor. Qed.

Lemma collect_files_ok (truth : nat) (files : list string) (st : collected score) :
  truth < 99 -> (forall f, In f files -> listed fs cfg f) -> collected_ok st ->
  exists st',
    for_each (collect_file cfg truth) files st = ([], Ok st')
    /\ collected_ok st'
    /\ evaluated_images st' = evaluated_images st + List.length files.
Proof.
  intros Htruth. revert st. induction files as [|f files IH]; intros st Hlisted Hok.
  - exists st. simpl. rewrite Nat.add_0_r. auto.
  - destruct (model_has_99_classes (Hlisted f (in_eq _ _))) as [row [Hrow Hlen]].
    destruct Hok as [Hcols [Hrect [Hrows [Htruths Hrange]]]].
    set (st1 := {| file_list := file_list st;
                   evaluated_images := evaluated_images st + 1;
                   final_results := {| Np.ncols := 99;
                                       Np.rows := Np.rows (final_results st) ++ [row] |};
                   ground_truth := ground_truth st ++ [Z.of_nat truth] |}).
    assert (Hstep : collect_file cfg truth st f = ([], Ok st1)).
    { unfold collect_file. rewrite Hrow, bind_lift_ok.
      unfold Np.append. rewrite Hlen, Hcols. reflexivity. }
    assert (Hok1 : collected_ok st1).
    { unfold collected_ok, rectangular in *. subst st1. simpl. repeat split.
      - rewrite Hcols in Hrect.
        apply Forall_app. split; [exact Hrect|]. repeat constructor. exact Hlen.
      - rewrite length_app. simpl. lia.
      - rewrite length_app. simpl. lia.
      - apply Forall_app. split; [exact Hrange|]. repeat constructor; lia. }
    destruct (IH st1 (fun g Hg => Hlisted g (in_cons _ _ _ Hg)) Hok1)
      as [st' [Hloop [Hok' Hcount]]].
    exists st'. cbn [for_each]. rewrite Hstep. cbn [bind]. rewrite Hloop.
    split; [reflexivity|]. split; [exact Hok'|].
    rewrite Hcount. subst st1. simpl. lia.
Qed.

Let files_of (i : nat) : list string := extend_file_list fs (numbered_folder cfg i) [].

Lemma collect_folder_ok (st : collected score) (i : nat) :
  i < 99 -> collected_ok st -> file_list st = [] ->
  exists st',
    outcome (collect_folder fs cfg st i) = Ok st'
    /\ collected_ok st' /\ file_list st' = []
    /\ evaluated_images st' = evaluated_images st + List.length (files_of i).
Proof.
  intros Hi Hok Hst. unfold collect_folder. rewrite Hst. fold (files_of i).
  set (st0 := {| file_list := files_of i; evaluated_images := evaluated_images st;
                 final_results := final_results st; ground_truth := ground_truth st |}).
  assert (Hok0 : collected_ok st0) by exact Hok.
  destruct (collect_files_ok (files_of i) Hi (fun f Hf => ex_intro _ i (conj Hi Hf)) Hok0)
    as [st1 [Hloop [Hok1 Hcount]]].
  rewrite Hloop.
  exists {| file_list := []; evaluated_images := evaluated_images st1;
            final_results := final_results st1; ground_truth := ground_truth st1 |}.
  split; [|split; [exact Hok1 | split; [reflexivity | exact Hcount]]].
  unfold check_directory.
  destruct (Gfile.Exists fs (numbered_folder cfg i)); reflexivity.
Qed.

Lemma collect_loop_ok (l : list nat) (st : collected score) :
  (forall i, In i l -> i < 99) -> collected_ok st -> file_list st = [] ->
  exists st',
    outcome (for_each (collect_folder fs cfg) l st) = Ok st'
    /\ collected_ok st'
    /\ evaluated_images st'
       = evaluated_images st + list_sum (map (fun i => List.length (files_of i)) l).
Proof.
  revert st. induction l as [|i l IH]; intros st Hl Hok Hst.
  - exists st. simpl. rewrite Nat.add_0_r. auto.
  - destruct (collect_folder_ok (Hl i (in_eq _ _)) Hok Hst)
      as [st1 [Hstep [Hok1 [Hst1 Hcount1]]]].
    destruct (IH st1 (fun j Hj => Hl j (in_cons _ _ _ Hj)) Hok1 Hst1)
      as [st' [Hloop [Hok' Hcount']]].
    exists st'. split; [|split; [exact Hok'|]].
    + cbn [for_each].
      destruct (collect_folder fs cfg st i) as [evs r]. simpl in Hstep. subst r.
      cbn [bind].
      destruct (for_each (collect_folder fs cfg) l st1) as [evs' r'].
      exact Hloop.
    + rewrite Hcount', Hcount1. simpl. lia.
Qed.

(** The first loop completes; it has evaluated an image as soon as one of
    the numbered folders lists a file. *)
Lemma top_k_collect_ok :
  exists st,
    outcome (top_k_collect fs cfg) = Ok st /\ collected_ok st
    /\ ((exists i, i < 99 /\ files_of i <> []) -> 0 < evaluated_images st).
Proof.
  destruct (@collect_loop_ok (seq 0 99) (collect_start score))
    as [st [Hrun [Hok Hcount]]];
    [intros i Hi; apply in_seq in Hi; lia | apply collect_start_ok | reflexivity |].
  exists st. split; [exact Hrun | split; [exact Hok|]].
  intros [i [Hi Hfiles]]. rewrite Hcount. simpl evaluated_images.
  assert (Hin : In (List.length (files_of i))
                   (map (fun i => List.length (files_of i)) (seq 0 99))).
  { apply in_map_iff. exists i. split; [reflexivity | apply in_seq; lia]. }
  assert (Hle : forall n l, In n l -> n <= list_sum l).
  { intros n l. induction l as [|m l IH]; simpl; [contradiction|].
    intros [-> | Hn]; [lia | specialize (IH Hn); lia]. }
  apply Hle in Hin.
  assert (Hlen : 0 < List.length (files_of i))
    by (destruct (files_of i); [congruence | simpl; lia]).
  lia.
Qed.
End CollectionSucceeds.

(** Positions for a list of classes, one each. *)
Lemma positions_of_classes (labels : list string) (cs : list nat) :
  (forall c, In c cs -> exists j, class_at labels c j) ->
  exists js, Forall2 (class_at labels) cs js.
Proof.
  induction cs as [|c cs IH]; intros Hall.
  - exists []. constructor.
  - destruct (Hall c (in_eq _ _)) as [j Hj].
    destruct IH as [js Hjs]; [intros d Hd; apply Hall; right; exact Hd|].
    exists (j :: js). constructor; assumption.
Qed.

Lemma positions_have_classes (labels : list string) (cs js : list nat) (j : nat) :
  Forall2 (class_at labels) cs js -> In j js -> exists c, In c cs /\ class_at labels c j.
Proof.
  induction 1 as [|c i cs js Hc Hrest IH]; intros Hin; [destruct Hin|].
  destruct Hin as [-> | Hin].
  - exists c. split; [left; reflexivity | exact Hc].
  - destruct (IH Hin) as [d [Hd Hdj]]. exists d. split; [right; exact Hd | exact Hdj].
Qed.

Lemma positions_distinct (labels : list string) (cs js : list nat) :
  Forall2 (class_at labels) cs js -> NoDup cs -> NoDup js.
Proof.
  induction 1 as [|c j cs js Hc Hrest IH]; intros Hnd; [constructor|].
  inversion Hnd as [|? ? Hnotin Hnd']; subst. constructor; [|auto].
  intros Hin. apply Hnotin.
  destruct (positions_have_classes j Hrest Hin) as [d [Hd [_ [_ Hdj]]]].
  destruct Hc as [_ [_ Hcj]]. rewrite Hcj in Hdj. injection Hdj as Hdj.
  assert (c = d) by lia. subst d. exact Hd.
Qed.

(** When the 99 classes are the values of labels among the first 99, each of
    the first 99 labels is the label of a class. *)
Lemma covering_labels_are_integers (labels : list string) :
  (forall c, c < 99 -> exists j, class_at labels c j) ->
  forall j, j < 99 -> exists c, class_at labels c j.
Proof.
  intros Hcover j Hj.
  destruct (@positions_of_classes labels (seq 0 99)) as [js Hjs].
  { intros c Hc. apply Hcover. apply in_seq in Hc. lia. }
  pose proof (positions_distinct Hjs (seq_NoDup 99 0)) as Hnd.
  pose proof (Forall2_length Hjs) as Hlen. rewrite length_seq in Hlen.
  assert (Hincl : incl js (seq 0 99)).
  { intros i Hi. destruct (positions_have_classes i Hjs Hi) as [c [_ [_ [Hlt _]]]].
    apply in_seq. lia. }
  assert (Hall : incl (seq 0 99) js).
  { apply NoDup_length_incl; [exact Hnd | rewrite length_seq; lia | exact Hincl]. }
  assert (Hin : In j js) by (apply Hall; apply in_seq; lia).
  destruct (positions_have_classes j Hjs Hin) as [c [_ Hc]]. exists c. exact Hc.
Qed.

Section TopKAccuracy.
Context {score : Type} `{ArgSort score} `{TensorFlow score}.

End TopKAccuracy.


(** ** C3: the image preprocessor *)

Lemma append_length (a b : string) :
  String.length (a +s+ b) = String.length a + String.length b.
Proof. induction a; simpl; congruence. Qed.

Lemma append_same_length (p q a b : string) :
  p +s+ a = q +s+ b -> String.length a = String.length b -> a = b.
Proof.
  revert q. induction p as [|c p IH]; intros [|d q] Heq Hlen; simpl in Heq.
  - exact Heq.
  - exfalso. apply (f_equal String.length) in Heq. simpl in Heq.
    rewrite append_length in Heq. lia.
  - exfalso. apply (f_equal String.length) in Heq. simpl in Heq.
    rewrite append_length in Heq. lia.
  - injection Heq as _ Heq. eauto.
Qed.

(** The reader is chosen by the suffix of the file name, and by nothing else. *)
Lemma select_decoder_by_suffix (file_name : string) :
  (select_decoder file_name = PNG <-> exists p, file_name = p +s+ ".png")
  /\ (select_decoder file_name = GIF <-> exists p, file_name = p +s+ ".gif")
  /\ (select_decoder file_name = BMP <-> exists p, file_name = p +s+ ".bmp")
  /\ (select_decoder file_name = JPEG <->
      forall p, file_name <> p +s+ ".png" /\ file_name <> p +s+ ".gif"
                /\ file_name <> p +s+ ".bmp").
Proof.
  unfold select_decoder.
  destruct (Py.endswith file_name ".png") eqn:Epng.
  { apply endswith_iff in Epng as [p Hp].
    repeat split; try discriminate; eauto.
    - intros [q Hq]. exfalso.
      assert (".png" = ".gif") by (apply (append_same_length p q); [congruence | reflexivity]).
      discriminate.
    - intros [q Hq]. exfalso.
      assert (".png" = ".bmp") by (apply (append_same_length p q); [congruence | reflexivity]).
      discriminate.
    - intros Hno. destruct (Hno p) as [Hn _]. contradiction. }
  destruct (Py.endswith file_name ".gif") eqn:Egif.
  { pose proof (proj1 (endswith_false _ _) Epng) as Hpng; clear Epng; rename Hpng into Epng. apply endswith_iff in Egif as [p Hp].
    repeat split; try discriminate; eauto.
    - intros [q Hq]. exfalso. exact (Epng q Hq).
    - intros [q Hq]. exfalso.
      assert (".gif" = ".bmp") by (apply (append_same_length p q); [congruence | reflexivity]).
      discriminate.
    - intros Hno. destruct (Hno p) as [_ [Hn _]]. contradiction. }
  destruct (Py.endswith file_name ".bmp") eqn:Ebmp.
  { pose proof (proj1 (endswith_false _ _) Epng) as Hpng; clear Epng; rename Hpng into Epng. pose proof (proj1 (endswith_false _ _) Egif) as Hgif; clear Egif; rename Hgif into Egif.
    apply endswith_iff in Ebmp as [p Hp].
    repeat split; try discriminate; eauto.
    - intros [q Hq]. exfalso. exact (Epng q Hq).
    - intros [q Hq]. exfalso. exact (Egif q Hq).
    - intros Hno. destruct (Hno p) as [_ [_ Hn]]. contradiction. }
  pose proof (proj1 (endswith_false _ _) Epng) as Hpng; clear Epng; rename Hpng into Epng. pose proof (proj1 (endswith_false _ _) Egif) as Hgif; clear Egif; rename Hgif into Egif.
  pose proof (proj1 (endswith_false _ _) Ebmp) as Hbmp; clear Ebmp; rename Hbmp into Ebmp.
  repeat split; try discriminate; auto.
  - intros [q Hq]. exfalso. exact (Epng q Hq).
  - intros [q Hq]. exfalso. exact (Egif q Hq).
  - intros [q Hq]. exfalso. exact (Ebmp q Hq).
Qed.

(** After [tf.squeeze], what is left of the frames of a GIF still ends with
    its three channels. *)
Lemma squeeze_gif_channels (n h w a b c : Z) :
  filter (fun d => negb (d =? 1)%Z) [n; h; w; 3%Z] = [a; b; c] -> c = 3%Z.
Proof.
  simpl. destruct (n =? 1)%Z, (h =? 1)%Z, (w =? 1)%Z; simpl; congruence.
Qed.

Section Preprocessor.
Context {score : Type} `{Scalar score} `{TensorFlow score}.

(** What the ops promise of the shapes of their results.  PNG and JPEG
    images are decoded with [channels=3].  The GIF decoder yields the
    frames, three channels each.  Resizing takes a batch of images to the
    size asked for.  Nothing is promised of the BMP decoder: it is called
    without [channels] and keeps the channels of the file. *)
Hypothesis decode_png_shape : forall contents t,
  decode_png contents 3 = Ok t -> exists h w, shape t = [h; w; 3%Z].
Hypothesis decode_jpeg_shape : forall contents t,
  decode_jpeg contents 3 = Ok t -> exists h w, shape t = [h; w; 3%Z].
Hypothesis decode_gif_shape : forall contents t,
  decode_gif contents = Ok t -> exists n h w, shape t = [n; h; w; 3%Z].
Hypothesis resize_bilinear_shape : forall t height width r,
  resize_bilinear t height width = Ok r ->
  exists b h w c, shape t = [b; h; w; c] /\ shape r = [b; height; width; c].

Lemma preprocessor_returns (file_name : string)
    (input_height input_width input_mean input_std : Z) (t : tensor score) :
  read_tensor_from_image_file file_name input_height input_width input_mean input_std
  = Ok t ->
  exists contents image resized channels,
    read_file file_name = Ok contents
    /\ match select_decoder file_name with
       | PNG => decode_png contents 3 = Ok image
       | GIF => exists frames, decode_gif contents = Ok frames
                                /\ image = Tf.squeeze frames
       | BMP => decode_bmp contents = Ok image
       | JPEG => decode_jpeg contents 3 = Ok image
       end
    /\ resize_bilinear (Tf.expand_dims (Tf.cast image)) input_height input_width
       = Ok resized
    /\ shape resized = [1%Z; input_height; input_width; channels]
    /\ shape t = [1%Z; input_height; input_width; channels]
    /\ data t = map (fun x => score_div (score_sub x (score_of_Z input_mean))
                                        (score_of_Z input_std))
                    (data resized)
    /\ (select_decoder file_name <> BMP -> channels = 3%Z).
Proof.
  unfold read_tensor_from_image_file. intros Hrun.
  destruct (read_file file_name) as [contents|e] eqn:Eread; [|discriminate].
  destruct (image_reader file_name contents) as [image|e] eqn:Eimage; [|discriminate].
  destruct (resize_bilinear (Tf.expand_dims (Tf.cast image)) input_height input_width)
    as [resized|e] eqn:Eresize; [|discriminate].
  injection Hrun as <-.
  destruct (resize_bilinear_shape _ _ _ Eresize) as [b [h [w [c [Hin Hout]]]]].
  simpl in Hin.
  assert (Hb : b = 1%Z) by congruence. subst b.
  exists contents, image, resized, c.
  split; [reflexivity|].
  split; [|split; [exact Eresize|split; [exact Hout|split; [exact Hout|split]]]].
  - unfold image_reader in Eimage. destruct (select_decoder file_name); try exact Eimage.
    destruct (decode_gif contents) as [frames|e]; [|discriminate].
    injection Eimage as <-. eauto.
  - simpl. rewrite map_map. reflexivity.
  - unfold image_reader in Eimage. intros Hsel.
    destruct (select_decoder file_name); try congruence.
    + destruct (decode_png_shape _ Eimage) as [h' [w' Hs]]. congruence.
    + destruct (decode_gif contents) as [frames|e] eqn:Egif; [|discriminate].
      injection Eimage as <-.
      destruct (decode_gif_shape _ Egif) as [n' [h' [w' Hs]]].
      simpl in Hin. rewrite Hs in Hin. injection Hin as Hin.
      eapply squeeze_gif_channels. exact Hin.
    + destruct (decode_jpeg_shape _ Eimage) as [h' [w' Hs]]. congruence.
Qed.

(** The image the decoder of [file_name] yields for [contents]. *)
Let decoded (file_name contents : string) (image : tensor Z) : Prop :=
  match select_decoder file_name with
  | PNG => decode_png contents 3 = Ok image
  | GIF => exists frames, decode_gif contents = Ok frames /\ image = Tf.squeeze frames
  | BMP => decode_bmp contents = Ok image
  | JPEG => decode_jpeg contents 3 = Ok image
  end.

Lemma preprocessor_succeeds (file_name : string)
    (input_height input_width input_mean input_std : Z)
    (contents : string) (image : tensor Z) (resized : tensor score) :
  read_file file_name = Ok contents ->
  decoded file_name contents image ->
  resize_bilinear (Tf.expand_dims (Tf.cast image)) input_height input_width
  = Ok resized ->
  read_tensor_from_image_file file_name input_height input_width input_mean input_std
  = Ok (Tf.divide (Tf.subtract resized input_mean) input_std).
Proof.
  intros Hread Himage Hresize. unfold read_tensor_from_image_file. rewrite Hread.
  assert (Hreader : image_reader file_name contents = Ok image).
  { unfold image_reader, decoded in *.
    destruct (select_decoder file_name); try exact Himage.
    destruct Himage as [frames [Hgif ->]]. rewrite Hgif. reflexivity. }
  rewrite Hreader, Hresize. reflexivity.
Qed.

(** C3 (amended).  For every input file name, the preprocessor selects the
    decoder purely by the suffix of the name ([.png], [.gif], [.bmp],
    anything else JPEG), resizes bilinearly to the target height and width,
    and, when reading, decoding and resizing succeed, returns a
    4-dimensional tensor of shape [(1, height, width, channels)] whose every
    element is [(resized pixel - input_mean) / input_std]; [channels] is 3
    for the files read by the PNG, GIF and JPEG decoders.  It returns a
    tensor in that case only. *)
Theorem preprocessor_shape_and_values (file_name : string)
    (input_height input_width input_mean input_std : Z) :
  ((select_decoder file_name = PNG <-> exists p, file_name = p +s+ ".png")
   /\ (select_decoder file_name = GIF <-> exists p, file_name = p +s+ ".gif")
   /\ (select_decoder file_name = BMP <-> exists p, file_name = p +s+ ".bmp")
   /\ (select_decoder file_name = JPEG <->
       forall p, file_name <> p +s+ ".png" /\ file_name <> p +s+ ".gif"
                 /\ file_name <> p +s+ ".bmp"))
  /\ (forall contents image resized,
        read_file file_name = Ok contents ->
        match select_decoder file_name with
        | PNG => decode_png contents 3 = Ok image
        | GIF => exists frames, decode_gif contents = Ok frames
                                 /\ image = Tf.squeeze frames
        | BMP => decode_bmp contents = Ok image
        | JPEG => decode_jpeg contents 3 = Ok image
        end ->
        resize_bilinear (Tf.expand_dims (Tf.cast image))
                        input_height input_width = Ok resized ->
        exists t channels,
          read_tensor_from_image_file file_name input_height input_width
                                      input_mean input_std = Ok t
          /\ shape t = [1%Z; input_height; input_width; channels]
          /\ data t = map (fun x => score_div (score_sub x (score_of_Z input_mean))
                                              (score_of_Z input_std))
                          (data resized)
          /\ (select_decoder file_name <> BMP -> channels = 3%Z))
  /\ (forall t,
        read_tensor_from_image_file file_name input_height input_width
                                    input_mean input_std = Ok t ->
        exists contents image resized,
          read_file file_name = Ok contents
          /\ match select_decoder file_name with
             | PNG => decode_png contents 3 = Ok image
             | GIF => exists frames, decode_gif contents = Ok frames
                                      /\ image = Tf.squeeze frames
             | BMP => decode_bmp contents = Ok image
             | JPEG => decode_jpeg contents 3 = Ok image
             end
          /\ resize_bilinear (Tf.expand_dims (Tf.cast image))
                             input_height input_width = Ok resized).
Proof.
  split; [apply select_decoder_by_suffix|]. split.
  - intros contents image resized Hread Himage Hresize.
    assert (Hrun : read_tensor_from_image_file file_name input_height input_width
                                               input_mean input_std
                   = Ok (Tf.divide (Tf.subtract resized input_mean) input_std))
      by (eapply preprocessor_succeeds; eassumption).
    destruct (preprocessor_returns _ _ _ _ _ Hrun)
      as [contents' [image' [resized' [channels [Hread' [_ [Hresize' [_ [Ht [_ Hch]]]]]]]]]].
    exists (Tf.divide (Tf.subtract resized input_mean) input_std), channels.
    split; [exact Hrun|]. split; [exact Ht|]. split; [|exact Hch].
    simpl. rewrite map_map. reflexivity.
  - intros t Hrun.
    destruct (preprocessor_returns _ _ _ _ _ Hrun)
      as [contents [image [resized [channels [Hread [Himage [Hresize _]]]]]]].
    exists contents, image, resized. auto.
Qed.
End Preprocessor.

(** C3 as stated fails.  The bitmap reader is called without [channels=3]:
    for a 32-bit BMP file it keeps the four channels, and the tensor returned
    is of shape [(1, 299, 299, 4)], not [(1, 299, 299, 3)].  And a tensor is
    not returned for every file: the frames of an animated GIF stay
    4-dimensional after [tf.squeeze], and the resize op rejects the
    5-dimensional batch. *)
Lemma bmp_keeps_its_channels :
  (exists t,
     read_tensor_from_image_file (H0 := toy_tensorflow constant_output)
                                 "photo.bmp" 299 299 0 255 = Ok t
     /\ select_decoder "photo.bmp" = BMP
     /\ shape t = [1; 299; 299; 4]%Z
     /\ shape t <> [1; 299; 299; 3]%Z)
  /\ read_tensor_from_image_file (H0 := animated_tensorflow constant_output)
                                 "clip.gif" 299 299 0 255 = Raise OpError.
Proof.
  split; [|reflexivity].
  eexists. split; [reflexivity|]. split; [reflexivity|].
  split; [reflexivity | discriminate].
Qed.

(** ** C10: the overrides of the command line *)

Section Overrides.
Context {score : Type} `{ArgSort score} `{TensorFlow score}.

(** C10.  Every override is applied only when the parsed value is truthy:
    each configured variable is the option's value when that value is
    truthy and the hardcoded default otherwise.  So [0] given to
    [--input_height], [--input_width], [--input_mean] or [--input_std]
    leaves the default in effect, and any non-empty string, ["False"]
    included, given to the [bool]-typed [--vote] or [--top_k_graph] is
    parsed as true and activates the mode: top-K evaluation for
    [--top_k_graph], voting for [--vote] (the top-K branch being tested
    first when both are given). *)
Theorem overrides_apply_when_truthy (fs : Gfile.filesystem) (a : Args.args) :
  (model_file (configure a)
     = (if Args.truthy_str (Args.graph a) then Args.str_value (Args.graph a)
        else model_file default_config)
   /\ label_file (configure a)
     = (if Args.truthy_str (Args.labels a) then Args.str_value (Args.labels a)
        else label_file default_config)
   /\ file_name (configure a)
     = (if Args.truthy_str (Args.image a)
        then if Args.truthy_bool (Args.vote a)
             then vote_folder +s+ "/" +s+ Args.str_value (Args.image a)
             else Args.str_value (Args.image a)
        else file_name default_config)
   /\ input_height (configure a)
     = (if Args.truthy_int (Args.input_height a)
        then Args.int_value (Args.input_height a) else 299%Z)
   /\ input_width (configure a)
     = (if Args.truthy_int (Args.input_width a)
        then Args.int_value (Args.input_width a) else 299%Z)
   /\ input_mean (configure a)
     = (if Args.truthy_int (Args.input_mean a)
        then Args.int_value (Args.input_mean a) else 0%Z)
   /\ input_std (configure a)
     = (if Args.truthy_int (Args.input_std a)
        then Args.int_value (Args.input_std a) else 255%Z)
   /\ input_layer (configure a)
     = (if Args.truthy_str (Args.input_layer a)
        then Args.str_value (Args.input_layer a) else input_layer default_config)
   /\ output_layer (configure a)
     = (if Args.truthy_str (Args.output_layer a)
        then Args.str_value (Args.output_layer a) else output_layer default_config)
   /\ folder_name (configure a)
     = (if Args.truthy_bool (Args.top_k_graph a) then top_k_folder
        else if Args.truthy_bool (Args.vote a) then vote_folder else ""))
  /\ (exists a1 a2 a3 a4,
        Args.parse_option a "--input_height" "0" = Ok a1
        /\ Args.input_height a1 = Some 0%Z /\ input_height (configure a1) = 299%Z
        /\ Args.parse_option a "--input_width" "0" = Ok a2
        /\ Args.input_width a2 = Some 0%Z /\ input_width (configure a2) = 299%Z
        /\ Args.parse_option a "--input_mean" "0" = Ok a3
        /\ Args.input_mean a3 = Some 0%Z /\ input_mean (configure a3) = 0%Z
        /\ Args.parse_option a "--input_std" "0" = Ok a4
        /\ Args.input_std a4 = Some 0%Z /\ input_std (configure a4) = 255%Z)
  /\ (forall c s,
        exists a',
          Args.parse_option a "--top_k_graph" (String c s) = Ok a'
          /\ Args.top_k_graph a' = Some true
          /\ folder_name (configure a') = top_k_folder
          /\ select_mode a' = TopKGraph
          /\ run fs (configure a') a'
             = top_k_mode fs (configure a') (Args.summaries_dir a'))
  /\ (forall c s,
        exists a',
          Args.parse_option a "--vote" (String c s) = Ok a'
          /\ Args.vote a' = Some true
          /\ Args.top_k_graph a' = Args.top_k_graph a
          /\ select_mode a'
             = (if Args.truthy_bool (Args.top_k_graph a) then TopKGraph else Vote)
          /\ (Args.truthy_bool (Args.top_k_graph a) = false ->
              folder_name (configure a') = vote_folder
              /\ run fs (configure a') a' = (vote_mode fs (configure a') ;;; ret tt)))
  /\ Py.bool_of_str "False" = true
  /\ Py.bool_of_str "" = false.
Proof.
  split; [|split; [|split; [|split; [|split]]]]; try reflexivity.
  - unfold configure. cbn [model_file label_file file_name input_height input_width
                           input_mean input_std input_layer output_layer folder_name
                           default_config].
    repeat split; try reflexivity.
    destruct (Args.truthy_bool (Args.vote a)); reflexivity.
  - do 4 eexists. repeat split.
  - intros c s. eexists. repeat split.
  - intros c s. eexists. split; [reflexivity|]. split; [reflexivity|].
    split; [reflexivity|]. split.
    + unfold select_mode. cbn [Args.top_k_graph Args.vote Args.truthy_bool].
      reflexivity.
    + intros Hno. unfold run, select_mode, configure.
      cbn [Args.top_k_graph Args.vote Args.truthy_bool folder_name].
      rewrite Hno. split; reflexivity.
Qed.
End Overrides.

(** * Instances

    The theorems above, applied to runs of the script on integer scores, the
    insertion [argsort] and the stand-in for TensorFlow. *)

Lemma toy_classifies (output : Z -> list Z) (cfg : config) (f : string) :
  exists z, classify (H1 := toy_tensorflow output) cfg f = Ok (output z).
Proof.
  unfold classify, read_tensor_from_image_file, image_reader. simpl.
  destruct (select_decoder f); simpl; eexists; reflexivity.
Qed.

Lemma listed_by_cases (fs : Gfile.filesystem) (cfg : config) (P : string -> bool) :
  forallb (fun i => forallb P (extend_file_list fs (numbered_folder cfg i) []))
          (seq 0 99) = true ->
  forall f, listed fs cfg f -> P f = true.
Proof.
  intros Hall f [i [Hi Hf]]. rewrite forallb_forall in Hall.
  specialize (Hall i). rewrite forallb_forall in Hall.
  apply Hall; [apply in_seq; lia | exact Hf].
Qed.

Lemma classifies_99_ok {score} `{Scalar score} `{TensorFlow score}
    (cfg : config) (f : string) :
  classifies_99 cfg f = true ->
  exists row, classify cfg f = Ok row /\ List.length row = 99.
Proof.
  unfold classifies_99. destruct (classify cfg f) as [row|e]; [|discriminate].
  intros Hlen. apply Nat.eqb_eq in Hlen. eauto.
Qed.

(** On the file system [two_folders], with only its files readable, every
    listed file is classified with 99 scores; a path that is not stored is
    not. *)
Lemma two_folders_classified :
  (forall f, listed two_folders top_k_config f ->
     exists row,
       classify (H1 := stored_tensorflow (Gfile.fs_paths two_folders) constant_output)
                top_k_config f = Ok row
       /\ List.length row = 99)
  /\ classify (H1 := stored_tensorflow (Gfile.fs_paths two_folders) constant_output)
              top_k_config "/mnt/storage/scratch/tc13007/mantas_test/3/missing.jpg"
     = Raise OpError.
Proof.
  split; [|reflexivity].
  intros f Hf.
  apply (classifies_99_ok
           (H0 := stored_tensorflow (Gfile.fs_paths two_folders) constant_output)).
  apply (listed_by_cases (fs := two_folders) (cfg := top_k_config)); [|exact Hf].
  vm_compute. reflexivity.
Qed.

Lemma load_labels_one_per_line_witness :
  exists lines,
    load_labels cr_labels (label_file default_config) = Ok (map Py.rstrip lines)
    /\ lines = cut_lines (without_cr cr_text)
    /\ String.concat "" lines = without_cr cr_text
    /\ Forall is_line lines
    /\ (forall i line,
          nth_error lines i = Some line -> S i < List.length lines ->
          Py.endswith line (String "010" "") = true)
    /\ forall line,
         In line lines ->
         (exists ws, line = Py.rstrip line +s+ ws /\ all_space ws = true)
         /\ (forall p c, Py.rstrip line = p +s+ String c "" -> Py.isspace c = false).
Proof.
  apply (load_labels_one_per_line cr_labels (label_file default_config)).
  reflexivity.
Defined.

Lemma vote_iterates_the_listed_extensions_witness :
  exists file_list,
    outcome (vote_file_list Z mixed_folder (configure (vote_args "set1"))) = Ok file_list
    /\ vote_mode (H1 := toy_tensorflow constant_output) mixed_folder
                 (configure (vote_args "set1"))
       = bind (vote_file_list Z mixed_folder (configure (vote_args "set1")))
              (vote_loop (H1 := toy_tensorflow constant_output) mixed_folder
                         (configure (vote_args "set1")))
    /\ forall f,
         In f file_list <->
         In f (Gfile.fs_paths mixed_folder)
         /\ exists name extension,
              In extension ["jpg"; "jpeg"; "JPG"; "JPEG"]
              /\ f = Gfile.dir_prefix (file_name (configure (vote_args "set1")))
                     +s+ name +s+ "." +s+ extension
              /\ no_char "/" name = true.
Proof.
  apply (vote_iterates_the_listed_extensions (H1 := toy_tensorflow constant_output)).
  - reflexivity.
  - discriminate.
Defined.

Lemma missing_directory_is_logged_and_skipped_witness :
  vote_mode (H1 := toy_tensorflow constant_output) one_image (configure (vote_args "set1"))
  = ([LogError "Image directory '/mnt/storage/scratch/tc13007/mantas_test_augmented/set1' not found."],
     Ok (Np.empty2 99))
  /\ top_k_collect (H1 := toy_tensorflow constant_output) one_image top_k_config
     = (st <- for_each (collect_folder (H1 := toy_tensorflow constant_output)
                                       one_image top_k_config)
                       (seq 0 7) (collect_start Z) ;;
        emit (LogError "Image directory '/mnt/storage/scratch/tc13007/mantas_test/7' not found.") ;;;
        for_each (collect_folder (H1 := toy_tensorflow constant_output)
                                 one_image top_k_config)
                 (seq 8 91) st).
Proof.
  split.
  - apply (proj2 (missing_directory_is_logged_and_skipped
                    (H1 := toy_tensorflow constant_output)
                    one_image (configure (vote_args "set1"))));
      [reflexivity | discriminate | reflexivity].
  - apply (proj1 (missing_directory_is_logged_and_skipped
                    (H1 := toy_tensorflow constant_output)
                    one_image top_k_config) eq_refl 7);
      [lia | reflexivity].
Defined.

Lemma no_image_divides_by_zero_witness :
  exists st,
    outcome (top_k_collect (H1 := toy_tensorflow constant_output) no_images top_k_config)
    = Ok st
    /\ evaluated_images st = 0
    /\ true_div 0 (evaluated_images st) = Raise ZeroDivisionError
    /\ outcome (top_k_mode (H1 := toy_tensorflow constant_output) no_images top_k_config
                           (Args.summaries_dir Args.defaults))
       = Raise ZeroDivisionError
    /\ forall accuracy k,
         ~ In (AddSummary accuracy k)
              (events (top_k_mode (H1 := toy_tensorflow constant_output) no_images
                                  top_k_config (Args.summaries_dir Args.defaults))).
Proof.
  eapply (no_image_divides_by_zero (H1 := toy_tensorflow constant_output)
                                   no_images top_k_config).
  - reflexivity.
  - reflexivity.
  - intros i Hi. reflexivity.
Defined.

Lemma other_width_raises_value_error_witness :
  Np.shape (Np.empty2 (score := Z) 99) = [0; 99]
  /\ (forall (a : Np.array2 Z) row,
        Np.ncols a = 99 ->
        ((exists a', Np.append a row = Ok a') <-> List.length row = 99)
        /\ (Np.append a row = Raise ValueError <-> List.length row <> 99))
  /\ outcome (top_k_mode (H1 := corrupt_tensorflow file_3b three_outputs) two_folders
                         top_k_config (Args.summaries_dir Args.defaults))
     = Raise ValueError
  /\ outcome (vote_mode (H1 := corrupt_tensorflow file_bcd three_outputs) two_votes
                        vote_config)
     = Raise ValueError.
Proof.
  destruct (@other_width_raises_value_error Z _ _
              (corrupt_tensorflow file_3b three_outputs)
              two_folders top_k_config (Args.summaries_dir Args.defaults)
              "/mnt/storage/home/tc13007/Manta_Inception/tensorflow/retrain_logs/inception_top_k")
    as [Hshape [Happend [Htop _]]].
  destruct (@other_width_raises_value_error Z _ _
              (corrupt_tensorflow file_bcd three_outputs)
              two_votes vote_config (Args.summaries_dir Args.defaults) "")
    as [_ [_ [_ Hvote]]].
  split; [exact Hshape|]. split; [exact Happend|]. split.
  - apply (Htop 3 file_3a [file_3b] [1; 2; 3]%Z).
    + vm_compute. reflexivity.
    + lia.
    + intros j Hj. destruct j as [|[|[|j]]]; [vm_compute; reflexivity .. | lia].
    + vm_compute. reflexivity.
    + vm_compute. reflexivity.
    + discriminate.
  - apply (Hvote file_a [file_bcd] [1; 2; 3]%Z).
    + vm_compute. reflexivity.
    + vm_compute. reflexivity.
    + discriminate.
Defined.

Lemma single_image_prints_the_ten_best_witness :
  exists top,
    single_image_mode (H1 := toy_tensorflow scaled_output) one_image
                      {| file_name := "grace_hopper.jpg"; folder_name := "";
                         model_file := model_file default_config;
                         label_file := label_file default_config;
                         input_height := 299; input_width := 299;
                         input_mean := 0; input_std := 1;
                         input_layer := "input";
                         output_layer := output_layer default_config |}
    = (map (fun i => PrintPair (nth i (map Py.rstrip (Gfile.readlines shifted_labels)) "")
                               (Np.item (scaled_output 16) i))
           top,
       Ok tt)
    /\ List.length top = 10
    /\ NoDup top
    /\ (forall i, In i top -> i < 99)
    /\ StronglySorted
         (fun i j => score_leb (Np.item (scaled_output 16) j)
                               (Np.item (scaled_output 16) i) = true) top
    /\ (forall j i, j < 99 -> ~ In j top -> In i top ->
                    score_leb (Np.item (scaled_output 16) j)
                              (Np.item (scaled_output 16) i) = true).
Proof.
  apply (single_image_prints_the_ten_best (H1 := toy_tensorflow scaled_output)).
  - reflexivity.
  - reflexivity.
  - reflexivity.
  - apply Nat.leb_le. reflexivity.
Defined.

Lemma vote_sum_is_order_independent_witness :
  exists a1 a2,
    outcome (vote_loop (H1 := toy_tensorflow scaled_output) two_votes vote_config
                       [file_a; file_bcd]) = Ok a1
    /\ outcome (vote_loop (H1 := toy_tensorflow scaled_output) two_votes vote_config
                          [file_bcd; file_a]) = Ok a2
    /\ Np.rows a1 = map vote_output [file_a; file_bcd]
    /\ Np.rows a2 = map vote_output [file_bcd; file_a]
    /\ (forall j, j < 99 ->
          Np.item (Np.sum0 a1) j
          = fold_left score_add (map (fun f => Np.item (vote_output f) j) [file_a; file_bcd])
                      Np.zero)
    /\ Np.sum0 a1 = Np.sum0 a2
    /\ (exists earlier1 earlier2,
          events (vote_loop (H1 := toy_tensorflow scaled_output) two_votes vote_config
                            [file_a; file_bcd])
          = earlier1 ++ ranking (map Py.rstrip (Gfile.readlines reversed_labels))
                                (Np.sum0 a1)
          /\ events (vote_loop (H1 := toy_tensorflow scaled_output) two_votes vote_config
                               [file_bcd; file_a])
             = earlier2 ++ ranking (map Py.rstrip (Gfile.readlines reversed_labels))
                                   (Np.sum0 a1)).
Proof.
  destruct (vote_sum_is_order_independent (H1 := toy_tensorflow scaled_output)
              two_votes vote_config vote_output
              (labels := map Py.rstrip (Gfile.readlines reversed_labels))
              eq_refl (proj1 (Nat.leb_le 99 99) eq_refl) [file_a; file_bcd])
    as [a1 [Hrun1 [Hrows1 [Hitem [Hlast1 Hperm]]]]].
  { intros f [<- | [<- | []]]; split; reflexivity. }
  destruct (Hperm Z.add_comm Z.add_assoc [file_bcd; file_a] (perm_swap _ _ _))
    as [a2 [Hrun2 [Hrows2 [Hsum Hlast2]]]].
  assert (Hne : [file_a; file_bcd] <> []) by discriminate.
  destruct (Hlast1 Hne) as [earlier1 He1]. destruct (Hlast2 Hne) as [earlier2 He2].
  exists a1, a2. repeat split; try assumption.
  exists earlier1, earlier2. split; assumption.
Defined.


Lemma toy_resize_shape {A} (t : tensor A) (height width : Z) (r : tensor A) :
  toy_resize t height width = Ok r ->
  exists b h w c, shape t = [b; h; w; c] /\ shape r = [b; height; width; c].
Proof.
  unfold toy_resize. destruct (shape t) as [|b [|h [|w [|c [|]]]]]; try discriminate.
  intros [= <-]. exists b, h, w, c. auto.
Qed.

Lemma preprocessor_shape_and_values_witness :
  exists t,
    read_tensor_from_image_file (H0 := toy_tensorflow constant_output)
                                "cat.gif" 299 299 0 255 = Ok t
    /\ shape t = [1; 299; 299; 3]%Z
    /\ data t = repeat (7 / 255)%Z 12.
Proof.
  destruct (preprocessor_shape_and_values (H0 := toy_tensorflow constant_output)
              (fun contents t (E : decode_png contents 3 = Ok t) =>
                 match E in _ = r return match r with
                                       | Ok t' => exists h w, shape t' = [h; w; 3%Z]
                                       | Raise _ => True
                                       end with
                 | eq_refl => ex_intro _ 1%Z (ex_intro _ 1%Z eq_refl)
                 end)
              (fun contents t (E : decode_jpeg contents 3 = Ok t) =>
                 match E in _ = r return match r with
                                       | Ok t' => exists h w, shape t' = [h; w; 3%Z]
                                       | Raise _ => True
                                       end with
                 | eq_refl => ex_intro _ 1%Z (ex_intro _ 1%Z eq_refl)
                 end)
              (fun contents t (E : decode_gif contents = Ok t) =>
                 match E in _ = r return match r with
                                       | Ok t' => exists n h w, shape t' = [n; h; w; 3%Z]
                                       | Raise _ => True
                                       end with
                 | eq_refl => ex_intro _ 1%Z (ex_intro _ 2%Z (ex_intro _ 2%Z eq_refl))
                 end)
              toy_resize_shape "cat.gif" 299%Z 299%Z 0%Z 255%Z)
    as [_ [Hreturns _]].
  destruct (Hreturns "cat.gif"
              {| shape := [2; 2; 3]%Z; data := repeat 7%Z 12 |}
              {| shape := [1; 299; 299; 3]%Z; data := repeat 7%Z 12 |}
              eq_refl
              (ex_intro _ {| shape := [1; 2; 2; 3]%Z; data := repeat 7%Z 12 |}
                        (conj eq_refl eq_refl))
              eq_refl)
    as [t [channels [Hrun [Hshape [Hdata Hch]]]]].
  exists t. split; [exact Hrun|]. split.
  - rewrite Hshape, Hch; [reflexivity | discriminate].
  - exact Hdata.
Defined.


(** * Further properties *)

(** ** The label file *)

Lemma rstrip_cons_congr (c : ascii) (l l' : string) :
  Py.rstrip l = Py.rstrip l' -> Py.rstrip (String c l) = Py.rstrip (String c l').
Proof. intros Heq. simpl. rewrite Heq. reflexivity. Qed.

Lemma final_newline_of_lines (text : string) :
  text <> "" -> Py.endswith text (String "010" "") = false ->
  map Py.rstrip (cut_lines (text +s+ String "010" ""))
  = map Py.rstrip (cut_lines text).
Proof.
  induction text as [|c text IH]; intros Hne Hend; [congruence|].
  cbn [Py.endswith] in Hend. apply orb_false_iff in Hend as [Hnot Hend].
  change (String c text +s+ String "010" "") with (String c (text +s+ String "010" "")).
  cbn [cut_lines].
  destruct text as [|d text'].
  - (* the last character *)
    destruct (Ascii.eqb c "010") eqn:Ec.
    + apply Ascii.eqb_eq in Ec. subst c. discriminate Hnot.
    + simpl. rewrite ?Ec. simpl. destruct (Py.isspace c); reflexivity.
  - assert (Hrest : map Py.rstrip (cut_lines (String d text' +s+ String "010" ""))
                    = map Py.rstrip (cut_lines (String d text')))
      by (apply IH; [discriminate | exact Hend]).
    destruct (Ascii.eqb c "010"); [cbn [map]; congruence|].
    destruct (cut_lines (String d text' +s+ String "010" "")) as [|l ls];
      destruct (cut_lines (String d text')) as [|l' ls'];
      cbn [map] in *; try discriminate; [reflexivity|].
    injection Hrest as Hl Hls. f_equal; [|exact Hls].
    apply rstrip_cons_congr. exact Hl.
Qed.

(** X1.  A newline at the end of the label file adds no label: when the text,
    its carriage returns aside, is not empty and does not end with a newline,
    its labels are those of the text followed by a newline. *)
Theorem final_newline_adds_no_label (text : string) :
  without_cr text <> "" ->
  Py.endswith (without_cr text) (String "010" "") = false ->
  load_labels_loop (Gfile.readlines (text +s+ String "010" ""))
  = load_labels_loop (Gfile.readlines text).
Proof.
  intros Hne Hend.
  rewrite !load_labels_loop_map, !readlines_cut, without_cr_app.
  apply final_newline_of_lines; assumption.
Qed.

(** ** Folder modes and the decoders *)

Lemma not_suffix_of_longer (f p q a b : string) :
  f = p +s+ a -> f = q +s+ b ->
  forall a0 a1, a = a0 +s+ a1 -> String.length a1 = String.length b -> a1 <> b -> False.
Proof.
  intros Hp Hq a0 a1 Ha Hlen Hne. apply Hne.
  apply (append_same_length (p +s+ a0) q).
  - rewrite append_assoc, <- Ha. congruence.
  - exact Hlen.
Qed.

Ltac other_suffix Hf Hq a0 a1 :=
  apply (@not_suffix_of_longer _ _ _ _ _ Hf Hq a0 a1);
  [reflexivity | reflexivity | discriminate].

(** X2.  Every file the folder modes list is read by the JPEG decoder: the
    PNG, GIF and BMP branches of the preprocessor are never taken for a file
    found by the listing of voting mode or of top-K evaluation mode. *)
Theorem listed_files_are_read_as_jpeg (fs : Gfile.filesystem) (file_name f : string) :
  literal file_name = true -> file_name <> "" ->
  In f (extend_file_list fs file_name []) ->
  select_decoder f = JPEG.
Proof.
  intros Hl Hne Hin.
  apply extend_file_list_In in Hin as [_ [name [ext [Hext [Hf _]]]]]; try assumption.
  apply (proj2 (proj2 (proj2 (select_decoder_by_suffix f)))).
  rewrite <- append_assoc in Hf.
  intros q.
  simpl in Hext.
  destruct Hext as [<- | [<- | [<- | [<- | []]]]]; repeat split; intros Hq;
    first [ other_suffix Hf Hq "" ".jpg" | other_suffix Hf Hq "." "jpeg"
          | other_suffix Hf Hq "" ".JPG" | other_suffix Hf Hq "." "JPEG" ].
Qed.

(** ** The directory of the summary writer *)

Lemma split_length (sep : ascii) (s : string) :
  List.length (Py.split sep s) = S (count_char sep s).
Proof.
  induction s as [|c s IH]; [reflexivity|].
  cbn [Py.split count_char]. destruct (Ascii.eqb c sep).
  - simpl. rewrite IH. reflexivity.
  - destruct (Py.split sep s) as [|piece pieces]; [discriminate IH|].
    simpl in *. exact IH.
Qed.

Lemma split_head_prefix (sep s : string) :
  exists r, s = Py.split_head sep s +s+ r /\ (r = "" \/ prefix sep r = true).
Proof.
  induction s as [|c s [r [Hs Hr]]].
  - exists "". split; [|left; reflexivity].
    cbn [Py.split_head]. destruct (prefix sep ""); reflexivity.
  - cbn [Py.split_head]. destruct (prefix sep (String c s)) eqn:E.
    + exists (String c s). split; [reflexivity | right; exact E].
    + exists r. split; [|exact Hr]. simpl. congruence.
Qed.

Lemma prefix_of_longer (sep m r : string) :
  prefix sep m = true -> prefix sep (m +s+ r) = true.
Proof.
  intros Hp. apply prefix_iff in Hp as [t ->]. apply prefix_iff.
  exists (t +s+ r). apply append_assoc.
Qed.

Lemma split_head_no_occurrence (sep s : string) :
  sep <> "" -> occurs sep (Py.split_head sep s) = false.
Proof.
  intros Hsep. induction s as [|c s IH].
  - simpl. destruct sep; [congruence|].
    destruct (prefix (String a sep) ""); reflexivity.
  - cbn [Py.split_head]. destruct (prefix sep (String c s)) eqn:E.
    + destruct sep; [congruence | reflexivity].
    + cbn [occurs]. rewrite IH, orb_false_r.
      apply not_true_iff_false. intros Hp. apply not_true_iff_false in E. apply E.
      destruct (split_head_prefix sep s) as [r [Hs _]].
      rewrite Hs at 1.
      change (String c (Py.split_head sep s +s+ r))
        with (String c (Py.split_head sep s) +s+ r).
      apply prefix_of_longer. exact Hp.
Qed.

Lemma split_pieces_no_sep (sep : ascii) (s piece : string) :
  In piece (Py.split sep s) -> no_char sep piece = true.
Proof.
  revert piece. induction s as [|c s IH]; intros piece Hin.
  - destruct Hin as [<- | []]. reflexivity.
  - cbn [Py.split] in Hin. destruct (Ascii.eqb c sep) eqn:Ec.
    + destruct Hin as [<- | Hin]; [reflexivity | auto].
    + destruct (Py.split sep s) as [|p ps] eqn:Es.
      * destruct Hin as [<- | []]. simpl. rewrite Ec. reflexivity.
      * destruct Hin as [<- | Hin].
        -- simpl. rewrite Ec. simpl. apply IH. left. reflexivity.
        -- apply IH. right. exact Hin.
Qed.

Section SummaryWriter.
Context {score : Type} `{ArgSort score} `{TensorFlow score}.

(** X3.  Top-K evaluation mode needs a graph path of at least seven components:
    with fewer than six separators in [model_file], the run stops with
    [IndexError] at the creation of the summary writer, before anything is
    printed, logged or read.  The default graph path has four, so
    [--top_k_graph] without a [--graph] override always stops there. *)
Theorem short_graph_path_raises_index_error (fs : Gfile.filesystem)
    (summaries_dir : string) :
  (forall cfg, count_char "/" (model_file cfg) < 6 ->
     top_k_mode fs cfg summaries_dir = ([], Raise IndexError))
  /\ (forall cfg, 6 <= count_char "/" (model_file cfg) ->
        exists logdir, top_k_logdir cfg summaries_dir = Ok logdir)
  /\ (forall a, Args.truthy_str (Args.graph a) = false ->
        top_k_mode fs (configure a) summaries_dir = ([], Raise IndexError)).
Proof.
  assert (Hshort : forall cfg, count_char "/" (model_file cfg) < 6 ->
            top_k_mode fs cfg summaries_dir = ([], Raise IndexError)).
  { intros cfg Hc. unfold top_k_mode, top_k_logdir.
    destruct (nth_error (Py.split "/" (model_file cfg)) 6) eqn:E; [|reflexivity].
    exfalso. assert (Hlt : 6 < List.length (Py.split "/" (model_file cfg))).
    { apply nth_error_Some. congruence. }
    rewrite split_length in Hlt. lia. }
  split; [exact Hshort|]. split.
  - intros cfg Hc. unfold top_k_logdir.
    destruct (nth_error (Py.split "/" (model_file cfg)) 6) eqn:E; [eauto|].
    exfalso. apply nth_error_None in E. rewrite split_length in E. lia.
  - intros a Ha. apply Hshort. unfold configure. cbn [model_file]. rewrite Ha.
    vm_compute. lia.
Qed.

(** X4.  When the summary writer is created, its directory is
    [summaries_dir/<model>_top_k], where [<model>] is the seventh component of
    the graph path up to its first ["_output"]: the component is [<model>]
    followed by nothing or by text that starts with ["_output"], and
    ["_output"] does not occur in [<model>]. *)
Theorem summary_directory_name (cfg : config) (summaries_dir logdir : string) :
  top_k_logdir cfg summaries_dir = Ok logdir ->
  exists piece model rest,
    nth_error (Py.split "/" (model_file cfg)) 6 = Some piece
    /\ no_char "/" piece = true
    /\ piece = model +s+ rest
    /\ (rest = "" \/ prefix "_output" rest = true)
    /\ occurs "_output" model = false
    /\ logdir = summaries_dir +s+ "/" +s+ model +s+ "_top_k".
Proof.
  unfold top_k_logdir.
  destruct (nth_error (Py.split "/" (model_file cfg)) 6) as [piece|] eqn:E;
    [|discriminate].
  intros [= <-].
  destruct (split_head_prefix "_output" piece) as [rest [Hpiece Hrest]].
  exists piece, (Py.split_head "_output" piece), rest.
  split; [reflexivity|]. split; [|split; [exact Hpiece|split; [exact Hrest|split]]].
  - apply nth_error_In in E. apply (split_pieces_no_sep _ _ _ E).
  - apply split_head_no_occurrence. discriminate.
  - reflexivity.
Qed.
End SummaryWriter.

(** ** Single-image mode at its edges *)

Lemma last_k_incl {A} (k : nat) (l : list A) : incl (Py.last_k k l) l.
Proof.
  unfold Py.last_k. destruct k; [apply incl_refl|].
  intros x Hx. rewrite <- (firstn_skipn (List.length l - S k) l).
  apply in_or_app. right. exact Hx.
Qed.

Lemma last_k_whole {A} (k : nat) (l : list A) :
  List.length l <= k -> Py.last_k k l = l.
Proof.
  intros Hk. unfold Py.last_k. destruct k; [reflexivity|].
  replace (List.length l - S k) with 0 by lia. reflexivity.
Qed.

Section SingleImageEdges.
Context {score : Type} `{ArgSort score} `{TensorFlow score}.

Lemma top_k_indices_lt (k : nat) (v : list score) (i : nat) :
  In i (top_k_indices k v) -> i < List.length v.
Proof.
  unfold top_k_indices. intros Hi. apply in_rev in Hi.
  apply last_k_incl in Hi. apply argsort_In. exact Hi.
Qed.

(** Printing stops at the first position without a label. *)
Lemma print_top_raises (labels : list string) (results : list score)
    (good rest : list nat) (i : nat) :
  (forall j, In j good -> j < List.length labels /\ j < List.length results) ->
  List.length labels <= i ->
  print_top labels results (good ++ i :: rest)
  = (map (fun j => PrintPair (nth j labels "") (Np.item results j)) good,
     Raise IndexError).
Proof.
  intros Hgood Hi. unfold print_top. rewrite for_each_app.
  fold (print_top labels results good). rewrite (print_top_ok labels results good Hgood).
  cbn [bind for_each].
  apply nth_error_None in Hi. rewrite Hi. unfold raise. cbn [bind].
  rewrite app_nil_r. reflexivity.
Qed.

(** X5.  A label file shorter than the model is wide is not guarded against: when
    one of the ten best positions has no label, single-image mode prints the
    pairs of the better positions and then stops with [IndexError]. *)
Theorem missing_label_raises_index_error (fs : Gfile.filesystem) (cfg : config)
    (results : list score) (labels : list string) (good rest : list nat) (i : nat) :
  classify cfg (file_name cfg) = Ok results ->
  load_labels fs (label_file cfg) = Ok labels ->
  top_k_indices 10 results = good ++ i :: rest ->
  (forall j, In j good -> j < List.length labels) ->
  List.length labels <= i ->
  single_image_mode fs cfg
  = (map (fun j => PrintPair (nth j labels "") (Np.item results j)) good,
     Raise IndexError).
Proof.
  intros Hrun Hlabels Htop Hgood Hi.
  unfold single_image_mode. rewrite Hrun, bind_lift_ok.
  destruct (Nat.eq_dec (List.length results) 1) as [Hone|Hmore].
  - (* one class: the array has no dimension, and nothing is printed *)
    assert (Hlen : List.length (top_k_indices 10 results) = 1).
    { unfold top_k_indices. rewrite length_rev, last_k_whole, argsort_length;
        [exact Hone | rewrite argsort_length; lia]. }
    rewrite Htop, length_app in Hlen. simpl in Hlen.
    destruct good as [|j good]; [|simpl in Hlen; lia].
    destruct results as [|x [|y r]]; try discriminate Hone.
    cbn [Np.squeeze]. rewrite Hlabels, bind_lift_ok. reflexivity.
  - rewrite squeeze_vector, Hlabels, bind_lift_ok, Htop by exact Hmore.
    apply print_top_raises; [|exact Hi].
    intros j Hj. split; [auto|].
    apply (top_k_indices_lt 10). rewrite Htop. apply in_or_app. left. exact Hj.
Qed.

(** X6.  A model of at most ten classes: single-image mode prints every class
    once, best score first. *)
Theorem small_model_prints_every_class (fs : Gfile.filesystem) (cfg : config)
    (results : list score) (labels : list string) :
  classify cfg (file_name cfg) = Ok results ->
  1 < List.length results <= 10 ->
  load_labels fs (label_file cfg) = Ok labels ->
  List.length results <= List.length labels ->
  exists top,
    single_image_mode fs cfg
    = (map (fun i => PrintPair (nth i labels "") (Np.item results i)) top, Ok tt)
    /\ Permutation top (seq 0 (List.length results))
    /\ StronglySorted
         (fun i j => score_leb (Np.item results j) (Np.item results i) = true) top.
Proof.
  intros Hrun Hlen Hlabels Hcover.
  assert (Htop : top_k_indices 10 results = rev (argsort results)).
  { unfold top_k_indices. rewrite last_k_whole; [reflexivity|].
    rewrite argsort_length. lia. }
  exists (rev (argsort results)). split; [|split].
  - unfold single_image_mode.
    rewrite Hrun, bind_lift_ok, squeeze_vector, Hlabels, bind_lift_ok, Htop by lia.
    apply print_top_ok. intros i Hi. apply in_rev in Hi. apply argsort_In in Hi. lia.
  - rewrite <- Permutation_rev. apply argsort_perm.
  - apply StronglySorted_rev with (R := fun i j => score_leb (Np.item results i)
                                                            (Np.item results j) = true).
    apply argsort_sorted.
Qed.
End SingleImageEdges.

(** ** What the first loop of top-K mode collects *)

Section CollectedExactly.
Context {score : Type} `{ArgSort score} `{TensorFlow score}.
Variable fs : Gfile.filesystem.
Variable cfg : config.
Hypothesis model_has_99_classes :
  forall f, listed fs cfg f ->
    exists row, classify cfg f = Ok row /\ List.length row = 99.

Let classified (file : string) (row : list score) : Prop := classify cfg file = Ok row.

Lemma collect_files_exactly (truth : nat) (files : list string) (st : collected score) :
  (forall f, In f files -> listed fs cfg f) ->
  Np.ncols (final_results st) = 99 ->
  exists st' rows',
    for_each (collect_file cfg truth) files st = ([], Ok st')
    /\ Np.ncols (final_results st') = 99
    /\ file_list st' = file_list st
    /\ evaluated_images st' = evaluated_images st + List.length files
    /\ ground_truth st' = ground_truth st ++ repeat (Z.of_nat truth) (List.length files)
    /\ Forall2 classified files rows'
    /\ Np.rows (final_results st') = Np.rows (final_results st) ++ rows'.
Proof.
  revert st. induction files as [|f files IH]; intros st Hlisted Hcols.
  - exists st, []. simpl. rewrite Nat.add_0_r, !app_nil_r.
    repeat split; auto using Forall2_nil.
  - destruct (model_has_99_classes (Hlisted f (in_eq _ _))) as [row [Hrow Hlen]].
    set (st1 := {| file_list := file_list st;
                   evaluated_images := evaluated_images st + 1;
                   final_results := {| Np.ncols := 99;
                                       Np.rows := Np.rows (final_results st) ++ [row] |};
                   ground_truth := ground_truth st ++ [Z.of_nat truth] |}).
    assert (Hstep : collect_file cfg truth st f = ([], Ok st1)).
    { unfold collect_file. rewrite Hrow, bind_lift_ok.
      unfold Np.append. rewrite Hlen, Hcols. reflexivity. }
    destruct (IH st1 (fun g Hg => Hlisted g (in_cons _ _ _ Hg)) eq_refl)
      as [st' [rows' [Hloop [Hc [Hfl [Hev [Hgt [Hcl Hrows]]]]]]]].
    exists st', (row :: rows'). cbn [for_each]. rewrite Hstep. cbn [bind]. rewrite Hloop.
    subst st1. cbn [file_list evaluated_images final_results ground_truth Np.rows] in *.
    repeat split; try assumption.
    + rewrite Hev. simpl. lia.
    + rewrite Hgt, <- app_assoc. reflexivity.
    + constructor; assumption.
    + rewrite Hrows, <- app_assoc. reflexivity.
Qed.

Let files_of (i : nat) : list string := extend_file_list fs (numbered_folder cfg i) [].

Lemma collect_loop_exactly (l : list nat) (st : collected score) :
  (forall i, In i l -> i < 99) ->
  Np.ncols (final_results st) = 99 -> file_list st = [] ->
  exists st' rows',
    outcome (for_each (collect_folder fs cfg) l st) = Ok st'
    /\ Np.ncols (final_results st') = 99
    /\ file_list st' = []
    /\ evaluated_images st' = evaluated_images st + List.length (flat_map files_of l)
    /\ ground_truth st'
       = ground_truth st
         ++ flat_map (fun i => repeat (Z.of_nat i) (List.length (files_of i))) l
    /\ Forall2 classified (flat_map files_of l) rows'
    /\ Np.rows (final_results st') = Np.rows (final_results st) ++ rows'.
Proof.
  revert st. induction l as [|i l IH]; intros st Hl Hcols Hfl.
  - exists st, []. simpl. rewrite Nat.add_0_r, !app_nil_r.
    repeat split; auto using Forall2_nil.
  - set (st0 := {| file_list := files_of i; evaluated_images := evaluated_images st;
                   final_results := final_results st; ground_truth := ground_truth st |}).
    destruct (collect_files_exactly i (files_of i) st0
                (fun f Hf => ex_intro _ i (conj (Hl i (in_eq _ _)) Hf)) Hcols)
      as [st1 [rows1 [Hfiles [Hc1 [_ [Hev1 [Hgt1 [Hcl1 Hrows1]]]]]]]].
    set (st2 := {| file_list := []; evaluated_images := evaluated_images st1;
                   final_results := final_results st1; ground_truth := ground_truth st1 |}).
    destruct (IH st2 (fun j Hj => Hl j (in_cons _ _ _ Hj)) Hc1 eq_refl)
      as [st' [rows' [Hloop [Hc [Hfl' [Hev [Hgt [Hcl Hrows]]]]]]]].
    exists st', (rows1 ++ rows').
    assert (Hstep : exists evs, collect_folder fs cfg st i = (evs, Ok st2)).
    { unfold collect_folder. rewrite Hfl. fold (files_of i). fold st0. rewrite Hfiles.
      unfold check_directory.
      destruct (Gfile.Exists fs (numbered_folder cfg i)); eexists; reflexivity. }
    destruct Hstep as [evs Hstep].
    split.
    { cbn [for_each]. rewrite Hstep. cbn [bind].
      destruct (for_each (collect_folder fs cfg) l st2) as [evs' r']. exact Hloop. }
    subst st2 st0. cbn [file_list evaluated_images final_results ground_truth] in *.
    cbn [flat_map]. repeat split; try assumption.
    + rewrite Hev, Hev1, length_app. lia.
    + rewrite Hgt, Hgt1, <- app_assoc. reflexivity.
    + apply Forall2_app; assumption.
    + rewrite Hrows, Hrows1, <- app_assoc. reflexivity.
Qed.

(** X7.  The first loop of top-K evaluation mode evaluates the listed files of
    folder 0, then of folder 1, and so on to folder 98: the rows of
    [final_results] are the outputs of these files in that order, the ground
    truth of each is the number of its folder, and [evaluated_images] is
    their number. *)
Theorem collection_pairs_outputs_with_folders :
  exists st,
    outcome (top_k_collect fs cfg) = Ok st
    /\ evaluated_images st = List.length (flat_map files_of (seq 0 99))
    /\ ground_truth st
       = flat_map (fun i => repeat (Z.of_nat i) (List.length (files_of i))) (seq 0 99)
    /\ Forall2 classified (flat_map files_of (seq 0 99)) (Np.rows (final_results st)).
Proof.
  assert (Hfolders : forall i, In i (seq 0 99) -> i < 99)
    by (intros i Hi; apply in_seq in Hi; lia).
  destruct (@collect_loop_exactly (seq 0 99) (collect_start score) Hfolders
                                  eq_refl eq_refl)
    as [st [rows' [Hrun [_ [_ [Hev [Hgt [Hcl Hrows]]]]]]]].
  exists st. split; [exact Hrun|].
  simpl Np.rows in Hrows. simpl ground_truth in Hgt. simpl evaluated_images in Hev.
  rewrite Hrows. auto.
Qed.
End CollectedExactly.

(** ** The predictions counted for each K *)

Lemma hits_cons (value : nat -> Z) (truth : Z) (j : nat) (top : list nat) :
  hits value truth top <= hits value truth (j :: top).
Proof. unfold hits. simpl. destruct (value j =? truth)%Z; simpl; lia. Qed.

Lemma skipn_one_more {A} (n : nat) (l : list A) :
  n < List.length l -> exists x, skipn n l = x :: skipn (S n) l.
Proof.
  revert l. induction n as [|n IH]; intros [|y l] Hn; simpl in Hn; try lia.
  - exists y. reflexivity.
  - apply IH. lia.
Qed.

Lemma last_k_succ {A} (k : nat) (l : list A) :
  0 < k ->
  Py.last_k (S k) l = Py.last_k k l
  \/ exists x, Py.last_k (S k) l = x :: Py.last_k k l.
Proof.
  intros Hk. unfold Py.last_k. destruct k as [|k]; [lia|].
  destruct (le_lt_dec (List.length l) (S k)) as [Hle | Hlt].
  - left. replace (List.length l - S (S k)) with 0 by lia.
    replace (List.length l - S k) with 0 by lia. reflexivity.
  - right. replace (List.length l - S k) with (S (List.length l - S (S k))) by lia.
    apply skipn_one_more. lia.
Qed.

Lemma hits_le_one (value : nat -> Z) (truth : Z) (top : list nat) :
  (forall i j, i < 99 -> j < 99 -> value i = value j -> i = j) ->
  NoDup top -> (forall j, In j top -> j < 99) ->
  hits value truth top = if is_hit value top truth then 1 else 0.
Proof.
  intros Hinj. induction top as [|j top IH]; intros Hnd Hlt; [reflexivity|].
  inversion Hnd as [|? ? Hnotin Hnd']; subst.
  specialize (IH Hnd' (fun i Hi => Hlt i (in_cons _ _ _ Hi))).
  unfold hits, is_hit in *. simpl.
  destruct (value j =? truth)%Z eqn:E; simpl; [|exact IH].
  rewrite IH.
  destruct (existsb (fun j0 => (value j0 =? truth)%Z) top) eqn:Ex; [|reflexivity].
  exfalso. apply existsb_exists in Ex as [i [Hi Hv]].
  apply Z.eqb_eq in E, Hv. apply Hnotin.
  replace j with i; [exact Hi|].
  apply Hinj; [apply Hlt; right; exact Hi | apply Hlt; left; reflexivity | congruence].
Qed.

Section Counting.
Context {score : Type} `{ArgSort score} `{TensorFlow score}.
Variable fs : Gfile.filesystem.
Variable cfg : config.
Variable labels : list string.
Hypothesis model_has_99_classes :
  forall f, listed fs cfg f ->
    exists row, classify cfg f = Ok row /\ List.length row = 99.
Hypothesis labels_loaded : load_labels fs (label_file cfg) = Ok labels.
Hypothesis labels_parse : forall j, j < 99 -> exists v, label_int labels j = Some v.

Lemma parsed_labels (j : nat) :
  j < 99 ->
  exists label, nth_error labels j = Some label
                /\ Py.int label = Some (label_value labels j).
Proof.
  intros Hj. destruct (labels_parse Hj) as [v Hv].
  unfold label_value. rewrite Hv. unfold label_int in Hv.
  destruct (nth_error labels j) as [label|]; [eauto | discriminate].
Qed.

Lemma top_k_hits_grow (k : nat) (results : list score) (truth : Z) :
  0 < k ->
  hits (label_value labels) truth (top_k_indices k results)
  <= hits (label_value labels) truth (top_k_indices (S k) results).
Proof.
  intros Hk. unfold top_k_indices.
  rewrite (hits_perm _ _ (Permutation_sym (Permutation_rev (Py.last_k k (argsort results))))).
  rewrite (hits_perm _ _ (Permutation_sym
                            (Permutation_rev (Py.last_k (S k) (argsort results))))).
  destruct (last_k_succ (argsort results) Hk) as [-> | [x ->]];
    [lia | apply hits_cons].
Qed.


Hypothesis labels_distinct :
  forall i j, i < 99 -> j < 99 ->
    label_value labels i = label_value labels j -> i = j.

End Counting.

(** ** The rankings voting mode prints *)

Section VoteRankings.
Context {score : Type} `{ArgSort score} `{TensorFlow score}.
Variable fs : Gfile.filesystem.
Variable cfg : config.
Variable output : string -> list score.
Variable labels : list string.
Hypothesis labels_loaded : load_labels fs (label_file cfg) = Ok labels.
Hypothesis labels_cover : 99 <= List.length labels.

(** The sum of the outputs of the first [n] files of [l], added to [rows]. *)
Let sum_so_far (rows : list (list score)) (l : list string) (n : nat) : list score :=
  Np.sum0 {| Np.ncols := 99; Np.rows := rows ++ map output (firstn n l) |}.

Lemma vote_loop_rankings_from (l : list string) (a : Np.array2 score) :
  (forall f, In f l -> classify cfg f = Ok (output f) /\ List.length (output f) = 99) ->
  Np.ncols a = 99 -> rectangular a ->
  events (for_each (vote_step fs cfg) l a)
  = flat_map (fun n => ranking labels (sum_so_far (Np.rows a) l n))
             (seq 1 (List.length l)).
Proof.
  revert a. induction l as [|f l IH]; intros a Hall Hcols Hrect; [reflexivity|].
  destruct (Hall f (in_eq _ _)) as [Hrun Hlen].
  destruct (vote_step_ok fs cfg output labels_loaded labels_cover f Hrun Hlen Hcols Hrect)
    as [Hstep Hrect'].
  cbn [for_each]. rewrite Hstep. cbn [bind].
  specialize (IH {| Np.ncols := Np.ncols a; Np.rows := Np.rows a ++ [output f] |} (fun g Hg => Hall g (in_cons _ _ _ Hg)) Hcols Hrect').
  destruct (for_each (vote_step fs cfg) l _) as [evs r]. cbn [events fst] in *.
  rewrite IH. cbn [List.length seq flat_map]. f_equal.
  - unfold sum_so_far. cbn [firstn map Np.rows]. rewrite Hcols. reflexivity.
  - rewrite <- (seq_shift (List.length l) 1).
    rewrite (flat_map_concat_map _ (map S _)), map_map, <- flat_map_concat_map.
    apply flat_map_ext. intros n. unfold sum_so_far.
    cbn [firstn map Np.rows]. rewrite <- app_assoc. reflexivity.
Qed.

(** X10.  Voting mode prints a ranking after every file, not once at the end: for
    [n] files it prints [n] rankings of ten lines, the [i]-th being the
    ranking of the sum of the outputs of the first [i] files, and it ends
    with the array of all the outputs. *)
Theorem vote_prints_a_ranking_per_file (l : list string) :
  (forall f, In f l -> classify cfg f = Ok (output f) /\ List.length (output f) = 99) ->
  vote_loop fs cfg l
  = (flat_map (fun n => ranking labels
                          (Np.sum0 {| Np.ncols := 99;
                                      Np.rows := map output (firstn n l) |}))
              (seq 1 (List.length l)),
     Ok {| Np.ncols := 99; Np.rows := map output l |})
  /\ List.length (events (vote_loop fs cfg l)) = 10 * List.length l.
Proof.
  intros Hall.
  assert (Hempty : rectangular (Np.empty2 (score := score) 99)) by constructor.
  pose proof (@vote_loop_rankings_from l (Np.empty2 99) Hall eq_refl Hempty) as Hevs.
  destruct (vote_loop_from fs cfg output labels_loaded labels_cover l
                           (a := Np.empty2 99) Hall eq_refl Hempty) as [evs [Hrun _]].
  unfold vote_loop. rewrite Hrun in *. cbn [events fst] in Hevs. subst evs.
  split; [reflexivity|].
  cbn [events fst]. unfold sum_so_far. cbn [Np.rows Np.empty2 app].
  assert (Hten : forall n,
            List.length
              (ranking labels
                 (Np.sum0 {| Np.ncols := 99; Np.rows := map output (firstn n l) |}))
            = 10).
  { intros n. unfold ranking. rewrite length_map.
    apply top_k_indices_spec; [lia|].
    rewrite sum0_length; [simpl; lia|].
    unfold rectangular. simpl. apply Forall_forall. intros r Hr.
    apply in_map_iff in Hr as [f [<- Hf]]. apply Hall.
    rewrite <- (firstn_skipn n l). apply in_or_app. left. exact Hf. }
  assert (Hflat : forall ns,
            List.length
              (flat_map (fun n => ranking labels
                                    (Np.sum0 {| Np.ncols := 99;
                                                Np.rows := map output (firstn n l) |}))
                        ns)
            = 10 * List.length ns).
  { induction ns as [|n ns IH]; [reflexivity|].
    cbn [flat_map List.length]. rewrite length_app, IH, Hten. lia. }
  rewrite Hflat, length_seq. reflexivity.
Qed.
End VoteRankings.

(** ** Folder numbers written with [str] and read back with [int] *)

Lemma to_little_uint_nonnil (n : nat) (acc : Decimal.uint) :
  acc <> Decimal.Nil -> Nat.to_little_uint n acc <> Decimal.Nil.
Proof.
  revert acc. induction n as [|n IH]; intros acc Hacc; [exact Hacc|].
  simpl. apply IH. destruct acc; simpl; discriminate.
Qed.

Lemma to_uint_nonnil (n : nat) : Nat.to_uint n <> Decimal.Nil.
Proof.
  unfold Nat.to_uint. intros Hnil. apply DecimalFacts.rev_nil_inv in Hnil.
  revert Hnil. apply to_little_uint_nonnil. discriminate.
Qed.

Lemma str_as_digits (n : nat) : Py.str n = NilEmpty.string_of_uint (Nat.to_uint n).
Proof.
  unfold Py.str, NilZero.string_of_uint.
  pose proof (to_uint_nonnil n). destruct (Nat.to_uint n); congruence.
Qed.

Lemma string_of_uint_digits (d : Decimal.uint) :
  all_digits (NilEmpty.string_of_uint d) = true.
Proof. induction d; simpl; auto. Qed.

Lemma digits_of_uint (d : Decimal.uint) (acc : nat) :
  Py.digits (Z.of_nat acc) (NilEmpty.string_of_uint d)
  = Some (Z.of_nat (Nat.of_uint_acc d acc)).
Proof.
  revert acc. induction d; intros acc; cbn [NilEmpty.string_of_uint Nat.of_uint_acc];
    [reflexivity | ..];
    cbn [Py.digits]; rewrite Nat.tail_mul_spec;
    match goal with
    | |- context [Py.digit ?c] =>
        let v := eval vm_compute in (Py.digit c) in
        change (Py.digit c) with v
    end; cbv iota; rewrite <- IHd; f_equal; lia.
Qed.

Lemma digit_not_space (c : ascii) (d : Z) : Py.digit c = Some d -> Py.isspace c = false.
Proof.
  unfold Py.digit, Py.isspace.
  destruct ((48 <=? nat_of_ascii c) && (nat_of_ascii c <=? 57)) eqn:E; [|discriminate].
  intros _. apply andb_prop in E as [E1 E2].
  apply Nat.leb_le in E1. apply Nat.leb_le in E2.
  rewrite !orb_false_iff, !andb_false_iff, !Nat.leb_gt, !Nat.eqb_neq. lia.
Qed.

Lemma rstrip_digits (s : string) : all_digits s = true -> Py.rstrip s = s.
Proof.
  induction s as [|c s IH]; [reflexivity|].
  cbn [all_digits Py.rstrip]. destruct (Py.digit c) as [d|] eqn:E; [|discriminate].
  intros Hs. rewrite (IH Hs), (digit_not_space _ E). destruct s; reflexivity.
Qed.

Lemma strip_digits (s : string) : all_digits s = true -> Py.strip s = s.
Proof.
  intros Hs. unfold Py.strip.
  assert (Hl : Py.lstrip s = s).
  { destruct s as [|c s]; [reflexivity|]. cbn [Py.lstrip all_digits] in *.
    destruct (Py.digit c) as [d|] eqn:E; [|discriminate].
    rewrite (digit_not_space _ E). reflexivity. }
  rewrite Hl. apply rstrip_digits. exact Hs.
Qed.

(** The decimal numeral [str] writes is read back by [int] as the same
    number. *)
Lemma int_str (n : nat) : Py.int (Py.str n) = Some (Z.of_nat n).
Proof.
  rewrite str_as_digits. unfold Py.int.
  rewrite strip_digits by apply string_of_uint_digits.
  pose proof (digits_of_uint (Nat.to_uint n) 0) as Hd.
  fold (Nat.of_uint (Nat.to_uint n)) in Hd.
  rewrite DecimalNat.Unsigned.of_to in Hd. change (Z.of_nat 0) with 0%Z in Hd.
  pose proof (to_uint_nonnil n) as Hnil.
  destruct (Nat.to_uint n); try congruence; exact Hd.
Qed.

Lemma str_inj (m n : nat) : Py.str m = Py.str n -> m = n.
Proof.
  intros E. apply Nat2Z.inj.
  pose proof (int_str m) as Hm. rewrite E, int_str in Hm. congruence.
Qed.

Lemma append_inj_r (p a b : string) : p +s+ a = p +s+ b -> a = b.
Proof. induction p as [|c p IH]; simpl; [auto|]. intros [= E]. auto. Qed.

Lemma NoDup_map_injective {A B} (f : A -> B) (l : list A) :
  (forall x y, f x = f y -> x = y) -> NoDup l -> NoDup (map f l).
Proof.
  intros Hinj. induction 1 as [|x l Hx Hl IH]; simpl; constructor; [|exact IH].
  intros Hin. apply in_map_iff in Hin as [y [E Hy]].
  apply Hinj in E. subst y. contradiction.
Qed.

(** X11.  The numbered folders the first loop of top-K mode visits are pairwise
    distinct paths: no folder is read under two class numbers. *)
Theorem numbered_folders_are_distinct (cfg : config) (n : nat) :
  NoDup (map (numbered_folder cfg) (seq 0 n)).
Proof.
  apply NoDup_map_injective; [|apply seq_NoDup].
  intros i j E. unfold numbered_folder in E.
  apply append_inj_r, append_inj_r in E. apply str_inj. exact E.
Qed.

Lemma readlines_line (s rest : string) :
  all_digits s = true ->
  Gfile.readlines (s +s+ String "010" rest) = (s +s+ String "010" "") :: Gfile.readlines rest.
Proof.
  induction s as [|c s IH]; intros Hs; [reflexivity|].
  cbn [all_digits] in Hs. destruct (Py.digit c) as [d|] eqn:E; [|discriminate].
  change (String c s +s+ String "010" rest) with (String c (s +s+ String "010" rest)).
  cbn [Gfile.readlines]. rewrite (IH Hs).
  destruct (Ascii.eqb c "010") eqn:Ec;
    [apply Ascii.eqb_eq in Ec; subst c; discriminate E|].
  destruct (Ascii.eqb c "013") eqn:Er;
    [apply Ascii.eqb_eq in Er; subst c; discriminate E|].
  reflexivity.
Qed.

Lemma rstrip_line (s : string) :
  all_digits s = true -> Py.rstrip (s +s+ String "010" "") = s.
Proof.
  intros Hs. rewrite <- (rstrip_digits s Hs) at 2. clear Hs.
  induction s as [|c s IH]; [reflexivity|].
  change (String c s +s+ String "010" "") with (String c (s +s+ String "010" "")).
  apply rstrip_cons_congr. exact IH.
Qed.

Lemma numbered_lines_labels (classes : list nat) :
  load_labels_loop (Gfile.readlines (numbered_lines classes)) = map Py.str classes.
Proof.
  rewrite load_labels_loop_map.
  induction classes as [|c cs IH]; [reflexivity|].
  cbn [numbered_lines map].
  assert (Hc : all_digits (Py.str c) = true)
    by (rewrite str_as_digits; apply string_of_uint_digits).
  rewrite readlines_line by exact Hc.
  cbn [map]. rewrite IH, rstrip_line by exact Hc. reflexivity.
Qed.

Section NumberedLabels.
Context {score : Type}.

(** X12.  When the label file holds one folder number per line, as [str] writes
    it, the labels read back are those numbers, and the counting loop of
    top-K mode counts position [j] as a hit for folder [truth] exactly when
    line [j] holds [truth]. *)
Theorem folder_numbers_as_labels (fs : Gfile.filesystem) (label_file : string)
    (classes : list nat) (truth : nat) (top : list nat) (prediction : nat) :
  Gfile.fs_text fs label_file = Some (numbered_lines classes) ->
  (forall j, In j top -> j < List.length classes) ->
  load_labels fs label_file = Ok (map Py.str classes)
  /\ count_hits score (map Py.str classes) (Z.of_nat truth) top prediction
     = ret (prediction
            + List.length (filter (fun j => nth j classes 0 =? truth) top)).
Proof.
  intros Htext Htop. split.
  - unfold load_labels, Gfile.GFile_readlines. rewrite Htext.
    rewrite numbered_lines_labels. reflexivity.
  - unfold count_hits. revert prediction.
    induction top as [|j top IH]; intros prediction.
    + simpl. rewrite Nat.add_0_r. reflexivity.
    + cbn [for_each].
      assert (Hj : j < List.length classes) by (apply Htop; left; reflexivity).
      rewrite nth_error_map, (nth_error_nth' classes 0 Hj). cbn [option_map].
      rewrite int_str, bind_ret_l.
      rewrite IH by (intros i Hi; apply Htop; right; exact Hi).
      cbn [filter].
      destruct (Z.eqb_spec (Z.of_nat (nth j classes 0)) (Z.of_nat truth)) as [E|E].
      * apply Nat2Z.inj in E. rewrite E, Nat.eqb_refl. simpl. f_equal. lia.
      * destruct (Nat.eqb_spec (nth j classes 0) truth) as [E'|E'];
          [rewrite E' in E; congruence|]. reflexivity.
Qed.
End NumberedLabels.

(** ** A label file with fewer than 99 lines *)

Section ShortLabelFile.
Context {score : Type} `{ArgSort score} `{TensorFlow score}.
Variable fs : Gfile.filesystem.
Variable cfg : config.

Lemma collect_file_keeps (truth : nat) (st st' : collected score) (f : string) :
  truth < 99 -> collected_ok st ->
  outcome (collect_file cfg truth st f) = Ok st' -> collected_ok st'.
Proof.
  intros Htruth [Hcols [Hrect [Hrows [Htruths Hrange]]]].
  unfold collect_file. rewrite outcome_bind.
  destruct (classify cfg f) as [row|e]; [|discriminate].
  cbn [lift outcome snd]. rewrite outcome_bind. unfold Np.append.
  destruct (List.length row =? Np.ncols (final_results st)) eqn:E; [|discriminate].
  apply Nat.eqb_eq in E. cbn [lift outcome snd ret]. intros [= <-].
  unfold collected_ok, rectangular in *. cbn. repeat split.
  - exact Hcols.
  - apply Forall_app. split; [exact Hrect|]. repeat constructor. exact E.
  - rewrite length_app. simpl. lia.
  - rewrite length_app. simpl. lia.
  - apply Forall_app. split; [exact Hrange|]. repeat constructor; lia.
Qed.

Lemma collect_folder_keeps (st st' : collected score) (i : nat) :
  i < 99 -> collected_ok st ->
  outcome (collect_folder fs cfg st i) = Ok st' -> collected_ok st'.
Proof.
  intros Hi Hok. unfold collect_folder. rewrite outcome_bind.
  destruct (outcome (check_directory score fs (numbered_folder cfg i))); [|discriminate].
  rewrite outcome_bind.
  match goal with
  | |- context [for_each ?body ?l ?s] =>
      destruct (outcome (for_each body l s)) as [st1|e] eqn:E; [|discriminate];
      assert (Hok1 : collected_ok st1)
        by (apply (for_each_invariant (@collected_ok score) body l s);
            [intros s0 x s' _ Hs0; apply collect_file_keeps; assumption
            | exact Hok | exact E])
  end.
  cbn [ret outcome snd]. intros [= <-]. exact Hok1.
Qed.

Lemma top_k_collect_keeps (st : collected score) :
  outcome (top_k_collect fs cfg) = Ok st -> collected_ok st.
Proof.
  apply (for_each_invariant (@collected_ok score)).
  - intros s i s' Hi. apply in_seq in Hi. apply collect_folder_keeps. lia.
  - apply collect_start_ok.
Qed.

(** A ranking that reaches a position past the last label stops the count. *)
Lemma count_hits_stops (labels : list string) (truth : Z) (top : list nat)
    (prediction : nat) :
  (exists j, In j top /\ List.length labels <= j) ->
  exists e, outcome (count_hits score labels truth top prediction) = Raise e.
Proof.
  unfold count_hits. revert prediction.
  induction top as [|i top IH]; intros prediction [j [Hin Hj]]; [destruct Hin|].
  cbn [for_each]. rewrite outcome_bind.
  destruct (nth_error labels i) as [label|] eqn:E; [|cbn; eauto].
  destruct (Py.int label) as [v|]; [|cbn; eauto].
  cbn [ret outcome snd]. apply IH. exists j. split; [|exact Hj].
  destruct Hin as [<-|Hin]; [|exact Hin].
  apply nth_error_None in Hj. congruence.
Qed.

Lemma top_k_accuracy_stops (st : collected score) :
  collected_ok st ->
  (forall labels, load_labels fs (label_file cfg) = Ok labels ->
                  List.length labels < 99) ->
  exists e, outcome (top_k_accuracy fs cfg st tt 99) = Raise e.
Proof.
  intros [Hcols [Hrect [Hrows [Htruths _]]]] Hshort.
  unfold top_k_accuracy. rewrite outcome_bind.
  destruct (load_labels fs (label_file cfg)) as [labels|e] eqn:El; [|cbn; eauto].
  specialize (Hshort labels eq_refl).
  cbn [lift outcome snd]. rewrite outcome_bind.
  unfold count_predictions.
  destruct (Np.rows (final_results st)) as [|row rows] eqn:Er.
  - cbn [combine for_each ret outcome snd]. rewrite outcome_bind.
    simpl in Hrows. rewrite <- Hrows. cbn. eauto.
  - destruct (ground_truth st) as [|truth truths];
      [simpl in Hrows, Htruths; lia|].
    cbn [combine for_each]. rewrite outcome_bind.
    assert (Hlen : List.length row = 99).
    { unfold rectangular in Hrect. rewrite Er, Hcols in Hrect.
      inversion Hrect. assumption. }
    destruct (@count_hits_stops labels truth (top_k_indices 99 row) 0) as [e He].
    { exists (List.length labels). split; [|lia].
      rewrite <- Hlen at 1.
      apply (Permutation_in _ (Permutation_sym (top_k_indices_all row ltac:(lia)))).
      apply in_seq. lia. }
    rewrite He. eauto.
Qed.

(** X13.  With a label file of fewer than 99 lines, top-K mode never completes:
    whatever the folders hold and whatever the model returns, the run ends in
    an exception, at the latest when the 99 best positions are looked up. *)
Theorem short_label_file_stops_top_k (summaries_dir : string) (labels : list string) :
  load_labels fs (label_file cfg) = Ok labels ->
  List.length labels < 99 ->
  exists e, outcome (top_k_mode fs cfg summaries_dir) = Raise e.
Proof.
  intros Hlabels Hshort. unfold top_k_mode. rewrite outcome_bind.
  destruct (top_k_logdir cfg summaries_dir); [|cbn; eauto].
  cbn [lift outcome snd]. rewrite outcome_bind. cbn [emit outcome snd].
  rewrite outcome_bind.
  destruct (outcome (top_k_collect fs cfg)) as [st|e] eqn:Est; [|eauto].
  change (seq 1 99) with (seq 1 98 ++ 99 :: []).
  apply for_each_stops. intros [].
  apply top_k_accuracy_stops; [apply top_k_collect_keeps; exact Est|].
  intros labels' Hl. rewrite Hlabels in Hl. injection Hl as <-. exact Hshort.
Qed.
End ShortLabelFile.

(** ** A file that cannot be classified, in voting mode *)

Section VoteStops.
Context {score : Type} `{ArgSort score} `{TensorFlow score}.
Variable fs : Gfile.filesystem.
Variable cfg : config.
Variable output : string -> list score.
Variable labels : list string.
Hypothesis labels_loaded : load_labels fs (label_file cfg) = Ok labels.
Hypothesis labels_cover : 99 <= List.length labels.

(** X14.  Voting stops at the first file whose preprocessing or inference raises:
    the rankings of the files before it have been printed, one per file, the
    exception ends the run, and the files after it are never read. *)
Theorem failing_file_stops_the_vote (good : list string) (bad : string)
    (rest : list string) (e : exn) :
  (forall f, In f good ->
             classify cfg f = Ok (output f) /\ List.length (output f) = 99) ->
  classify cfg bad = Raise e ->
  vote_loop fs cfg (good ++ bad :: rest)
  = (flat_map (fun n => ranking labels
                          (Np.sum0 {| Np.ncols := 99;
                                      Np.rows := map output (firstn n good) |}))
              (seq 1 (List.length good)),
     Raise e).
Proof.
  intros Hgood Hbad.
  assert (Hempty : rectangular (Np.empty2 (score := score) 99)) by constructor.
  pose proof (vote_loop_rankings_from fs cfg output labels_loaded labels_cover good
                (a := Np.empty2 99) Hgood eq_refl Hempty) as Hevs.
  destruct (vote_loop_from fs cfg output labels_loaded labels_cover good
                           (a := Np.empty2 99) Hgood eq_refl Hempty) as [evs [Hrun _]].
  unfold vote_loop. rewrite for_each_app, Hrun.
  rewrite Hrun in Hevs. cbn [events fst] in Hevs. subst evs.
  cbn [for_each]. unfold vote_step at 1. rewrite Hbad.
  cbn [lift bind Np.rows Np.empty2 app]. rewrite app_nil_r. reflexivity.
Qed.
End VoteStops.

(** ** An image that cannot be classified, in top-K mode *)

Section FailedImage.
Context {score : Type} `{ArgSort score} `{TensorFlow score}.
Variable fs : Gfile.filesystem.
Variable cfg : config.

Lemma collect_file_silent (truth : nat) (st : collected score) (f : string) :
  events (collect_file cfg truth st f) = [].
Proof.
  unfold collect_file. destruct (classify cfg f) as [row|e]; [|reflexivity].
  rewrite bind_lift_ok. destruct (Np.append (final_results st) row); reflexivity.
Qed.

Lemma collect_folder_reports_nothing (st : collected score) (i : nat) :
  Forall (fun ev => is_report ev = false) (events (collect_folder fs cfg st i)).
Proof.
  unfold collect_folder. rewrite events_bind. apply Forall_app. split.
  - unfold check_directory.
    destruct (Gfile.Exists fs (numbered_folder cfg i)); repeat constructor.
  - destruct (outcome (check_directory score fs (numbered_folder cfg i)));
      [|constructor].
    rewrite events_bind. apply Forall_app. split.
    + apply for_each_events. intros s x. rewrite collect_file_silent. constructor.
    + match goal with
      | |- context [outcome ?m] => destruct (outcome m)
      end; constructor.
Qed.

Lemma collect_folder_stops (st : collected score) (i : nat) (f : string) (e : exn) :
  In f (extend_file_list fs (numbered_folder cfg i) []) ->
  classify cfg f = Raise e ->
  exists e', outcome (collect_folder fs cfg st i) = Raise e'.
Proof.
  intros Hin Hbad. unfold collect_folder. rewrite outcome_bind.
  assert (Hcheck : outcome (check_directory score fs (numbered_folder cfg i)) = Ok tt).
  { unfold check_directory.
    destruct (Gfile.Exists fs (numbered_folder cfg i)); reflexivity. }
  rewrite Hcheck, outcome_bind.
  assert (Hin' : In f (extend_file_list fs (numbered_folder cfg i) (file_list st))).
  { rewrite extend_file_list_eq in *. apply in_or_app. right. exact Hin. }
  apply in_split in Hin' as [before [after ->]].
  match goal with
  | |- context [for_each ?body (before ++ f :: after) ?s] =>
      destruct (@for_each_stops score _ _ body before after f s) as [e' He']
  end.
  - intros s. exists e. unfold collect_file. rewrite Hbad. reflexivity.
  - rewrite He'. eauto.
Qed.

(** X15.  An image that cannot be preprocessed or classified ends top-K mode
    before any accuracy is reported: the run ends in an exception, and what it
    has emitted holds no summary and no accuracy line. *)
Theorem failed_image_reports_no_accuracy (summaries_dir : string) (i : nat)
    (f : string) (e : exn) :
  i < 99 ->
  In f (extend_file_list fs (numbered_folder cfg i) []) ->
  classify cfg f = Raise e ->
  (exists e', outcome (top_k_mode fs cfg summaries_dir) = Raise e')
  /\ Forall (fun ev => is_report ev = false)
            (events (top_k_mode fs cfg summaries_dir)).
Proof.
  intros Hi Hin Hbad.
  assert (Hcollect : exists e', outcome (top_k_collect fs cfg) = Raise e').
  { unfold top_k_collect.
    assert (Hseq : In i (seq 0 99)) by (apply in_seq; lia).
    apply in_split in Hseq as [before [after ->]].
    apply for_each_stops. intros s. eapply collect_folder_stops; eauto. }
  destruct Hcollect as [e' He'].
  unfold top_k_mode. split.
  - rewrite outcome_bind.
    destruct (top_k_logdir cfg summaries_dir); [|cbn; eauto].
    cbn [lift outcome snd]. rewrite outcome_bind. cbn [emit outcome snd].
    rewrite outcome_bind, He'. eauto.
  - rewrite events_bind. cbn [lift events fst app outcome snd].
    destruct (top_k_logdir cfg summaries_dir); [|constructor].
    rewrite events_bind. cbn [emit events fst app outcome snd].
    constructor; [reflexivity|].
    rewrite events_bind, He', app_nil_r.
    apply for_each_events. intros s x. apply collect_folder_reports_nothing.
Qed.
End FailedImage.

(** * Instances of the further properties *)

Lemma final_newline_adds_no_label_witness :
  load_labels_loop
    (Gfile.readlines (("cat" +s+ String "010" "dog" +s+ String "013" "")
                      +s+ String "010" ""))
  = load_labels_loop (Gfile.readlines ("cat" +s+ String "010" "dog" +s+ String "013" "")).
Proof.
  apply (@final_newline_adds_no_label
           ("cat" +s+ String "010" "dog" +s+ String "013" "")).
  - discriminate.
  - reflexivity.
Defined.

Lemma listed_files_are_read_as_jpeg_witness :
  select_decoder "/mnt/storage/scratch/tc13007/mantas_test_augmented/set1/e.JPEG" = JPEG.
Proof.
  apply (listed_files_are_read_as_jpeg mixed_folder
           (file_name := "/mnt/storage/scratch/tc13007/mantas_test_augmented/set1")).
  - reflexivity.
  - discriminate.
  - right. left. reflexivity.
Defined.

Lemma summary_directory_name_witness :
  exists piece model rest,
    nth_error (Py.split "/" (model_file top_k_config)) 6 = Some piece
    /\ no_char "/" piece = true
    /\ piece = model +s+ rest
    /\ (rest = "" \/ prefix "_output" rest = true)
    /\ occurs "_output" model = false
    /\ "/mnt/storage/home/tc13007/Manta_Inception/tensorflow/retrain_logs/inception_top_k"
       = Args.summaries_dir Args.defaults +s+ "/" +s+ model +s+ "_top_k".
Proof.
  apply (summary_directory_name top_k_config (Args.summaries_dir Args.defaults)).
  reflexivity.
Defined.

Lemma missing_label_raises_index_error_witness :
  single_image_mode (H1 := toy_tensorflow uneven_outputs) (numbered [] [7; 8])
                    default_config
  = ([PrintPair "7" 3%Z], Raise IndexError).
Proof.
  apply (missing_label_raises_index_error (H1 := toy_tensorflow uneven_outputs)
           (numbered [] [7; 8]) default_config [0] [1]
           (results := [3; 1; 2]%Z) (labels := ["7"; "8"]) (i := 2)).
  - reflexivity.
  - reflexivity.
  - reflexivity.
  - intros j [<- | []]. simpl. lia.
  - simpl. lia.
Defined.

Lemma small_model_prints_every_class_witness :
  exists top,
    single_image_mode (H1 := toy_tensorflow three_outputs) one_image default_config
    = (map (fun i => PrintPair (nth i (map Py.rstrip (Gfile.readlines shifted_labels)) "")
                               (Np.item [1; 2; 3]%Z i))
           top,
       Ok tt)
    /\ Permutation top (seq 0 3)
    /\ StronglySorted
         (fun i j => score_leb (Np.item [1; 2; 3]%Z j) (Np.item [1; 2; 3]%Z i) = true)
         top.
Proof.
  apply (small_model_prints_every_class (H1 := toy_tensorflow three_outputs)
           one_image default_config (results := [1; 2; 3]%Z)).
  - reflexivity.
  - simpl. lia.
  - reflexivity.
  - apply Nat.leb_le. reflexivity.
Defined.

Lemma collection_pairs_outputs_with_folders_witness :
  exists st,
    outcome (top_k_collect (H1 := stored_tensorflow (Gfile.fs_paths two_folders) constant_output) two_folders top_k_config)
    = Ok st
    /\ evaluated_images st
       = List.length
           (flat_map (fun i => extend_file_list two_folders
                                                (numbered_folder top_k_config i) [])
                     (seq 0 99))
    /\ ground_truth st
       = flat_map
           (fun i => repeat (Z.of_nat i)
                            (List.length
                               (extend_file_list two_folders
                                                 (numbered_folder top_k_config i) [])))
           (seq 0 99)
    /\ Forall2 (fun file row =>
                  classify (H1 := stored_tensorflow (Gfile.fs_paths two_folders) constant_output) top_k_config file
                  = Ok row)
               (flat_map (fun i => extend_file_list two_folders
                                                    (numbered_folder top_k_config i) [])
                         (seq 0 99))
               (Np.rows (final_results st)).
Proof.
  apply (collection_pairs_outputs_with_folders (H1 := stored_tensorflow (Gfile.fs_paths two_folders) constant_output)
           (fs := two_folders) (cfg := top_k_config)).
  exact (proj1 two_folders_classified).
Defined.

Lemma reversed_labels_values (j : nat) :
  j < 99 ->
  label_int (map Py.rstrip (Gfile.readlines reversed_labels)) j
  = Some (Z.of_nat (98 - j)).
Proof.
  intros Hj.
  assert (Hall : forallb
                   (fun j => match label_int (map Py.rstrip
                                                  (Gfile.readlines reversed_labels)) j with
                             | Some v => (v =? Z.of_nat (98 - j))%Z
                             | None => false
                             end)
                   (seq 0 99) = true) by (vm_compute; reflexivity).
  rewrite forallb_forall in Hall. specialize (Hall j).
  destruct (label_int _ j) as [v|].
  - f_equal. apply Z.eqb_eq. apply Hall. apply in_seq. lia.
  - discriminate Hall. apply in_seq. lia.
Qed.



Lemma vote_prints_a_ranking_per_file_witness :
  vote_loop (H1 := toy_tensorflow scaled_output) two_votes vote_config [file_a; file_bcd]
  = (flat_map (fun n => ranking (map Py.rstrip (Gfile.readlines reversed_labels))
                          (Np.sum0 {| Np.ncols := 99;
                                      Np.rows := map vote_output
                                                     (firstn n [file_a; file_bcd]) |}))
              (seq 1 2),
     Ok {| Np.ncols := 99; Np.rows := map vote_output [file_a; file_bcd] |})
  /\ List.length (events (vote_loop (H1 := toy_tensorflow scaled_output) two_votes
                                    vote_config [file_a; file_bcd]))
     = 10 * 2.
Proof.
  apply (vote_prints_a_ranking_per_file (H1 := toy_tensorflow scaled_output)
           two_votes vote_config vote_output
           (labels := map Py.rstrip (Gfile.readlines reversed_labels))).
  - reflexivity.
  - apply Nat.leb_le. reflexivity.
  - intros f [<- | [<- | []]]; split; reflexivity.
Defined.

Lemma folder_numbers_as_labels_witness :
  load_labels (numbered [] [2; 0; 1]) (label_file default_config)
  = Ok (map Py.str [2; 0; 1])
  /\ count_hits Z (map Py.str [2; 0; 1]) (Z.of_nat 0) [1; 2] 0
     = ret (0 + List.length (filter (fun j => nth j [2; 0; 1] 0 =? 0) [1; 2])).
Proof.
  apply (folder_numbers_as_labels (score := Z) (numbered [] [2; 0; 1])
           (label_file default_config) [2; 0; 1] 0 [1; 2] 0).
  - reflexivity.
  - intros j [<- | [<- | []]]; simpl; lia.
Defined.

Lemma short_label_file_stops_top_k_witness :
  exists e,
    outcome (top_k_mode (H1 := toy_tensorflow constant_output)
                        (numbered [file_3a] [0; 1; 2]) top_k_config
                        (Args.summaries_dir Args.defaults))
    = Raise e.
Proof.
  apply (short_label_file_stops_top_k (H1 := toy_tensorflow constant_output)
           (numbered [file_3a] [0; 1; 2]) top_k_config
           (Args.summaries_dir Args.defaults) (labels := ["0"; "1"; "2"])).
  - reflexivity.
  - simpl. lia.
Defined.

Lemma failing_file_stops_the_vote_witness :
  vote_loop (H1 := corrupt_tensorflow file_bcd scaled_output) two_votes vote_config
            ([file_a] ++ file_bcd :: [file_a])
  = (flat_map (fun n => ranking (map Py.rstrip (Gfile.readlines reversed_labels))
                          (Np.sum0 {| Np.ncols := 99;
                                      Np.rows := map vote_output (firstn n [file_a]) |}))
              (seq 1 1),
     Raise OpError).
Proof.
  apply (failing_file_stops_the_vote (H1 := corrupt_tensorflow file_bcd scaled_output)
           two_votes vote_config vote_output
           (labels := map Py.rstrip (Gfile.readlines reversed_labels))).
  - reflexivity.
  - apply Nat.leb_le. reflexivity.
  - intros f [<- | []]; split; reflexivity.
  - reflexivity.
Defined.

Lemma failed_image_reports_no_accuracy_witness :
  (exists e',
      outcome (top_k_mode (H1 := corrupt_tensorflow file_3b constant_output)
                          two_folders top_k_config (Args.summaries_dir Args.defaults))
      = Raise e')
  /\ Forall (fun ev => is_report ev = false)
            (events (top_k_mode (H1 := corrupt_tensorflow file_3b constant_output)
                                two_folders top_k_config
                                (Args.summaries_dir Args.defaults))).
Proof.
  apply (failed_image_reports_no_accuracy
           (H1 := corrupt_tensorflow file_3b constant_output)
           two_folders top_k_config (Args.summaries_dir Args.defaults)
           (i := 3) file_3b (e := OpError)).
  - lia.
  - assert (Hfiles : extend_file_list two_folders (numbered_folder top_k_config 3) []
                     = [file_3a; file_3b]) by (vm_compute; reflexivity).
    rewrite Hfiles. right. left. reflexivity.
  - vm_compute. reflexivity.
Defined.
